(** * Telnet terminal multiplexor (sim_tmxr) and console adapter (sim_console)

    A shallow embedding of the receive filter, the transmit ring, the
    connection acceptor and the console output path, followed by the
    properties established about them. *)

From Stdlib Require Import ZArith List Bool Lia String Ascii DecimalString.
Import ListNotations.
Local Open Scope Z_scope.

(** ** Machine integers

    [int32] values are carried as [Z]; arithmetic on them is reduced to the
    two's complement range, as the supported targets compile it.  [char] is
    signed on those targets (the Telnet constants below are negative for
    that reason), so a conversion to [char] sign-extends the low byte. *)

Definition INT32_MAX : Z := 2147483647.

Definition wrap32 (x : Z) : Z := (x + 2147483648) mod 4294967296 - 2147483648.
Definition add32 (a b : Z) : Z := wrap32 (a + b).
Definition sub32 (a b : Z) : Z := wrap32 (a - b).

(** [(char) x] *)
Definition to_char (x : Z) : Z := (x + 128) mod 256 - 128.

(** C truth value of an integer used as a condition. *)
Definition nz (x : Z) : bool := negb (x =? 0).

(** ** Arrays

    C arrays are lists indexed by [Z].  A read past the end yields 0 and a
    store past the end (or at a negative index) leaves the array as it
    is; the C program has no defined behaviour there. *)

Fixpoint upd_nth (n : nat) (a : list Z) (v : Z) : list Z :=
  match a, n with
  | [], _ => []
  | _ :: t, O => v :: t
  | x :: t, S n' => x :: upd_nth n' t v
  end.

Definition aget (a : list Z) (i : Z) : Z := nth (Z.to_nat i) a 0.

Definition aset (a : list Z) (i : Z) (v : Z) : list Z :=
  if i <? 0 then a else upd_nth (Z.to_nat i) a v.

(** [memset (&a[i], v, n)] *)
Fixpoint afill (a : list Z) (i : Z) (v : Z) (n : nat) : list Z :=
  match n with
  | O => a
  | S n' => afill (aset a i v) (i + 1) v n'
  end.

(** Bytes delivered by the socket layer into [&a[i]]. *)
Fixpoint astore (a : list Z) (i : Z) (data : list Z) : list Z :=
  match data with
  | [] => a
  | b :: t => astore (aset a i (to_char b)) (i + 1) t
  end.

(** [&a[i]] for [n] bytes, as handed to the socket layer. *)
Definition aslice (a : list Z) (i n : Z) : list Z :=
  firstn (Z.to_nat n) (skipn (Z.to_nat i) a).

(** A C string as the list of its [char] values. *)
Definition cstr (s : string) : list Z :=
  map (fun c => to_char (Z.of_N (N_of_ascii c))) (list_ascii_of_string s).

(** ** Telnet protocol constants *)

Definition TN_IAC : Z := -1.       (* protocol delim *)
Definition TN_DONT : Z := -2.      (* dont *)
Definition TN_DO : Z := -3.        (* do *)
Definition TN_WONT : Z := -4.      (* wont *)
Definition TN_WILL : Z := -5.      (* will *)
Definition TN_SB : Z := -6.        (* sub-option negotiation *)
Definition TN_GA : Z := -7.        (* go ahead *)
Definition TN_EL : Z := -8.        (* erase line *)
Definition TN_EC : Z := -9.        (* erase character *)
Definition TN_AYT : Z := -10.      (* are you there *)
Definition TN_AO : Z := -11.       (* abort output *)
Definition TN_IP : Z := -12.       (* interrupt process *)
Definition TN_BRK : Z := -13.      (* break *)
Definition TN_DATAMK : Z := -14.   (* data mark *)
Definition TN_NOP : Z := -15.      (* no operation *)
Definition TN_SE : Z := -16.       (* end sub-option negot *)

Definition TN_BIN : Z := 0.        (* bin *)
Definition TN_ECHO : Z := 1.       (* echo *)
Definition TN_SGA : Z := 3.        (* sga *)
Definition TN_LINE : Z := 34.      (* line mode *)
Definition TN_CR : Z := 13.        (* carriage return, 015 *)
Definition TN_LF : Z := 10.        (* line feed, 012 *)
Definition TN_NUL : Z := 0.        (* null *)

(** Telnet line states *)

Definition TNS_NORM : Z := 0.      (* normal *)
Definition TNS_IAC : Z := 1.       (* IAC seen *)
Definition TNS_WILL : Z := 2.      (* WILL seen *)
Definition TNS_WONT : Z := 3.      (* WONT seen *)
Definition TNS_SKIP : Z := 4.      (* skip next cmd *)
Definition TNS_CRPAD : Z := 5.     (* CR padding *)
Definition TNS_DO : Z := 6.        (* DO request pending rejection *)
Definition TNS_DONT : Z := 7.      (* DONT request pending rejection *)

(** The option mantra sent on every accept (the build without VM_VAX). *)
Definition mantra : list Z :=
  [ TN_IAC; TN_WILL; TN_LINE;
    TN_IAC; TN_WILL; TN_SGA;
    TN_IAC; TN_WILL; TN_ECHO;
    TN_IAC; TN_WILL; TN_BIN;
    TN_IAC; TN_DO; TN_BIN ].

(** ** Declarations of the absent headers

    [sim_defs.h], [sim_tmxr.h] and [sim_sock.h] are not part of the sources
    at hand.  The constants the code takes from them are gathered in one
    interface; every definition and theorem below is stated for an
    arbitrary instance of it. *)

Class SimDefs : Type := {
  TMXR_MAXBUF : Z;     (* size of the receive buffer *)
  TMXR_GUARD : Z;      (* slack kept free for Telnet cruft *)
  SOCKET_ERROR : Z;    (* result of a failed socket write *)
  INVALID_SOCKET : Z;  (* result of an accept without a caller *)
  TMXR_VALID : Z;      (* flag: tmxr_getc_ln returns a character *)
  SCPE_BREAK : Z;      (* flag: the character is a received BREAK *)
  SCPE_KFLAG : Z;      (* flag: the value is a keyboard character *)
  TTUF_M_MODE : Z;     (* mask of the conversion mode *)
  TTUF_MODE_7B : Z;
  TTUF_MODE_8B : Z;
  TTUF_MODE_UC : Z;
  TTUF_MODE_7P : Z;
  TTUF_KSR : Z;        (* KSR flag *)
  sim_name : string    (* name of the simulator, an extern of scp *)
}.

(** Status codes ([t_stat]); only their being distinct matters here. *)
Inductive t_stat : Type :=
| SCPE_OK
| SCPE_LOST
| SCPE_STALL
| SCPE_TTOERR.

Definition SOCKET := Z.
Definition FILE := Z.

(** ** Line descriptor *)

Record TMLN : Type := mkTMLN {
  conn : Z;                   (* line conn (socket, 0 = none) *)
  ipad : Z;                   (* IP address *)
  cnms : Z;                   (* conn time *)
  tsta : Z;                   (* Telnet state *)
  rcve : Z;                   (* rcv enable *)
  xmte : Z;                   (* xmt enable *)
  dstb : Z;                   (* disable Tlnt bin *)
  rxbpr : Z;                  (* rcv buf remove *)
  rxbpi : Z;                  (* rcv buf insert *)
  rxcnt : Z;                  (* rcv count *)
  txbpr : Z;                  (* xmt buf remove *)
  txbpi : Z;                  (* xmt buf insert *)
  txcnt : Z;                  (* xmt count *)
  txdrp : Z;                  (* xmt drop count *)
  txbsz : Z;                  (* xmt buffer size *)
  txbfd : Z;                  (* xmt buffered flag *)
  txlog : option FILE;        (* xmt log file, None = NULL *)
  rxb : list Z;               (* rcv buffer *)
  rbr : list Z;               (* rcv break flags *)
  txb : list Z                (* xmt buffer *)
}.

Definition set_conn (v : Z) (lp : TMLN) : TMLN :=
  mkTMLN v (ipad lp) (cnms lp) (tsta lp) (rcve lp) (xmte lp) (dstb lp)
    (rxbpr lp) (rxbpi lp) (rxcnt lp) (txbpr lp) (txbpi lp) (txcnt lp)
    (txdrp lp) (txbsz lp) (txbfd lp) (txlog lp) (rxb lp) (rbr lp) (txb lp).

Definition set_ipad (v : Z) (lp : TMLN) : TMLN :=
  mkTMLN (conn lp) v (cnms lp) (tsta lp) (rcve lp) (xmte lp) (dstb lp)
    (rxbpr lp) (rxbpi lp) (rxcnt lp) (txbpr lp) (txbpi lp) (txcnt lp)
    (txdrp lp) (txbsz lp) (txbfd lp) (txlog lp) (rxb lp) (rbr lp) (txb lp).

Definition set_cnms (v : Z) (lp : TMLN) : TMLN :=
  mkTMLN (conn lp) (ipad lp) v (tsta lp) (rcve lp) (xmte lp) (dstb lp)
    (rxbpr lp) (rxbpi lp) (rxcnt lp) (txbpr lp) (txbpi lp) (txcnt lp)
    (txdrp lp) (txbsz lp) (txbfd lp) (txlog lp) (rxb lp) (rbr lp) (txb lp).

Definition set_tsta (v : Z) (lp : TMLN) : TMLN :=
  mkTMLN (conn lp) (ipad lp) (cnms lp) v (rcve lp) (xmte lp) (dstb lp)
    (rxbpr lp) (rxbpi lp) (rxcnt lp) (txbpr lp) (txbpi lp) (txcnt lp)
    (txdrp lp) (txbsz lp) (txbfd lp) (txlog lp) (rxb lp) (rbr lp) (txb lp).

Definition set_rcve (v : Z) (lp : TMLN) : TMLN :=
  mkTMLN (conn lp) (ipad lp) (cnms lp) (tsta lp) v (xmte lp) (dstb lp)
    (rxbpr lp) (rxbpi lp) (rxcnt lp) (txbpr lp) (txbpi lp) (txcnt lp)
    (txdrp lp) (txbsz lp) (txbfd lp) (txlog lp) (rxb lp) (rbr lp) (txb lp).

Definition set_xmte (v : Z) (lp : TMLN) : TMLN :=
  mkTMLN (conn lp) (ipad lp) (cnms lp) (tsta lp) (rcve lp) v (dstb lp)
    (rxbpr lp) (rxbpi lp) (rxcnt lp) (txbpr lp) (txbpi lp) (txcnt lp)
    (txdrp lp) (txbsz lp) (txbfd lp) (txlog lp) (rxb lp) (rbr lp) (txb lp).

Definition set_dstb (v : Z) (lp : TMLN) : TMLN :=
  mkTMLN (conn lp) (ipad lp) (cnms lp) (tsta lp) (rcve lp) (xmte lp) v
    (rxbpr lp) (rxbpi lp) (rxcnt lp) (txbpr lp) (txbpi lp) (txcnt lp)
    (txdrp lp) (txbsz lp) (txbfd lp) (txlog lp) (rxb lp) (rbr lp) (txb lp).

Definition set_rxbpr (v : Z) (lp : TMLN) : TMLN :=
  mkTMLN (conn lp) (ipad lp) (cnms lp) (tsta lp) (rcve lp) (xmte lp) (dstb lp)
    v (rxbpi lp) (rxcnt lp) (txbpr lp) (txbpi lp) (txcnt lp) (txdrp lp)
    (txbsz lp) (txbfd lp) (txlog lp) (rxb lp) (rbr lp) (txb lp).

Definition set_rxbpi (v : Z) (lp : TMLN) : TMLN :=
  mkTMLN (conn lp) (ipad lp) (cnms lp) (tsta lp) (rcve lp) (xmte lp) (dstb lp)
    (rxbpr lp) v (rxcnt lp) (txbpr lp) (txbpi lp) (txcnt lp) (txdrp lp)
    (txbsz lp) (txbfd lp) (txlog lp) (rxb lp) (rbr lp) (txb lp).

Definition set_rxcnt (v : Z) (lp : TMLN) : TMLN :=
  mkTMLN (conn lp) (ipad lp) (cnms lp) (tsta lp) (rcve lp) (xmte lp) (dstb lp)
    (rxbpr lp) (rxbpi lp) v (txbpr lp) (txbpi lp) (txcnt lp) (txdrp lp)
    (txbsz lp) (txbfd lp) (txlog lp) (rxb lp) (rbr lp) (txb lp).

Definition set_txbpr (v : Z) (lp : TMLN) : TMLN :=
  mkTMLN (conn lp) (ipad lp) (cnms lp) (tsta lp) (rcve lp) (xmte lp) (dstb lp)
    (rxbpr lp) (rxbpi lp) (rxcnt lp) v (txbpi lp) (txcnt lp) (txdrp lp)
    (txbsz lp) (txbfd lp) (txlog lp) (rxb lp) (rbr lp) (txb lp).

Definition set_txbpi (v : Z) (lp : TMLN) : TMLN :=
  mkTMLN (conn lp) (ipad lp) (cnms lp) (tsta lp) (rcve lp) (xmte lp) (dstb lp)
    (rxbpr lp) (rxbpi lp) (rxcnt lp) (txbpr lp) v (txcnt lp) (txdrp lp)
    (txbsz lp) (txbfd lp) (txlog lp) (rxb lp) (rbr lp) (txb lp).

Definition set_txcnt (v : Z) (lp : TMLN) : TMLN :=
  mkTMLN (conn lp) (ipad lp) (cnms lp) (tsta lp) (rcve lp) (xmte lp) (dstb lp)
    (rxbpr lp) (rxbpi lp) (rxcnt lp) (txbpr lp) (txbpi lp) v (txdrp lp)
    (txbsz lp) (txbfd lp) (txlog lp) (rxb lp) (rbr lp) (txb lp).

Definition set_txdrp (v : Z) (lp : TMLN) : TMLN :=
  mkTMLN (conn lp) (ipad lp) (cnms lp) (tsta lp) (rcve lp) (xmte lp) (dstb lp)
    (rxbpr lp) (rxbpi lp) (rxcnt lp) (txbpr lp) (txbpi lp) (txcnt lp) v
    (txbsz lp) (txbfd lp) (txlog lp) (rxb lp) (rbr lp) (txb lp).

Definition set_rxb (v : list Z) (lp : TMLN) : TMLN :=
  mkTMLN (conn lp) (ipad lp) (cnms lp) (tsta lp) (rcve lp) (xmte lp) (dstb lp)
    (rxbpr lp) (rxbpi lp) (rxcnt lp) (txbpr lp) (txbpi lp) (txcnt lp)
    (txdrp lp) (txbsz lp) (txbfd lp) (txlog lp) v (rbr lp) (txb lp).

Definition set_rbr (v : list Z) (lp : TMLN) : TMLN :=
  mkTMLN (conn lp) (ipad lp) (cnms lp) (tsta lp) (rcve lp) (xmte lp) (dstb lp)
    (rxbpr lp) (rxbpi lp) (rxcnt lp) (txbpr lp) (txbpi lp) (txcnt lp)
    (txdrp lp) (txbsz lp) (txbfd lp) (txlog lp) (rxb lp) v (txb lp).

Definition set_txb (v : list Z) (lp : TMLN) : TMLN :=
  mkTMLN (conn lp) (ipad lp) (cnms lp) (tsta lp) (rcve lp) (xmte lp) (dstb lp)
    (rxbpr lp) (rxbpi lp) (rxcnt lp) (txbpr lp) (txbpi lp) (txcnt lp)
    (txdrp lp) (txbsz lp) (txbfd lp) (txlog lp) (rxb lp) (rbr lp) v.

(** The line descriptor a zero-initialised [TMLN] denotes. *)
Definition tmln_zero : TMLN :=
  mkTMLN 0 0 0 0 0 0 0 0 0 0 0 0 0 0 0 0 None [] [] [].

(** ** Multiplexor descriptor

    [ldsc] is the array of line descriptors, [lnorder] the optional
    connection order array ([None] is the null pointer) and [dptr] the
    multiplexer device, represented by the name [sim_dname] reports. *)

Record TMXR : Type := mkTMXR {
  lines : Z;                     (* # lines *)
  port : Z;                      (* listening port *)
  master : SOCKET;               (* master socket *)
  ldsc : list TMLN;              (* line descriptors *)
  lnorder : option (list Z);     (* line connection order *)
  dptr : option string;          (* multiplexer device *)
  buffered : Z                   (* buffered line behaviour and size *)
}.

Definition set_ldsc (v : list TMLN) (mp : TMXR) : TMXR :=
  mkTMXR (lines mp) (port mp) (master mp) v (lnorder mp) (dptr mp)
    (buffered mp).

Fixpoint upd_line (n : nat) (l : list TMLN) (v : TMLN) : list TMLN :=
  match l, n with
  | [], _ => []
  | _ :: t, O => v :: t
  | x :: t, S n' => x :: upd_line n' t v
  end.

(** [mp->ldsc + i], read and written back. *)
Definition get_line (mp : TMXR) (i : Z) : TMLN :=
  nth (Z.to_nat i) (ldsc mp) tmln_zero.

Definition put_line (mp : TMXR) (i : Z) (lp : TMLN) : TMXR :=
  if i <? 0 then mp else set_ldsc (upd_line (Z.to_nat i) (ldsc mp) lp) mp.

(** ** The outside world

    Calls into the socket layer, the C library and the host are recorded
    as events, newest first.  What such a call returns is up to the
    environment: [Net] gives the result of a call from the history so far,
    and every theorem holds for all environments. *)

Inductive Event : Type :=
| EvAccept (m : SOCKET) (newsock : SOCKET) (ipaddr : Z)
| EvRead (s : SOCKET) (max : Z) (nbytes : Z) (data : list Z)
| EvWrite (s : SOCKET) (buf : list Z) (sbytes : Z)
| EvClose (s : SOCKET) (is_master : Z)
| EvFputc (c : Z) (f : FILE)
| EvFflush (f : FILE)
| EvMsec (t : Z)
| EvPutchar (c : Z) (r : t_stat).

Record Net : Type := mkNet {
  net_accept : list Event -> SOCKET -> SOCKET * Z;
  net_read : list Event -> SOCKET -> Z -> Z * list Z;
  net_write : list Event -> SOCKET -> list Z -> Z;
  net_msec : list Event -> Z;
  net_putchar : list Event -> Z -> t_stat
}.

Definition IO (A : Type) : Type := list Event -> A * list Event.

Definition ret {A : Type} (x : A) : IO A := fun tr => (x, tr).

Definition bind {A B : Type} (c : IO A) (k : A -> IO B) : IO B :=
  fun tr => let (x, tr') := c tr in k x tr'.

Notation "x <- c ;; k" := (bind c (fun x => k))
  (at level 61, c at next level, right associativity).
Notation "c ;;; k" := (bind c (fun _ => k))
  (at level 61, right associativity).

(** Bytes that reached the peer of socket [s], oldest first. *)
Fixpoint sent (s : SOCKET) (tr : list Event) : list Z :=
  match tr with
  | [] => []
  | EvWrite s' buf n :: tr' =>
      if (s' =? s) && (0 <? n) then sent s tr' ++ firstn (Z.to_nat n) buf
      else sent s tr'
  | _ :: tr' => sent s tr'
  end.

Definition crlf : string := String "013"%char (String "010"%char EmptyString).
Definition lf : string := String "010"%char EmptyString.

(** ** The multiplexor library (sim_tmxr)

    The routines below follow sim_tmxr.cpp one to one.  A pointer to a
    line descriptor becomes the descriptor passed in and handed back; the
    calls to [tmxr_debug], which only format the bytes for the debug
    stream, and the back pointer [lp->mp] they use, are left out. *)

Section Tmxr.

Context {defs : SimDefs}.
Variable net : Net.

(** *** Primitive operations on the world *)

Definition sim_accept_conn (m : SOCKET) : IO (SOCKET * Z) :=
  fun tr => let r := net_accept net tr m in (r, EvAccept m (fst r) (snd r) :: tr).

Definition sim_read_sock (s : SOCKET) (max : Z) : IO (Z * list Z) :=
  fun tr => let r := net_read net tr s max in (r, EvRead s max (fst r) (snd r) :: tr).

Definition sim_write_sock (s : SOCKET) (buf : list Z) : IO Z :=
  fun tr => let n := net_write net tr s buf in (n, EvWrite s buf n :: tr).

Definition sim_close_sock (s : SOCKET) (is_master : Z) : IO unit :=
  fun tr => (tt, EvClose s is_master :: tr).

Definition fputc (c : Z) (f : FILE) : IO unit :=
  fun tr => (tt, EvFputc c f :: tr).

Definition fflush (f : FILE) : IO unit :=
  fun tr => (tt, EvFflush f :: tr).

Definition sim_os_msec : IO Z :=
  fun tr => let t := net_msec net tr in (t, EvMsec t :: tr).

Definition sim_os_putchar (c : Z) : IO t_stat :=
  fun tr => let r := net_putchar net tr c in (r, EvPutchar c r :: tr).

(** *** Queue lengths *)

(** Return count of buffered characters for line *)
Definition tmxr_tqln (lp : TMLN) : Z :=
  add32 (sub32 (txbpi lp) (txbpr lp))
        (if txbpi lp <? txbpr lp then txbsz lp else 0).

(** Return count of available characters for line *)
Definition tmxr_rqln (lp : TMLN) : Z :=
  add32 (sub32 (rxbpi lp) (rxbpr lp))
        (if rxbpi lp <? rxbpr lp then TMXR_MAXBUF else 0).

(** *** Receive side *)

(** The copy loop of [tmxr_rmvrc], [n] iterations from position [p]. *)
Fixpoint rmvrc_loop (n : nat) (lp : TMLN) (p : Z) : TMLN :=
  match n with
  | O => lp
  | S n' =>
      let lp1 := set_rxb (aset (rxb lp) p (aget (rxb lp) (add32 p 1))) lp in
      let lp2 := set_rbr (aset (rbr lp1) p (aget (rbr lp1) (add32 p 1))) lp1 in
      rmvrc_loop n' lp2 (add32 p 1)
  end.

(** Remove character p (and matching status) from line l input buffer *)
Definition tmxr_rmvrc (lp : TMLN) (p : Z) : TMLN :=
  let lp1 := rmvrc_loop (Z.to_nat (rxbpi lp - p)) lp p in
  set_rxbpi (sub32 (rxbpi lp1) 1) lp1.

(** Get character from specific line *)
Definition tmxr_getc_ln (lp : TMLN) : Z * TMLN :=
  let '(val, lp1) :=
    if nz (conn lp) && nz (rcve lp) then
      let j := sub32 (rxbpi lp) (rxbpr lp) in
      if nz j then
        let tmp := aget (rxb lp) (rxbpr lp) in
        let val := Z.lor TMXR_VALID (Z.land tmp 255) in
        let val := if nz (aget (rbr lp) (rxbpr lp))
                   then Z.lor val SCPE_BREAK else val in
        (val, set_rxbpr (add32 (rxbpr lp) 1) lp)
      else (0, lp)
    else (0, lp) in
  let lp2 := if rxbpi lp1 =? rxbpr lp1
             then set_rxbpr 0 (set_rxbpi 0 lp1) else lp1 in
  (val, lp2).

(** The [switch (tmp)] of the IAC state: the command byte after an IAC. *)
Definition iac_command (lp : TMLN) (tmp : Z) : TMLN :=
  if tmp =? TN_WILL then set_tsta TNS_WILL lp
  else if tmp =? TN_WONT then set_tsta TNS_WONT lp
  else if tmp =? TN_DO then set_tsta TNS_DO lp
  else if tmp =? TN_DONT then set_tsta TNS_DONT lp
  else if (tmp =? TN_GA) || (tmp =? TN_EL) || (tmp =? TN_EC)
          || (tmp =? TN_AYT) || (tmp =? TN_AO) || (tmp =? TN_IP)
          || (tmp =? TN_NOP) then set_tsta TNS_NORM lp
  else if (tmp =? TN_SB) || (tmp =? TN_DATAMK) || (tmp =? TN_SE)
       then set_tsta TNS_NORM lp
  else lp.

(** One pass through the body of the loop that examines new data:
    the character at [j] is looked at in the current Telnet state; the
    result is the line and the next [j]. *)
Definition rx_filter_step (lp : TMLN) (j : Z) : TMLN * Z :=
  let tmp := aget (rxb lp) j in
  if tsta lp =? TNS_NORM then
    if tmp =? TN_IAC then (tmxr_rmvrc (set_tsta TNS_IAC lp) j, j)
    else
      let lp1 := if (tmp =? TN_CR) && nz (dstb lp)
                 then set_tsta TNS_CRPAD lp else lp in
      (lp1, add32 j 1)
  else if tsta lp =? TNS_IAC then
    if tmp =? TN_IAC then (set_tsta TNS_NORM lp, add32 j 1)
    else if tmp =? TN_BRK then
      let lp1 := set_tsta TNS_NORM lp in
      let lp2 := set_rxb (aset (rxb lp1) j 0) lp1 in
      let lp3 := set_rbr (aset (rbr lp2) j 1) lp2 in
      (lp3, add32 j 1)
    else (tmxr_rmvrc (iac_command lp tmp) j, j)
  else if (tsta lp =? TNS_WILL) || (tsta lp =? TNS_WONT) then
    let lp1 := if tmp =? TN_BIN
               then (if tsta lp =? TNS_WILL then set_dstb 0 lp
                     else set_dstb 1 lp)
               else lp in
    (set_tsta TNS_NORM (tmxr_rmvrc lp1 j), j)
  else if tsta lp =? TNS_CRPAD then
    let lp1 := set_tsta TNS_NORM lp in
    let lp2 := if (tmp =? TN_LF) || (tmp =? TN_NUL)
               then tmxr_rmvrc lp1 j else lp1 in
    (lp2, j)
  else (set_tsta TNS_NORM (tmxr_rmvrc lp j), j).

(** The loop [for (; j < lp->rxbpi; )], with [n] passes allotted.  A pass
    advances [j] or shortens the buffer, except in the CR padding state
    before a character that is kept: that pass only returns to the normal
    state, and the character is looked at again.  Twice the number of
    characters to examine, plus one, is therefore enough; see
    [rx_filter_exit] for the loop condition on return. *)
Fixpoint rx_filter (n : nat) (lp : TMLN) (j : Z) : TMLN * Z :=
  match n with
  | O => (lp, j)
  | S n' =>
      if j <? rxbpi lp then
        let '(lp1, j1) := rx_filter_step lp j in rx_filter n' lp1 j1
      else (lp, j)
  end.

(** *** Transmit side *)

Definition TXBUF_AVAIL (lp : TMLN) : Z := sub32 (txbsz lp) (tmxr_tqln lp).

(** The macro [TXBUF_CHAR]: store, advance and wrap the insert pointer,
    and push the remove pointer on when the two meet.  ([%] is the C
    remainder; the C program divides by [txbsz] without a test.) *)
Definition TXBUF_CHAR (lp : TMLN) (c : Z) : TMLN :=
  let lp1 := set_txb (aset (txb lp) (txbpi lp) (to_char c)) lp in
  let lp2 := set_txbpi (add32 (txbpi lp1) 1) lp1 in
  let lp3 := set_txbpi (Z.rem (txbpi lp2) (txbsz lp2)) lp2 in
  if txbpi lp3 =? txbpr lp3 then
    let lp4 := set_txbpr (Z.rem (add32 1 (txbpr lp3)) (txbsz lp3)) lp3 in
    set_txdrp (add32 (txdrp lp4) 1) lp4
  else lp3.

(** Store character in line buffer *)
Definition tmxr_putc_ln (lp : TMLN) (chr : Z) : IO (t_stat * TMLN) :=
  (match txlog lp with
   | Some f => fputc chr f
   | None => ret tt
   end) ;;;
  if (conn lp =? 0) && negb (nz (txbfd lp)) then
    match txlog lp with
    | Some _ => ret (SCPE_OK, lp)
    | None => ret (SCPE_LOST, set_txdrp (add32 (txdrp lp) 1) lp)
    end
  else if nz (txbfd lp) || (1 <? TXBUF_AVAIL lp) then
    let lp1 := if TN_IAC =? to_char chr then TXBUF_CHAR lp TN_IAC else lp in
    let lp2 := TXBUF_CHAR lp1 chr in
    let lp3 := if negb (nz (txbfd lp2)) && (TXBUF_AVAIL lp2 <=? TMXR_GUARD)
               then set_xmte 0 lp2 else lp2 in
    ret (SCPE_OK, lp3)
  else
    ret (SCPE_STALL, set_xmte 0 (set_txdrp (add32 (txdrp lp) 1) lp)).

(** The bookkeeping after a socket write that did not fail. *)
Definition tx_sent (lp : TMLN) (sbytes : Z) : TMLN :=
  let lp1 := set_txbpr (add32 (txbpr lp) sbytes) lp in
  let lp2 := if txbsz lp1 <=? txbpr lp1 then set_txbpr 0 lp1 else lp1 in
  set_txcnt (add32 (txcnt lp2) sbytes) lp2.

(** Send buffered data across network; returns number of bytes still
    buffered *)
Definition tmxr_send_buffered_data (lp : TMLN) : IO (Z * TMLN) :=
  let nbytes := tmxr_tqln lp in
  if nz nbytes then
    sbytes <- (if txbpr lp <? txbpi lp
               then sim_write_sock (conn lp)
                      (aslice (txb lp) (txbpr lp) nbytes)
               else sim_write_sock (conn lp)
                      (aslice (txb lp) (txbpr lp)
                              (sub32 (txbsz lp) (txbpr lp)))) ;;
    let '(nbytes1, lp1) :=
      if negb (sbytes =? SOCKET_ERROR)
      then (sub32 nbytes sbytes, tx_sent lp sbytes)
      else (nbytes, lp) in
    if nz nbytes1 && (txbpr lp1 =? 0) then
      sbytes2 <- sim_write_sock (conn lp1) (aslice (txb lp1) 0 nbytes1) ;;
      if negb (sbytes2 =? SOCKET_ERROR)
      then ret (sub32 nbytes1 sbytes2, tx_sent lp1 sbytes2)
      else ret (nbytes1, lp1)
    else ret (nbytes1, lp1)
  else ret (nbytes, lp).

(** A loop [for (i = 0; i < mp->lines; i++)] over the line descriptors;
    [n] passes remain and the next one is for line [i]. *)
Fixpoint for_lines (body : TMLN -> IO TMLN) (n : nat) (i : Z) (mp : TMXR)
  : IO TMXR :=
  match n with
  | O => ret mp
  | S n' =>
      lp <- body (get_line mp i) ;;
      for_lines body n' (add32 i 1) (put_line mp i lp)
  end.

(** Poll for output *)
Definition poll_tx_line (lp : TMLN) : IO TMLN :=
  if conn lp =? 0 then ret lp
  else
    r <- tmxr_send_buffered_data lp ;;
    let '(nbytes, lp1) := r in
    if nbytes =? 0 then ret (set_xmte 1 lp1) else ret lp1.

Definition tmxr_poll_tx (mp : TMXR) : IO TMXR :=
  for_lines poll_tx_line (Z.to_nat (lines mp)) 0 mp.

(** Reset line *)
Definition tmxr_reset_ln (lp : TMLN) : IO TMLN :=
  (match txlog lp with
   | Some f => fflush f
   | None => ret tt
   end) ;;;
  r <- tmxr_send_buffered_data lp ;;
  let lp1 := snd r in
  sim_close_sock (conn lp1) 0 ;;;
  let lp2 := set_tsta 0 lp1 in
  let lp3 := set_conn (tsta lp2) lp2 in
  let lp4 := set_rxbpi 0 lp3 in
  let lp5 := set_rxbpr (rxbpi lp4) lp4 in
  let lp6 := if negb (nz (txbfd lp5))
             then set_txbpr 0 (set_txbpi 0 lp5) else lp5 in
  ret (set_dstb 0 (set_xmte 1 lp6)).

(** Poll for input: the part of the first loop that serves one line. *)
Definition poll_rx_line (lp : TMLN) : IO TMLN :=
  if negb (nz (conn lp)) || negb (nz (rcve lp)) then ret lp
  else
    r <- (if rxbpi lp =? 0
          then sim_read_sock (conn lp) (sub32 TMXR_MAXBUF TMXR_GUARD)
          else if nz (tsta lp)
          then sim_read_sock (conn lp) (sub32 TMXR_MAXBUF (rxbpi lp))
          else ret (0, [])) ;;
    let '(nbytes, data) := r in
    let lp0 := set_rxb (astore (rxb lp) (rxbpi lp)
                               (firstn (Z.to_nat nbytes) data)) lp in
    if nbytes <? 0 then tmxr_reset_ln lp0
    else if 0 <? nbytes then
      let j := rxbpi lp0 in
      let lp1 := set_rbr (afill (rbr lp0) j 0 (Z.to_nat nbytes)) lp0 in
      let lp2 := set_rxbpi (add32 (rxbpi lp1) nbytes) lp1 in
      let lp3 := set_rxcnt (add32 (rxcnt lp2) nbytes) lp2 in
      ret (fst (rx_filter (Z.to_nat (2 * (rxbpi lp3 - j) + 1)) lp3 j))
    else ret lp0.

(** The second loop of [tmxr_poll_rx]. *)
Definition rx_rewind (lp : TMLN) : IO TMLN :=
  if rxbpi lp =? rxbpr lp
  then ret (set_rxbpr 0 (set_rxbpi 0 lp)) else ret lp.

Definition tmxr_poll_rx (mp : TMXR) : IO TMXR :=
  mp1 <- for_lines poll_rx_line (Z.to_nat (lines mp)) 0 mp ;;
  for_lines rx_rewind (Z.to_nat (lines mp1)) 0 mp1.

(** Output message to socket or line descriptor *)
Definition tmxr_msg (sock : SOCKET) (msg : string) : IO unit :=
  if nz sock then sim_write_sock sock (cstr msg) ;;; ret tt
  else ret tt.

Fixpoint linemsg_loop (lp : TMLN) (msg : list Z) : IO TMLN :=
  match msg with
  | [] => ret lp
  | c :: t =>
      r <- tmxr_putc_ln lp c ;;
      linemsg_loop (snd r) t
  end.

Definition tmxr_linemsg (lp : TMLN) (msg : string) : IO TMLN :=
  linemsg_loop lp (cstr msg).

(** *** Poll for new connection *)

(** The search [for (j = 0; j < mp->lines; j++, i++)] for an available
    line: [n] passes remain, [op] is the position reached in the order
    list.  The result is the value of [i] on leaving the loop, by [break]
    or by exhaustion.  (A read past the end of the order list is read
    as -1, so that the sequential line is taken.) *)
Fixpoint find_line (mp : TMXR) (n : nat) (j i : Z) (op : nat) : Z :=
  match n with
  | O => i
  | S n' =>
      let use_order :=
        match lnorder mp with
        | Some l => (0 <=? nth op l (-1)) && (nth op l (-1) <? lines mp)
        | None => false
        end in
      let i1 := if use_order
                then match lnorder mp with
                     | Some l => nth op l (-1)
                     | None => j
                     end
                else j in
      let op1 := if use_order then S op else op in
      if conn (get_line mp i1) =? 0 then i1
      else find_line mp n' (add32 j 1) (add32 i1 1) op1
  end.

(** ["%d"] *)
Definition dec (i : Z) : string := NilZero.string_of_int (Z.to_int i).

(** The text put together in [msgbuf]. *)
Definition conn_msg (mp : TMXR) (i : Z) : string :=
  let cmsg := (lf ++ crlf ++ "Connected to the " ++ sim_name
                  ++ " simulator ")%string in
  let dmsg := match dptr mp with
              | Some dname => (dname ++ " device")%string
              | None => EmptyString
              end in
  let lmsg := match dptr mp with
              | Some _ => if 1 <? lines mp
                          then (", line " ++ dec i)%string else EmptyString
              | None => EmptyString
              end in
  (cmsg ++ dmsg ++ lmsg ++ crlf ++ lf)%string.

Definition strlen (s : string) : Z := Z.of_nat (String.length s).

(** The assignments of [tmxr_poll_conn] between the time stamp and the
    greeting: transmit pointers and counters, Telnet state, transmit
    enable and binary mode. *)
Definition conn_init (mp : TMXR) (lp : TMLN) (msgbuf : string) : TMLN :=
  let lp :=
    if negb (nz (buffered mp)) then
      let lp := set_txbpi 0 lp in
      let lp := set_txbpr (sub32 (txbsz lp) (strlen msgbuf)) lp in
      set_rxcnt 0 (set_txcnt 0 (set_txdrp 0 lp))
    else if txbsz lp <? txcnt lp
    then set_txbpr (Z.rem (add32 (txbpi lp) 1) (txbsz lp)) lp
    else set_txbpr (sub32 (txbsz lp) (strlen msgbuf)) lp in
  let lp := set_tsta 0 lp in
  let lp := set_xmte 1 lp in
  set_dstb 0 lp.

Definition tmxr_poll_conn (mp : TMXR) : IO (Z * TMXR) :=
  acc <- sim_accept_conn (master mp) ;;
  let '(newsock, ipaddr) := acc in
  if negb (newsock =? INVALID_SOCKET) then
    let i := find_line mp (Z.to_nat (lines mp)) 0 (lines mp) 0 in
    if lines mp <=? i then
      tmxr_msg newsock ("All connections busy" ++ crlf) ;;;
      sim_close_sock newsock 0 ;;;
      ret (-1, mp)
    else
      let lp := get_line mp i in
      let lp := set_conn newsock lp in
      let lp := set_ipad ipaddr lp in
      sim_write_sock newsock mantra ;;;
      let msgbuf := conn_msg mp i in
      t <- sim_os_msec ;;
      let lp := set_cnms t lp in
      let lp := conn_init mp lp msgbuf in
      let psave := txbpi lp in
      let lp := set_txbpi (txbpr lp) lp in
      lp <- tmxr_linemsg lp msgbuf ;;
      let lp := set_txbpi psave lp in
      mp1 <- tmxr_poll_tx (put_line mp i lp) ;;
      let lp := get_line mp1 i in
      let lp := set_txcnt (sub32 (txcnt lp) (strlen msgbuf)) lp in
      ret (i, put_line mp1 i lp)
  else ret (-1, mp).

(** *** Close master socket *)

Definition set_master (v : SOCKET) (mp : TMXR) : TMXR :=
  mkTMXR (lines mp) (port mp) v (ldsc mp) (lnorder mp) (dptr mp)
    (buffered mp).

(** The body of the loop of [tmxr_close_master], for one line. *)
Definition close_line (lp : TMLN) : IO TMLN :=
  if nz (conn lp) then
    lp <- tmxr_linemsg lp (crlf ++ "Disconnected from the ") ;;
    lp <- tmxr_linemsg lp sim_name ;;
    lp <- tmxr_linemsg lp (" simulator" ++ crlf ++ lf) ;;
    tmxr_reset_ln lp
  else ret lp.

Definition tmxr_close_master (mp : TMXR) : IO (t_stat * TMXR) :=
  mp1 <- for_lines close_line (Z.to_nat (lines mp)) 0 mp ;;
  sim_close_sock (master mp1) 1 ;;;
  ret (SCPE_OK, set_master 0 mp1).

(** ** Console (sim_console) *)

(** The console line multiplexor [sim_con_tmxr], whose only line
    descriptor is [sim_con_ldsc], and the process-wide settings in use. *)
Record Console : Type := mkConsole {
  sim_con_tmxr : TMXR;
  sim_log : option FILE;     (* simulator log, None = NULL *)
  sim_tt_pchar : Z           (* printable-character mask *)
}.

Definition sim_con_ldsc (cn : Console) : TMLN := get_line (sim_con_tmxr cn) 0.

Definition set_sim_con_tmxr (mp : TMXR) (cn : Console) : Console :=
  mkConsole mp (sim_log cn) (sim_tt_pchar cn).

Definition set_sim_con_ldsc (lp : TMLN) (cn : Console) : Console :=
  set_sim_con_tmxr (put_line (sim_con_tmxr cn) 0 lp) cn.

(** Output character.  (The console lock taken on entry is not
    modelled: the calls are taken one at a time.) *)
Definition sim_putchar (cn : Console) (c : Z) : IO (t_stat * Console) :=
  if master (sim_con_tmxr cn) =? 0 then
    (match sim_log cn with
     | Some f => fputc c f
     | None => ret tt
     end) ;;;
    r <- sim_os_putchar c ;;
    ret (r, cn)
  else
    (match sim_log cn, txlog (sim_con_ldsc cn) with
     | Some f, None => fputc c f
     | _, _ => ret tt
     end) ;;;
    p <- (if conn (sim_con_ldsc cn) =? 0 then
            if negb (nz (txbfd (sim_con_ldsc cn))) then ret (inl SCPE_LOST)
            else
              r <- tmxr_poll_conn (sim_con_tmxr cn) ;;
              let cn1 := set_sim_con_tmxr (snd r) cn in
              if 0 <=? fst r
              then ret (inr (set_sim_con_ldsc
                               (set_rcve 1 (sim_con_ldsc cn1)) cn1))
              else ret (inr cn1)
          else ret (inr cn)) ;;
    match p with
    | inl r => ret (r, cn)
    | inr cn1 =>
        r <- tmxr_putc_ln (sim_con_ldsc cn1) c ;;
        let cn2 := set_sim_con_ldsc (snd r) cn1 in
        mp <- tmxr_poll_tx (sim_con_tmxr cn2) ;;
        ret (SCPE_OK, set_sim_con_tmxr mp cn2)
    end.

(** Output character, stall if congested *)
Definition sim_putchar_s (cn : Console) (c : Z) : IO (t_stat * Console) :=
  if master (sim_con_tmxr cn) =? 0 then
    (match sim_log cn with
     | Some f => fputc c f
     | None => ret tt
     end) ;;;
    r <- sim_os_putchar c ;;
    ret (r, cn)
  else
    (match sim_log cn, txlog (sim_con_ldsc cn) with
     | Some f, None => fputc c f
     | _, _ => ret tt
     end) ;;;
    p <- (if conn (sim_con_ldsc cn) =? 0 then
            if negb (nz (txbfd (sim_con_ldsc cn))) then ret (inl SCPE_LOST)
            else
              r <- tmxr_poll_conn (sim_con_tmxr cn) ;;
              let cn1 := set_sim_con_tmxr (snd r) cn in
              if 0 <=? fst r
              then ret (inr (set_sim_con_ldsc
                               (set_rcve 1 (sim_con_ldsc cn1)) cn1))
              else ret (inr cn1)
          else ret (inr cn)) ;;
    match p with
    | inl r => ret (r, cn)
    | inr cn1 =>
        q <- (if xmte (sim_con_ldsc cn1) =? 0
              then ret (SCPE_STALL, sim_con_ldsc cn1)
              else tmxr_putc_ln (sim_con_ldsc cn1) c) ;;
        let cn2 := set_sim_con_ldsc (snd q) cn1 in
        mp <- tmxr_poll_tx (sim_con_tmxr cn2) ;;
        ret (fst q, set_sim_con_tmxr mp cn2)
    end.

(** Character conversion *)

Definition islower (c : Z) : bool := (97 <=? c) && (c <=? 122).
Definition toupper (c : Z) : Z := if islower c then c - 32 else c.

(** Input character processing *)
Definition sim_tt_inpcvt (c : Z) (mode : Z) : Z :=
  let md := Z.land mode TTUF_M_MODE in
  if negb (md =? TTUF_MODE_8B) then
    let c := Z.land c 127 in
    if md =? TTUF_MODE_UC then
      let c := if islower c then toupper c else c in
      if nz (Z.land mode TTUF_KSR) then Z.lor c 128 else c
    else c
  else Z.land c 255.

(** Output character processing; -1 is the result for a character that
    is not to be output. *)
Definition sim_tt_outcvt (pchar : Z) (c : Z) (mode : Z) : Z :=
  let md := Z.land mode TTUF_M_MODE in
  let unprintable (c : Z) : Z :=
    if ((md =? TTUF_MODE_UC) || (md =? TTUF_MODE_7P))
       && ((c =? 127)
           || ((c <? 32) && negb (nz (Z.land (Z.shiftr pchar c) 1))))
    then -1
    else c in
  if negb (md =? TTUF_MODE_8B) then
    let c := Z.land c 127 in
    if md =? TTUF_MODE_UC then
      let c := if islower c then toupper c else c in
      if nz (Z.land mode TTUF_KSR) && (96 <=? c) then -1
      else unprintable c
    else unprintable c
  else Z.land c 255.

End Tmxr.

(** ** Notions used in the statements *)

(** The transmit ring is well formed: a buffer of [txbsz] bytes, both
    pointers inside it. *)
Definition tx_ok (lp : TMLN) : Prop :=
  0 < txbsz lp <= INT32_MAX /\
  0 <= txbpr lp < txbsz lp /\
  0 <= txbpi lp < txbsz lp /\
  Z.of_nat (List.length (txb lp)) = txbsz lp.

(** The bytes queued for transmission, oldest first: from the remove
    pointer up to the insert pointer, around the end of the buffer. *)
Definition tx_queue (lp : TMLN) : list Z :=
  map (fun k => aget (txb lp) (Z.rem (txbpr lp + Z.of_nat k) (txbsz lp)))
      (seq 0 (Z.to_nat (tmxr_tqln lp))).

(** Bytes the ring can still take before the pointers would meet. *)
Definition tx_free (lp : TMLN) : Z := txbsz lp - 1 - tmxr_tqln lp.

(** The byte is the Telnet IAC once converted to [char]. *)
Definition is_iac (chr : Z) : bool := TN_IAC =? to_char chr.

(** Bytes [tmxr_putc_ln] stores for a character. *)
Definition stuffed (chr : Z) : list Z :=
  if is_iac chr then [TN_IAC; to_char chr] else [to_char chr].

(** The ring holds all it can: one more byte makes the pointers meet. *)
Definition tx_full (lp : TMLN) : bool := tmxr_tqln lp =? txbsz lp - 1.

(** The counter can be incremented [n] times without leaving [int32]. *)
Definition counter_ok (x n : Z) : Prop :=
  -2147483648 <= x /\ x + n <= INT32_MAX.

(** Two descriptors that differ in the transmit fields at most. *)
Definition tx_only (lp lp' : TMLN) : Prop :=
  conn lp' = conn lp /\ ipad lp' = ipad lp /\ cnms lp' = cnms lp /\
  tsta lp' = tsta lp /\ rcve lp' = rcve lp /\ dstb lp' = dstb lp /\
  rxbpr lp' = rxbpr lp /\ rxbpi lp' = rxbpi lp /\ rxcnt lp' = rxcnt lp /\
  txbsz lp' = txbsz lp /\ txbfd lp' = txbfd lp /\ txlog lp' = txlog lp /\
  rxb lp' = rxb lp /\ rbr lp' = rbr lp.

(** Bytes pushed out of a ring with [free] slots left by storing [n]. *)
Definition evicted (free n : Z) : Z := Z.max 0 (n - free).

Definition zlen (l : list Z) : Z := Z.of_nat (List.length l).

(** A peer that takes every byte offered to it. *)
Definition accepts_all (net : Net) : Prop :=
  forall tr s buf, net_write net tr s buf = zlen buf.

(** A peer that takes some, all or none of what it is offered, or fails:
    the contract of [send]. *)
Definition sane_peer {defs : SimDefs} (net : Net) : Prop :=
  forall tr s buf,
    net_write net tr s buf = SOCKET_ERROR \/
    0 <= net_write net tr s buf <= zlen buf.

(** The characters waiting in the receive buffer, each with its break
    flag, in the order [tmxr_getc_ln] hands them out. *)
Definition rx_pending (lp : TMLN) : list (Z * Z) :=
  map (fun k => (aget (rxb lp) (rxbpr lp + Z.of_nat k),
                 aget (rbr lp) (rxbpr lp + Z.of_nat k)))
      (seq 0 (Z.to_nat (rxbpi lp - rxbpr lp))).

(** The value [tmxr_getc_ln] returns for a character and its flag. *)
Definition getc_value {defs : SimDefs} (e : Z * Z) : Z :=
  let val := Z.lor TMXR_VALID (Z.land (fst e) 255) in
  if nz (snd e) then Z.lor val SCPE_BREAK else val.

(** The values of [n] calls of [tmxr_getc_ln] in a row. *)
Fixpoint getc_n {defs : SimDefs} (n : nat) (lp : TMLN) : list Z * TMLN :=
  match n with
  | O => ([], lp)
  | S n' =>
      let '(v, lp1) := tmxr_getc_ln lp in
      let '(vs, lp2) := getc_n n' lp1 in
      (v :: vs, lp2)
  end.

(** The array [tmxr_rmvrc] leaves: [n] cells from [p] on take the value
    of their right neighbour. *)
Fixpoint shift_left (n : nat) (a : list Z) (p : Z) : list Z :=
  match n with
  | O => a
  | S n' => shift_left n' (aset a p (aget a (add32 p 1))) (add32 p 1)
  end.

(** Two multiplexor descriptors that agree on everything but the
    contents of the line descriptors. *)
Definition same_mux (mp mp' : TMXR) : Prop :=
  lines mp' = lines mp /\ port mp' = port mp /\ master mp' = master mp /\
  lnorder mp' = lnorder mp /\ dptr mp' = dptr mp /\
  buffered mp' = buffered mp /\
  List.length (ldsc mp') = List.length (ldsc mp).

(** Number of line descriptors in the array. *)
Definition zlen_lines (mp : TMXR) : Z := Z.of_nat (List.length (ldsc mp)).


(** Two descriptors that differ at most in what sending touches: the
    remove pointer, the count of bytes sent and the transmit enable. *)
Definition drain_only (lp lp' : TMLN) : Prop :=
  tx_only lp lp' /\ txbpi lp' = txbpi lp /\ txdrp lp' = txdrp lp /\
  txb lp' = txb lp.

(** What the output poll does to one line. *)
Definition polled_tx (lp lp' : TMLN) : Prop :=
  drain_only lp lp' /\
  (conn lp = 0 -> lp' = lp) /\
  (conn lp <> 0 -> tx_ok lp ->
   tx_ok lp' /\
   (exists n, tx_queue lp' = skipn n (tx_queue lp)) /\
   xmte lp' = if tmxr_tqln lp' =? 0 then 1 else xmte lp).

(** The last [n] elements of a list. *)
Definition lastn (n : nat) (l : list Z) : list Z :=
  skipn (List.length l - n) l.

(** What the output poll does to a line whose peer takes everything. *)
Definition flushed (lp lp' : TMLN) : Prop :=
  drain_only lp lp' /\
  (conn lp <> 0 -> tx_ok lp -> txbpr lp' = txbpi lp /\ xmte lp' = 1) /\
  (conn lp <> 0 -> tx_ok lp -> counter_ok (txcnt lp) (tmxr_tqln lp) ->
   txcnt lp' = txcnt lp + tmxr_tqln lp).

(** What [tmxr_close_master] does to one line. *)
Definition closed_line (lp lp' : TMLN) : Prop :=
  conn lp' = 0 /\
  (conn lp = 0 -> lp' = lp) /\
  (conn lp <> 0 ->
   tsta lp' = 0 /\ rxbpi lp' = 0 /\ rxbpr lp' = 0 /\
   xmte lp' = 1 /\ dstb lp' = 0 /\ rxcnt lp' = rxcnt lp /\
   txbfd lp' = txbfd lp /\ txbsz lp' = txbsz lp).

(** ** Sample values

    The values the constants have in the SIMH 3.8 headers, a peer and a
    few descriptors, for use where a statement is instantiated. *)

Definition sample_defs : SimDefs :=
  Build_SimDefs 256 12 (-1) (-1) 32768 1024 512 3 0 1 2 3 4 "VAX".

(** A host where an accept yields socket 7, a read yields [rd], a write
    takes all it is given, and the clock stands at 0. *)
Definition sample_net (rd : list Z) : Net :=
  mkNet (fun _ _ => (7, 0))
        (fun _ _ _ => (zlen rd, rd))
        (fun _ _ buf => zlen buf)
        (fun _ => 0)
        (fun _ _ => SCPE_OK).

(** A line as [tmxr_open_master] initialises it, unbuffered. *)
Definition idle_line : TMLN :=
  mkTMLN 0 0 0 0 0 1 0 0 0 0 0 0 0 0 256 0 None
         (repeat 0 256) (repeat 0 256) (repeat 0 256).

(** A console multiplexor with its single line, listening on socket 3. *)
Definition sample_mux : TMXR := mkTMXR 1 23 3 [idle_line] None None 0.

(** Two lines, both connected, with the connection order 1;0. *)
Definition busy_mux : TMXR :=
  mkTMXR 2 23 3 [set_conn 5 idle_line; set_conn 6 idle_line]
         (Some [1; 0]) None 0.

(** A host like [sample_net] whose peer takes two bytes of a write at
    most. *)
Definition slow_net : Net :=
  mkNet (fun _ _ => (7, 0))
        (fun _ _ _ => (0, []))
        (fun _ _ buf => Z.min 2 (zlen buf))
        (fun _ => 0)
        (fun _ _ => SCPE_OK).

(** Three lines, the last one connected, with the connection order
    2;0;1. *)
Definition order_mux : TMXR :=
  mkTMXR 3 23 3 [idle_line; idle_line; set_conn 6 idle_line]
         (Some [2; 0; 1]) None 0.

(** A connected line whose ring is full, and one with two characters
    waiting in its receive buffer. *)
Definition full_line : TMLN := set_txbpi 255 (set_conn 7 idle_line).

Definition pend_line : TMLN :=
  set_rxbpi 2 (set_rxb (65 :: 66 :: repeat 0 254)
                 (set_rcve 1 (set_conn 7 idle_line))).

(** A connected line that is not in binary mode, holding 0D 0A 42
    unfiltered, and one holding FF FF 41. *)
Definition cr_lf_line : TMLN :=
  set_dstb 1
    (set_rxbpi 3 (set_rxb (13 :: 10 :: 66 :: repeat 0 253)
                    (set_rcve 1 (set_conn 7 idle_line)))).

Definition iac_iac_line : TMLN :=
  set_rxbpi 3 (set_rxb (-1 :: -1 :: 65 :: repeat 0 253)
                 (set_rcve 1 (set_conn 7 idle_line))).

(** The event is a write to socket [s]. *)
Definition is_write_to (s : SOCKET) (e : Event) : Prop :=
  match e with
  | EvWrite s' _ _ => s' = s
  | _ => False
  end.

(** A connected, unbuffered line with 254 bytes queued: one slot free. *)
Definition one_slot_line : TMLN := set_txbpi 254 (set_conn 7 idle_line).

(** A buffered line, not connected, whose ring of 8 bytes is full. *)
Definition buf_full_line : TMLN :=
  mkTMLN 0 0 0 0 0 1 0 0 0 0 0 7 0 0 8 1 None
         (repeat 0 256) (repeat 0 256) [1; 2; 3; 4; 5; 6; 7; 0].

(** A connected line in the normal state with a CR as the one character
    to examine, in binary mode and not. *)
Definition cr_line : TMLN :=
  set_rxbpi 1 (set_rxb (13 :: repeat 0 255) (set_rcve 1 (set_conn 7 idle_line))).

Definition cr_line_nobin : TMLN := set_dstb 1 cr_line.

(** A connected line holding FF FC 00 0D 0A unfiltered: IAC WONT BIN,
    then CR LF; and the same with WILL in the place of WONT, on a line
    that is not in binary mode. *)
Definition wont_bin_line : TMLN :=
  set_rxbpi 5 (set_rxb (-1 :: -4 :: 0 :: 13 :: 10 :: repeat 0 251)
                 (set_rcve 1 (set_conn 7 idle_line))).

Definition will_bin_line : TMLN :=
  set_dstb 1
    (set_rxbpi 5 (set_rxb (-1 :: -5 :: 0 :: 13 :: 10 :: repeat 0 251)
                    (set_rcve 1 (set_conn 7 idle_line)))).

(** A connected, unbuffered line with three bytes queued, that has sent
    nine bytes so far. *)
Definition queued_line : TMLN :=
  set_txcnt 9
    (set_txbpi 3 (set_txb (1 :: 2 :: 3 :: repeat 0 253) (set_conn 7 idle_line))).

(** A connected line that has counted some traffic. *)
Definition counted_line : TMLN :=
  set_rxcnt 5 (set_txcnt 9 (set_txdrp 2 (set_conn 7 idle_line))).

(** A connected line holding 41 FF F3 42 unfiltered. *)
Definition brk_line : TMLN :=
  set_rxbpi 4 (set_rxb (65 :: -1 :: -13 :: 66 :: repeat 0 252)
                 (set_rcve 1 (set_conn 7 idle_line))).

(** A console on Telnet with a client connected. *)
Definition sample_console : Console :=
  mkConsole (mkTMXR 1 23 3 [set_conn 7 idle_line] None None 0) None 10112.

(** The line of [sample_mux] once a caller has been accepted and
    reception has been enabled, as the console does. *)
Definition fresh_line : TMLN :=
  set_rcve 1
    (get_line
       (snd (fst (tmxr_poll_conn (defs := sample_defs) (sample_net [])
                    sample_mux []))) 0).

(** A buffered line, connected, with seven bytes queued. *)
Definition buf_conn_line : TMLN := set_conn 7 buf_full_line.

(** ** File I/O (sim_fio)

    Buffers of unsigned characters are lists of [Z]; pointers into a
    buffer are offsets.  [sim_end], set by [sim_finit] to the first byte
    of an [int32] holding 1, is non zero on a little endian host. *)

(** [by = *sptr; *sptr = *(dptr + k); *(dptr + k) = by], with [s] the
    offset of [sptr] and [t] that of [dptr + k]. *)
Definition swap_bytes (buf : list Z) (s t : Z) : list Z :=
  let by' := aget buf s in
  aset (aset buf s (aget buf t)) t by'.

(** The loop [for (k = size - 1; k >= (size + 1) / 2; k--)] of
    [sim_buf_swap_data]: [n] passes are left, [d] is the offset of the
    item, [s] that of [sptr].  (The loop runs for the values of [k] from
    [size - 1] down to [(size + 1) / 2], whose number is fixed on
    entry.) *)
Fixpoint swap_loop (n : nat) (buf : list Z) (d s k : Z) : list Z :=
  match n with
  | O => buf
  | S n' => swap_loop n' (swap_bytes buf s (d + k)) d (s + 1) (sub32 k 1)
  end.

(** The loop on items of [sim_buf_swap_data]. *)
Fixpoint swap_items (n : nat) (size : Z) (buf : list Z) (d : Z) : list Z :=
  match n with
  | O => buf
  | S n' =>
      let k := wrap32 (size - 1) in
      let lim := Z.quot (add32 (wrap32 size) 1) 2 in
      swap_items n' size
        (swap_loop (Z.to_nat (k - lim + 1)) buf d d k) (d + size)
  end.

(** Swap data elements in place in buffer *)
Definition sim_buf_swap_data (sim_end : Z) (buf : list Z) (size count : Z)
  : list Z :=
  if nz sim_end || (count =? 0) || (size =? 1) then buf
  else swap_items (Z.to_nat count) size buf 0.

(** [memcpy (d, s, n)] *)
Fixpoint memcpy (n : nat) (dbuf sbuf : list Z) (i : Z) : list Z :=
  match n with
  | O => dbuf
  | S n' => memcpy n' (aset dbuf i (aget sbuf i)) sbuf (i + 1)
  end.

(** The loop [for (k = size - 1; k >= 0; k--) *(dptr + k) = *sptr++]. *)
Fixpoint copy_loop (n : nat) (dbuf sbuf : list Z) (d s k : Z) : list Z * Z :=
  match n with
  | O => (dbuf, s)
  | S n' =>
      copy_loop n' (aset dbuf (d + k) (aget sbuf s)) sbuf d (s + 1)
        (sub32 k 1)
  end.

Fixpoint copy_items (n : nat) (size : Z) (dbuf sbuf : list Z) (d s : Z)
  : list Z :=
  match n with
  | O => dbuf
  | S n' =>
      let k := wrap32 (size - 1) in
      let '(dbuf1, s1) := copy_loop (Z.to_nat (k + 1)) dbuf sbuf d s k in
      copy_items n' size dbuf1 sbuf (d + size) s1
  end.

(** Copy data swapping elements along the way; the result is the
    destination buffer. *)
Definition sim_buf_copy_swapped (sim_end : Z) (dbuf sbuf : list Z)
  (size count : Z) : list Z :=
  if nz sim_end || (size =? 1)
  then memcpy (Z.to_nat (size * count)) dbuf sbuf 0
  else copy_items (Z.to_nat count) size dbuf sbuf 0 0.

(** A buffer of twelve bytes: three items of four. *)
Definition sample_buf : list Z := [1; 2; 3; 4; 5; 6; 7; 8; 9; 10; 11; 12].

(** * Properties *)

(** ** Integers and arrays *)

Lemma wrap32_id (x : Z) :
  -2147483648 <= x <= 2147483647 -> wrap32 x = x.
Proof.
  intros Hx. unfold wrap32. rewrite Z.mod_small by lia. lia.
Qed.

Lemma rem_wrap (x sz : Z) :
  0 <= x < 2 * sz -> Z.rem x sz = if x <? sz then x else x - sz.
Proof.
  intros Hx. rewrite Z.rem_mod_nonneg by lia.
  destruct (Z.ltb_spec x sz) as [Hlt | Hge].
  - apply Z.mod_small. lia.
  - replace x with ((x - sz) + 1 * sz) at 1 by lia.
    rewrite Z.mod_add by lia. apply Z.mod_small. lia.
Qed.

Lemma to_char_range (x : Z) : -128 <= to_char x <= 127.
Proof.
  unfold to_char. pose proof (Z.mod_pos_bound (x + 128) 256). lia.
Qed.

Lemma to_char_id (x : Z) : -128 <= x <= 127 -> to_char x = x.
Proof.
  intros Hx. unfold to_char. rewrite Z.mod_small by lia. lia.
Qed.

Lemma to_char_idem (x : Z) : to_char (to_char x) = to_char x.
Proof. apply to_char_id, to_char_range. Qed.

Lemma nz_true (x : Z) : nz x = true <-> x <> 0.
Proof.
  unfold nz. destruct (Z.eqb_spec x 0); simpl; split; congruence.
Qed.

Lemma nz_false (x : Z) : nz x = false <-> x = 0.
Proof.
  unfold nz. destruct (Z.eqb_spec x 0); simpl; split; congruence.
Qed.

Lemma upd_nth_length (n : nat) (a : list Z) (v : Z) :
  List.length (upd_nth n a v) = List.length a.
Proof.
  revert n. induction a as [| x t IH]; intros [| n]; simpl; auto.
Qed.

Lemma nth_upd_nth (n m : nat) (a : list Z) (v : Z) :
  (n < List.length a)%nat ->
  nth m (upd_nth n a v) 0 = if Nat.eqb m n then v else nth m a 0.
Proof.
  revert n m. induction a as [| x t IH]; intros n m Hn; simpl in Hn.
  - lia.
  - destruct n as [| n]; destruct m as [| m]; simpl; auto.
    apply IH. lia.
Qed.

Lemma aset_length (a : list Z) (i v : Z) :
  List.length (aset a i v) = List.length a.
Proof.
  unfold aset. destruct (i <? 0); auto using upd_nth_length.
Qed.

Lemma aget_aset (a : list Z) (i j v : Z) :
  0 <= i < Z.of_nat (List.length a) -> 0 <= j ->
  aget (aset a i v) j = if j =? i then v else aget a j.
Proof.
  intros Hi Hj. unfold aget, aset.
  destruct (Z.ltb_spec i 0) as [Hneg | _]; [lia |].
  rewrite nth_upd_nth by lia.
  destruct (Z.eqb_spec j i) as [-> | Hne].
  - now rewrite Nat.eqb_refl.
  - destruct (Nat.eqb_spec (Z.to_nat j) (Z.to_nat i)) as [Heq | _]; [lia | easy].
Qed.

Lemma map_seq_snoc {A : Type} (f : nat -> A) (n : nat) :
  map f (seq 0 (S n)) = map f (seq 0 n) ++ [f n].
Proof. rewrite seq_S, map_app. reflexivity. Qed.

Lemma map_seq_cons {A : Type} (f : nat -> A) (n : nat) :
  map f (seq 0 (S n)) = f O :: map (fun k => f (S k)) (seq 0 n).
Proof. simpl. rewrite <- seq_shift, map_map. reflexivity. Qed.

Lemma map_seq_ext {A : Type} (f g : nat -> A) (n : nat) :
  (forall k, (k < n)%nat -> f k = g k) ->
  map f (seq 0 n) = map g (seq 0 n).
Proof.
  intros Hfg. apply map_ext_in. intros k Hk. apply in_seq in Hk.
  apply Hfg. lia.
Qed.

(** ** The transmit ring *)

(** Arithmetic that stays inside the [int32] range. *)
Ltac int32 :=
  unfold add32, sub32;
  repeat match goal with
         | |- context [wrap32 ?x] => rewrite (wrap32_id x) by lia
         end.

(** Case analysis on the comparisons that occur in the goal. *)
Ltac zcases :=
  repeat match goal with
         | |- context [?a <? ?b] => destruct (Z.ltb_spec a b)
         | |- context [?a <=? ?b] => destruct (Z.leb_spec a b)
         | |- context [?a =? ?b] => destruct (Z.eqb_spec a b)
         end.

Lemma tqln_eq (lp : TMLN) :
  tx_ok lp ->
  tmxr_tqln lp = (if txbpi lp <? txbpr lp
                  then txbpi lp - txbpr lp + txbsz lp
                  else txbpi lp - txbpr lp).
Proof.
  intros (Hsz & Hpr & Hpi & _). unfold tmxr_tqln, INT32_MAX in *.
  destruct (Z.ltb_spec (txbpi lp) (txbpr lp)); int32; lia.
Qed.

Lemma tqln_range (lp : TMLN) :
  tx_ok lp -> 0 <= tmxr_tqln lp < txbsz lp.
Proof.
  intros Hok. rewrite tqln_eq by assumption.
  destruct Hok as (Hsz & Hpr & Hpi & _).
  destruct (Z.ltb_spec (txbpi lp) (txbpr lp)); lia.
Qed.

Lemma txbpi_tqln (lp : TMLN) :
  tx_ok lp -> txbpi lp = Z.rem (txbpr lp + tmxr_tqln lp) (txbsz lp).
Proof.
  intros Hok. rewrite tqln_eq by assumption.
  destruct Hok as (Hsz & Hpr & Hpi & _).
  destruct (Z.ltb_spec (txbpi lp) (txbpr lp));
    rewrite rem_wrap by lia; zcases; lia.
Qed.

Lemma tx_full_iff (lp : TMLN) :
  tx_ok lp ->
  tx_full lp = (Z.rem (txbpi lp + 1) (txbsz lp) =? txbpr lp).
Proof.
  intros Hok. unfold tx_full. rewrite tqln_eq by assumption.
  destruct Hok as (Hsz & Hpr & Hpi & _).
  rewrite rem_wrap by lia. zcases; lia.
Qed.

(** [TXBUF_CHAR] written out for a well-formed ring. *)
Lemma TXBUF_CHAR_eq (lp : TMLN) (c : Z) :
  tx_ok lp -> counter_ok (txdrp lp) 1 ->
  TXBUF_CHAR lp c =
  let lp1 := set_txbpi (Z.rem (txbpi lp + 1) (txbsz lp))
               (set_txb (aset (txb lp) (txbpi lp) (to_char c)) lp) in
  if tx_full lp
  then set_txdrp (txdrp lp + 1)
         (set_txbpr (Z.rem (txbpr lp + 1) (txbsz lp)) lp1)
  else lp1.
Proof.
  intros Hok Hdrp. rewrite tx_full_iff by assumption.
  destruct Hok as (Hsz & Hpr & Hpi & _). destruct Hdrp as [Hd1 Hd2].
  unfold TXBUF_CHAR, INT32_MAX in *. simpl.
  replace (add32 (txbpi lp) 1) with (txbpi lp + 1) by (int32; reflexivity).
  destruct (Z.eqb_spec (Z.rem (txbpi lp + 1) (txbsz lp)) (txbpr lp)) as [He | Hne].
  - simpl. replace (add32 1 (txbpr lp)) with (txbpr lp + 1) by (int32; lia).
    replace (add32 (txdrp lp) 1) with (txdrp lp + 1) by (int32; lia).
    reflexivity.
  - reflexivity.
Qed.

Lemma TXBUF_CHAR_ok (lp : TMLN) (c : Z) :
  tx_ok lp -> counter_ok (txdrp lp) 1 -> tx_ok (TXBUF_CHAR lp c).
Proof.
  intros Hok Hdrp. rewrite TXBUF_CHAR_eq by assumption.
  destruct Hok as (Hsz & Hpr & Hpi & Hlen). unfold tx_ok.
  pose proof (rem_wrap (txbpi lp + 1) (txbsz lp) ltac:(lia)) as Ei.
  pose proof (rem_wrap (txbpr lp + 1) (txbsz lp) ltac:(lia)) as Er.
  destruct (tx_full lp); simpl; rewrite aset_length, ?Ei, ?Er;
    repeat split; zcases; lia.
Qed.

Lemma TXBUF_CHAR_tqln (lp : TMLN) (c : Z) :
  tx_ok lp -> counter_ok (txdrp lp) 1 ->
  tmxr_tqln (TXBUF_CHAR lp c) =
  if tx_full lp then tmxr_tqln lp else tmxr_tqln lp + 1.
Proof.
  intros Hok Hdrp.
  rewrite (tqln_eq (TXBUF_CHAR lp c)) by now apply TXBUF_CHAR_ok.
  rewrite TXBUF_CHAR_eq by assumption.
  unfold tx_full. rewrite (tqln_eq lp) by assumption.
  destruct Hok as (Hsz & Hpr & Hpi & Hlen).
  pose proof (rem_wrap (txbpi lp + 1) (txbsz lp) ltac:(lia)) as Ei.
  pose proof (rem_wrap (txbpr lp + 1) (txbsz lp) ltac:(lia)) as Er.
  destruct (Z.ltb_spec (txbpi lp) (txbpr lp));
    match goal with
    | |- context [?a =? ?b] => destruct (Z.eqb_spec a b)
    end; simpl; rewrite ?Ei, ?Er; zcases; lia.
Qed.

(** Indices reduced into the ring, one wrap at most. *)
Ltac rems :=
  repeat match goal with
         | |- context [Z.rem ?x ?sz] => rewrite (rem_wrap x sz) by lia
         end.

Lemma TXBUF_CHAR_queue (lp : TMLN) (c : Z) :
  tx_ok lp -> counter_ok (txdrp lp) 1 ->
  tx_queue (TXBUF_CHAR lp c) =
  skipn (if tx_full lp then 1 else 0) (tx_queue lp ++ [to_char c]).
Proof.
  intros Hok Hdrp. unfold tx_queue.
  rewrite TXBUF_CHAR_tqln by assumption.
  rewrite TXBUF_CHAR_eq by assumption.
  pose proof (tqln_range lp Hok) as Hq.
  pose proof (txbpi_tqln lp Hok) as Hpi'.
  destruct Hok as (Hsz & Hpr & Hpi & Hlen).
  destruct (tx_full lp) eqn:Hfull; simpl.
  - unfold tx_full in Hfull. apply Z.eqb_eq in Hfull.
    destruct (Z.to_nat (tmxr_tqln lp)) as [| m] eqn:Hn; [reflexivity |].
    rewrite map_seq_snoc, (map_seq_cons _ m). simpl. f_equal.
    + apply map_seq_ext. intros k Hk.
      rewrite aget_aset.
      * replace (Z.rem (Z.rem (txbpr lp + 1) (txbsz lp) + Z.of_nat k) (txbsz lp))
          with (Z.rem (txbpr lp + Z.of_nat (S k)) (txbsz lp))
          by (rems; zcases; rems; zcases; lia).
        rewrite Hpi'.
        match goal with
        | |- (if ?a =? ?b then _ else _) = _ =>
            destruct (Z.eqb_spec a b) as [He | Hne]; [| reflexivity]
        end.
        revert He. rems. zcases; lia.
      * lia.
      * rems. zcases; rems; zcases; lia.
    + f_equal. rewrite aget_aset.
      * rewrite Hpi'.
        match goal with
        | |- (if ?a =? ?b then _ else _) = _ =>
            destruct (Z.eqb_spec a b) as [He | Hne]; [reflexivity |]
        end.
        exfalso. apply Hne. rems. zcases; rems; zcases; lia.
      * lia.
      * rems. zcases; rems; zcases; lia.
  - unfold tx_full in Hfull. apply Z.eqb_neq in Hfull.
    replace (Z.to_nat (tmxr_tqln lp + 1)) with (S (Z.to_nat (tmxr_tqln lp)))
      by lia.
    rewrite map_seq_snoc. f_equal.
    + apply map_seq_ext. intros k Hk.
      rewrite aget_aset.
      * rewrite Hpi'.
        match goal with
        | |- (if ?a =? ?b then _ else _) = _ =>
            destruct (Z.eqb_spec a b) as [He | Hne]; [| reflexivity]
        end.
        revert He. rems. zcases; lia.
      * lia.
      * rems. zcases; lia.
    + f_equal. rewrite aget_aset.
      * rewrite Hpi'. rewrite Z2Nat.id by lia.
        now rewrite Z.eqb_refl.
      * lia.
      * rems. zcases; lia.
Qed.

Lemma tx_only_refl (lp : TMLN) : tx_only lp lp.
Proof. unfold tx_only. tauto. Qed.

Lemma tx_only_trans (a b c : TMLN) :
  tx_only a b -> tx_only b c -> tx_only a c.
Proof. unfold tx_only. intuition congruence. Qed.

Lemma TXBUF_CHAR_tx_only (lp : TMLN) (c : Z) : tx_only lp (TXBUF_CHAR lp c).
Proof.
  unfold TXBUF_CHAR, tx_only.
  match goal with |- context [if ?b then _ else _] => destruct b end;
    simpl; tauto.
Qed.

Lemma TXBUF_CHAR_xmte (lp : TMLN) (c : Z) : xmte (TXBUF_CHAR lp c) = xmte lp.
Proof.
  unfold TXBUF_CHAR.
  match goal with |- context [if ?b then _ else _] => destruct b end;
    reflexivity.
Qed.

Lemma TXBUF_CHAR_txcnt (lp : TMLN) (c : Z) : txcnt (TXBUF_CHAR lp c) = txcnt lp.
Proof.
  unfold TXBUF_CHAR.
  match goal with |- context [if ?b then _ else _] => destruct b end;
    reflexivity.
Qed.

Lemma TXBUF_CHAR_pointers (lp : TMLN) (c : Z) :
  tx_ok lp -> counter_ok (txdrp lp) 1 ->
  txbpr (TXBUF_CHAR lp c)
  = (txbpr lp + (if tx_full lp then 1 else 0)) mod txbsz lp /\
  txdrp (TXBUF_CHAR lp c) = txdrp lp + (if tx_full lp then 1 else 0) /\
  txbpi (TXBUF_CHAR lp c) = (txbpi lp + 1) mod txbsz lp /\
  txbsz (TXBUF_CHAR lp c) = txbsz lp.
Proof.
  intros Hok Hdrp. rewrite TXBUF_CHAR_eq by assumption.
  destruct Hok as (Hsz & Hpr & Hpi & Hlen).
  destruct (tx_full lp); simpl;
    rewrite ?Z.rem_mod_nonneg by lia;
    rewrite ?Z.add_0_r, ?(Z.mod_small (txbpr lp)) by lia; auto.
Qed.

Lemma skipn_snoc_twice (q : list Z) (a b : Z) (e1 e2 : nat) :
  (e1 <= 1)%nat ->
  skipn e2 (skipn e1 (q ++ [a]) ++ [b]) = skipn (e2 + e1) (q ++ [a; b]).
Proof.
  intros He. rewrite <- skipn_skipn.
  replace (q ++ [a; b]) with ((q ++ [a]) ++ [b])
    by (rewrite <- app_assoc; reflexivity).
  f_equal. rewrite (skipn_app e1 (q ++ [a]) [b]).
  replace (e1 - List.length (q ++ [a]))%nat with O
    by (rewrite length_app; simpl; lia).
  reflexivity.
Qed.

Lemma to_char_iac : to_char TN_IAC = TN_IAC.
Proof. reflexivity. Qed.

(** One byte stored. *)
Lemma stuff_one (lp : TMLN) (chr : Z) :
  tx_ok lp -> counter_ok (txdrp lp) 1 ->
  tx_ok (TXBUF_CHAR lp chr) /\
  tx_queue (TXBUF_CHAR lp chr) =
  skipn (Z.to_nat (evicted (tx_free lp) 1)) (tx_queue lp ++ [to_char chr]) /\
  txbpr (TXBUF_CHAR lp chr) = (txbpr lp + evicted (tx_free lp) 1) mod txbsz lp /\
  txdrp (TXBUF_CHAR lp chr) = txdrp lp + evicted (tx_free lp) 1 /\
  tmxr_tqln (TXBUF_CHAR lp chr) = tmxr_tqln lp + 1 - evicted (tx_free lp) 1 /\
  txbsz (TXBUF_CHAR lp chr) = txbsz lp.
Proof.
  intros Hok Hc1.
  pose proof (tqln_range lp Hok) as Hq.
  pose proof (TXBUF_CHAR_ok lp chr Hok Hc1) as Hok1.
  pose proof (TXBUF_CHAR_pointers lp chr Hok Hc1) as (Hr1 & Hp1 & _ & Hs1).
  pose proof (TXBUF_CHAR_tqln lp chr Hok Hc1) as Hq1.
  pose proof (TXBUF_CHAR_queue lp chr Hok Hc1) as Hqu1.
  assert (He : evicted (tx_free lp) 1 = if tx_full lp then 1 else 0).
  { unfold evicted, tx_free, tx_full.
    destruct (Z.eqb_spec (tmxr_tqln lp) (txbsz lp - 1)); lia. }
  rewrite He, Hqu1, Hr1, Hp1, Hq1.
  split; [assumption |].
  destruct (tx_full lp); repeat split; auto; lia.
Qed.

Lemma evicted_two (free : Z) :
  0 <= free ->
  evicted free 1 + evicted (free - 1 + evicted free 1) 1 = evicted free 2.
Proof. unfold evicted. lia. Qed.

(** What the two [TXBUF_CHAR] of [tmxr_putc_ln] leave in the ring. *)
Lemma stuff_spec (lp : TMLN) (chr : Z) :
  tx_ok lp -> counter_ok (txdrp lp) 2 ->
  let lp1 := if TN_IAC =? to_char chr then TXBUF_CHAR lp TN_IAC else lp in
  let lp2 := TXBUF_CHAR lp1 chr in
  let ev := evicted (tx_free lp) (zlen (stuffed chr)) in
  tx_ok lp2 /\
  tx_queue lp2 = skipn (Z.to_nat ev) (tx_queue lp ++ stuffed chr) /\
  txbpr lp2 = (txbpr lp + ev) mod txbsz lp /\
  txdrp lp2 = txdrp lp + ev /\
  tmxr_tqln lp2 = tmxr_tqln lp + zlen (stuffed chr) - ev /\
  xmte lp2 = xmte lp /\ txcnt lp2 = txcnt lp /\
  tx_only lp lp2.
Proof.
  intros Hok [Hd1 Hd2].
  pose proof (tqln_range lp Hok) as Hq.
  assert (Hc1 : counter_ok (txdrp lp) 1) by (unfold counter_ok; lia).
  unfold stuffed, is_iac.
  destruct (TN_IAC =? to_char chr) eqn:Hiac.
  - cbv zeta.
    replace (zlen [TN_IAC; to_char chr]) with 2 by reflexivity.
    destruct (stuff_one lp TN_IAC Hok Hc1)
      as (Hok1 & Hqu1 & Hr1 & Hp1 & Hq1 & Hs1).
    assert (He1 : 0 <= evicted (tx_free lp) 1 <= 1)
      by (unfold evicted, tx_free; lia).
    assert (Hc2 : counter_ok (txdrp (TXBUF_CHAR lp TN_IAC)) 1)
      by (unfold counter_ok; rewrite Hp1; lia).
    destruct (stuff_one (TXBUF_CHAR lp TN_IAC) chr Hok1 Hc2)
      as (Hok2 & Hqu2 & Hr2 & Hp2 & Hq2 & Hs2).
    assert (Hf1 : tx_free (TXBUF_CHAR lp TN_IAC)
                  = tx_free lp - 1 + evicted (tx_free lp) 1)
      by (unfold tx_free at 1; rewrite Hs1, Hq1; unfold tx_free; lia).
    rewrite Hf1 in *.
    pose proof (evicted_two (tx_free lp) ltac:(unfold tx_free; lia)) as E2.
    split; [assumption |].
    split.
    { rewrite Hqu2, Hqu1, to_char_iac.
      rewrite skipn_snoc_twice by lia. f_equal.
      clear - E2 He1 Hq. unfold evicted in *. lia. }
    split.
    { rewrite Hr2, Hs1, Hr1. rewrite Z.add_mod_idemp_l by lia.
      f_equal. lia. }
    split; [rewrite Hp2, Hp1; lia |].
    split; [rewrite Hq2, Hq1; lia |].
    split; [now rewrite !TXBUF_CHAR_xmte |].
    split; [now rewrite !TXBUF_CHAR_txcnt |].
    eapply tx_only_trans; apply TXBUF_CHAR_tx_only.
  - cbv zeta.
    replace (zlen [to_char chr]) with 1 by reflexivity.
    destruct (stuff_one lp chr Hok Hc1)
      as (Hok1 & Hqu1 & Hr1 & Hp1 & Hq1 & Hs1).
    split; [assumption |].
    split; [assumption |].
    split; [assumption |].
    split; [assumption |].
    split; [lia |].
    split; [apply TXBUF_CHAR_xmte |].
    split; [apply TXBUF_CHAR_txcnt |].
    apply TXBUF_CHAR_tx_only.
Qed.

(** *** The bookkeeping of a write *)

Lemma tx_sent_tx_only (lp : TMLN) (n : Z) : tx_only lp (tx_sent lp n).
Proof.
  unfold tx_sent.
  match goal with |- context [if ?b then _ else _] => destruct b end;
    unfold tx_only; cbn; tauto.
Qed.

Lemma drain_only_refl (lp : TMLN) : drain_only lp lp.
Proof. unfold drain_only. auto using tx_only_refl. Qed.

Lemma drain_only_trans (a b c : TMLN) :
  drain_only a b -> drain_only b c -> drain_only a c.
Proof.
  unfold drain_only. intros (Hab & Ha1 & Ha2 & Ha3) (Hbc & Hb1 & Hb2 & Hb3).
  split; [eapply tx_only_trans; eassumption |].
  repeat split; congruence.
Qed.

Lemma tx_sent_drain_only (lp : TMLN) (n : Z) : drain_only lp (tx_sent lp n).
Proof.
  unfold tx_sent.
  match goal with |- context [if ?b then _ else _] => destruct b end;
    unfold drain_only, tx_only; cbn; tauto.
Qed.

(** *** The queue as the slices handed to the socket *)

Lemma map_seq_from {A : Type} (f : nat -> A) (s n : nat) :
  map f (seq s n) = map (fun k => f (s + k)%nat) (seq 0 n).
Proof.
  revert s f. induction n as [| n IH]; intros s f; [reflexivity |].
  simpl. rewrite Nat.add_0_r. f_equal.
  rewrite (IH (S s) f), (IH 1%nat (fun k => f (s + k)%nat)).
  apply map_ext. intros k. f_equal. lia.
Qed.

Lemma aslice_length (a : list Z) (i n : Z) :
  0 <= i -> 0 <= n -> i + n <= zlen a ->
  List.length (aslice a i n) = Z.to_nat n.
Proof.
  intros Hi Hn Hlen. unfold aslice, zlen in *.
  rewrite length_firstn, length_skipn. lia.
Qed.

Lemma aslice_map (a : list Z) (i n : Z) :
  0 <= i -> 0 <= n -> i + n <= zlen a ->
  aslice a i n = map (fun k => aget a (i + Z.of_nat k)) (seq 0 (Z.to_nat n)).
Proof.
  intros Hi Hn Hlen.
  apply nth_ext with (d := 0) (d' := 0).
  - rewrite aslice_length by assumption. now rewrite length_map, length_seq.
  - rewrite aslice_length by assumption. intros k Hk.
    unfold aslice. rewrite nth_firstn.
    destruct (Nat.ltb_spec k (Z.to_nat n)) as [_ | Hge]; [| lia].
    rewrite nth_skipn.
    rewrite (nth_indep (map _ _) 0 (aget a (i + Z.of_nat 0)))
      by now rewrite length_map, length_seq.
    rewrite (map_nth (fun k => aget a (i + Z.of_nat k))).
    rewrite seq_nth by assumption. unfold aget. f_equal. lia.
Qed.

Lemma tx_queue_slices (lp : TMLN) :
  tx_ok lp ->
  tx_queue lp =
  if txbpr lp <=? txbpi lp
  then aslice (txb lp) (txbpr lp) (txbpi lp - txbpr lp)
  else aslice (txb lp) (txbpr lp) (txbsz lp - txbpr lp)
       ++ aslice (txb lp) 0 (txbpi lp).
Proof.
  intros Hok. unfold tx_queue. rewrite tqln_eq by assumption.
  destruct Hok as (Hsz & Hpr & Hpi & Hlen). fold (zlen (txb lp)) in Hlen.
  destruct (Z.leb_spec (txbpr lp) (txbpi lp)) as [Hle | Hgt].
  - destruct (Z.ltb_spec (txbpi lp) (txbpr lp)); [lia |].
    rewrite aslice_map by lia. apply map_seq_ext. intros k Hk.
    f_equal. rems. zcases; lia.
  - destruct (Z.ltb_spec (txbpi lp) (txbpr lp)); [| lia].
    rewrite !aslice_map by lia.
    replace (Z.to_nat (txbpi lp - txbpr lp + txbsz lp))
      with (Z.to_nat (txbsz lp - txbpr lp) + Z.to_nat (txbpi lp))%nat by lia.
    rewrite seq_app, map_app. f_equal.
    + apply map_seq_ext. intros k Hk. f_equal. rems. zcases; lia.
    + simpl. rewrite map_seq_from. apply map_seq_ext. intros k Hk.
      f_equal. rems. zcases; lia.
Qed.

Section Properties.

Context {defs : SimDefs}.
Variable net : Net.

(** ** [tmxr_putc_ln] *)

Lemma putc_ln_trace (lp : TMLN) (chr : Z) (tr : list Event) :
  snd (tmxr_putc_ln lp chr tr) =
  match txlog lp with
  | Some f => EvFputc chr f :: tr
  | None => tr
  end.
Proof.
  unfold tmxr_putc_ln, bind, fputc, ret.
  destruct (txlog lp);
    repeat match goal with
           | |- context [if ?b then _ else _] => destruct b
           end; reflexivity.
Qed.

(** The character is stored whenever the line is connected or buffered
    and the room test of the code succeeds. *)
Lemma putc_ln_store (lp : TMLN) (chr : Z) (tr : list Event) :
  (conn lp =? 0) && negb (nz (txbfd lp)) = false ->
  nz (txbfd lp) || (1 <? TXBUF_AVAIL lp) = true ->
  fst (tmxr_putc_ln lp chr tr) =
  (SCPE_OK,
   let lp1 := if TN_IAC =? to_char chr then TXBUF_CHAR lp TN_IAC else lp in
   let lp2 := TXBUF_CHAR lp1 chr in
   if negb (nz (txbfd lp2)) && (TXBUF_AVAIL lp2 <=? TMXR_GUARD)
   then set_xmte 0 lp2 else lp2).
Proof.
  intros H1 H2. unfold tmxr_putc_ln, bind, fputc, ret.
  rewrite H1, H2. destruct (txlog lp); reflexivity.
Qed.

Lemma putc_ln_stall (lp : TMLN) (chr : Z) (tr : list Event) :
  (conn lp =? 0) && negb (nz (txbfd lp)) = false ->
  nz (txbfd lp) || (1 <? TXBUF_AVAIL lp) = false ->
  fst (tmxr_putc_ln lp chr tr) =
  (SCPE_STALL, set_xmte 0 (set_txdrp (add32 (txdrp lp) 1) lp)).
Proof.
  intros H1 H2. unfold tmxr_putc_ln, bind, fputc, ret.
  rewrite H1, H2. destruct (txlog lp); reflexivity.
Qed.

Lemma TXBUF_AVAIL_free (lp : TMLN) :
  tx_ok lp -> TXBUF_AVAIL lp = tx_free lp + 1.
Proof.
  intros Hok. pose proof (tqln_range lp Hok) as Hq.
  destruct Hok as (Hsz & _). unfold TXBUF_AVAIL, tx_free, INT32_MAX in *.
  int32. lia.
Qed.

Lemma set_xmte_queue (v : Z) (lp : TMLN) :
  tx_queue (set_xmte v lp) = tx_queue lp.
Proof. reflexivity. Qed.

Lemma tx_free_set_xmte (v : Z) (lp : TMLN) :
  tx_free (set_xmte v lp) = tx_free lp.
Proof. reflexivity. Qed.

Lemma tx_ok_set_xmte (v : Z) (lp : TMLN) :
  tx_ok lp <-> tx_ok (set_xmte v lp).
Proof. reflexivity. Qed.

(** The line [tmxr_putc_ln] leaves when it stores the character. *)
Lemma putc_ln_stored (lp : TMLN) (chr : Z) (tr : list Event) :
  (conn lp =? 0) && negb (nz (txbfd lp)) = false ->
  nz (txbfd lp) || (1 <? TXBUF_AVAIL lp) = true ->
  tx_ok lp -> counter_ok (txdrp lp) 2 ->
  let lp' := snd (fst (tmxr_putc_ln lp chr tr)) in
  let ev := evicted (tx_free lp) (zlen (stuffed chr)) in
  fst (fst (tmxr_putc_ln lp chr tr)) = SCPE_OK /\
  tx_ok lp' /\
  tx_queue lp' = skipn (Z.to_nat ev) (tx_queue lp ++ stuffed chr) /\
  txbpr lp' = (txbpr lp + ev) mod txbsz lp /\
  txdrp lp' = txdrp lp + ev /\
  xmte lp' = (if negb (nz (txbfd lp)) && (tx_free lp' <? TMXR_GUARD)
              then 0 else xmte lp) /\
  tx_only lp lp'.
Proof.
  intros H1 H2 Hok Hdrp. cbv zeta.
  rewrite putc_ln_store by assumption. cbn [fst snd]. cbv zeta.
  pose proof (stuff_spec lp chr Hok Hdrp) as Hs. cbv zeta in Hs.
  revert Hs.
  generalize (TXBUF_CHAR
                (if TN_IAC =? to_char chr then TXBUF_CHAR lp TN_IAC else lp)
                chr).
  intros lp2 (Hok2 & Hqu & Hpr & Hdr & Hq & Hx & _ & Hto).
  assert (Hfd : txbfd lp2 = txbfd lp) by apply Hto.
  rewrite Hfd, (TXBUF_AVAIL_free lp2 Hok2).
  replace (tx_free lp2 + 1 <=? TMXR_GUARD) with (tx_free lp2 <? TMXR_GUARD)
    by (zcases; first [reflexivity | exfalso; lia]).
  split; [reflexivity |].
  destruct (negb (nz (txbfd lp)) && (tx_free lp2 <? TMXR_GUARD)) eqn:Hg.
  - rewrite tx_free_set_xmte, Hg.
    split; [exact (proj1 (tx_ok_set_xmte 0 lp2) Hok2) |].
    rewrite set_xmte_queue.
    repeat split; try assumption; try apply Hto.
  - rewrite Hg. split; [exact Hok2 |].
    repeat split; try assumption; try apply Hto.
Qed.

(** ** [tmxr_send_buffered_data] *)

Lemma zlen_aslice (a : list Z) (i n : Z) :
  0 <= i -> 0 <= n -> i + n <= zlen a -> zlen (aslice a i n) = n.
Proof.
  intros Hi Hn Hlen. unfold zlen at 1.
  rewrite aslice_length by assumption. lia.
Qed.

Lemma sent_write (s : SOCKET) (buf : list Z) (tr : list Event) :
  sent s (EvWrite s buf (zlen buf) :: tr) = sent s tr ++ buf.
Proof.
  simpl. rewrite Z.eqb_refl. simpl. unfold zlen.
  destruct buf as [| b t].
  - simpl. now rewrite app_nil_r.
  - destruct (Z.ltb_spec 0 (Z.of_nat (List.length (b :: t)))) as [_ | H];
      [| simpl in H; lia].
    rewrite Nat2Z.id, firstn_all. reflexivity.
Qed.

Lemma ltb_true (a b : Z) : a < b -> (a <? b) = true.
Proof. intros. now apply Z.ltb_lt. Qed.

Lemma ltb_false (a b : Z) : b <= a -> (a <? b) = false.
Proof. intros. now apply Z.ltb_ge. Qed.

Lemma leb_true (a b : Z) : a <= b -> (a <=? b) = true.
Proof. intros. now apply Z.leb_le. Qed.

Lemma leb_false (a b : Z) : b < a -> (a <=? b) = false.
Proof. intros. now apply Z.leb_gt. Qed.

Lemma eqb_false (a b : Z) : a <> b -> (a =? b) = false.
Proof. intros. now apply Z.eqb_neq. Qed.

Lemma nz_eq_true (x : Z) : x <> 0 -> nz x = true.
Proof. apply nz_true. Qed.

(** Nothing queued: nothing is written. *)
Lemma send_buffered_data_idle (lp : TMLN) (tr : list Event) :
  tmxr_tqln lp = 0 ->
  tmxr_send_buffered_data net lp tr = (0, lp, tr).
Proof.
  intros H. unfold tmxr_send_buffered_data. rewrite H. reflexivity.
Qed.

(** The queue does not wrap and the peer takes it: one write. *)
Lemma send_run_nowrap (lp : TMLN) (tr : list Event) :
  tx_ok lp -> accepts_all net -> SOCKET_ERROR < 0 ->
  txbpr lp < txbpi lp ->
  tmxr_send_buffered_data net lp tr =
  (0, tx_sent lp (txbpi lp - txbpr lp),
   EvWrite (conn lp) (aslice (txb lp) (txbpr lp) (txbpi lp - txbpr lp))
     (zlen (aslice (txb lp) (txbpr lp) (txbpi lp - txbpr lp))) :: tr).
Proof.
  intros Hok Hnet Herr Hlt.
  unfold tmxr_send_buffered_data. rewrite tqln_eq by assumption.
  destruct Hok as (Hsz & Hpr & Hpi & Hlen). fold (zlen (txb lp)) in Hlen.
  unfold INT32_MAX in *.
  rewrite (ltb_false (txbpi lp) (txbpr lp)) by lia.
  rewrite (nz_eq_true (txbpi lp - txbpr lp)) by lia.
  rewrite (ltb_true (txbpr lp) (txbpi lp)) by lia.
  unfold bind, sim_write_sock. rewrite Hnet.
  rewrite zlen_aslice by lia.
  rewrite (eqb_false (txbpi lp - txbpr lp) SOCKET_ERROR) by lia.
  cbn [negb].
  replace (sub32 (txbpi lp - txbpr lp) (txbpi lp - txbpr lp)) with 0
    by (int32; lia).
  reflexivity.
Qed.

(** The queue wraps and the peer takes it: a write up to the end of the
    buffer and, unless nothing is left, one from its start. *)
Lemma send_run_wrap (lp : TMLN) (tr : list Event) :
  tx_ok lp -> accepts_all net -> SOCKET_ERROR < 0 ->
  txbpi lp < txbpr lp ->
  let w1 := EvWrite (conn lp)
              (aslice (txb lp) (txbpr lp) (txbsz lp - txbpr lp))
              (zlen (aslice (txb lp) (txbpr lp) (txbsz lp - txbpr lp))) in
  let lp1 := tx_sent lp (txbsz lp - txbpr lp) in
  tmxr_send_buffered_data net lp tr =
  if txbpi lp =? 0 then (0, lp1, w1 :: tr)
  else (0, tx_sent lp1 (txbpi lp),
        EvWrite (conn lp) (aslice (txb lp) 0 (txbpi lp))
          (zlen (aslice (txb lp) 0 (txbpi lp))) :: w1 :: tr).
Proof.
  intros Hok Hnet Herr Hlt. cbv zeta.
  unfold tmxr_send_buffered_data. rewrite tqln_eq by assumption.
  destruct Hok as (Hsz & Hpr & Hpi & Hlen). fold (zlen (txb lp)) in Hlen.
  unfold INT32_MAX in *.
  rewrite (ltb_true (txbpi lp) (txbpr lp)) by lia.
  rewrite (nz_eq_true (txbpi lp - txbpr lp + txbsz lp)) by lia.
  rewrite (ltb_false (txbpr lp) (txbpi lp)) by lia.
  replace (sub32 (txbsz lp) (txbpr lp)) with (txbsz lp - txbpr lp)
    by (int32; reflexivity).
  unfold bind at 1. unfold sim_write_sock at 1. rewrite Hnet.
  rewrite zlen_aslice by lia.
  rewrite (eqb_false (txbsz lp - txbpr lp) SOCKET_ERROR) by lia.
  cbn [negb].
  replace (sub32 (txbpi lp - txbpr lp + txbsz lp) (txbsz lp - txbpr lp))
    with (txbpi lp) by (int32; lia).
  assert (Hpr1 : txbpr (tx_sent lp (txbsz lp - txbpr lp)) = 0).
  { unfold tx_sent. cbn [txbpr txbsz set_txbpr set_txcnt].
    replace (add32 (txbpr lp) (txbsz lp - txbpr lp)) with (txbsz lp)
      by (int32; lia).
    now rewrite Z.leb_refl. }
  assert (Hcn1 : conn (tx_sent lp (txbsz lp - txbpr lp)) = conn lp)
    by apply tx_sent_tx_only.
  assert (Htb1 : txb (tx_sent lp (txbsz lp - txbpr lp)) = txb lp)
    by (unfold tx_sent;
        match goal with |- context [if ?b then _ else _] => destruct b end;
        reflexivity).
  rewrite Hpr1, Z.eqb_refl, andb_true_r.
  destruct (Z.eqb_spec (txbpi lp) 0) as [E0 | N0].
  - rewrite E0. reflexivity.
  - rewrite (nz_eq_true (txbpi lp)) by assumption.
    unfold bind, sim_write_sock, ret. rewrite Hnet, Hcn1, Htb1.
    rewrite zlen_aslice by lia.
    rewrite (eqb_false (txbpi lp) SOCKET_ERROR) by lia.
    cbn [negb].
    replace (sub32 (txbpi lp) (txbpi lp)) with 0 by (int32; lia).
    reflexivity.
Qed.

(** With a peer that takes everything, one call sends the whole queue, in
    order, and leaves the ring empty. *)
Lemma send_buffered_data_all (lp : TMLN) (tr : list Event) :
  tx_ok lp -> accepts_all net -> SOCKET_ERROR < 0 ->
  let r := tmxr_send_buffered_data net lp tr in
  sent (conn lp) (snd r) = sent (conn lp) tr ++ tx_queue lp /\
  fst (fst r) = 0 /\
  txbpr (snd (fst r)) = txbpi lp /\ txbpi (snd (fst r)) = txbpi lp.
Proof.
  intros Hok Hnet Herr. cbv zeta.
  rewrite tx_queue_slices by assumption.
  pose proof Hok as (Hsz & Hpr & Hpi & Hlen). unfold INT32_MAX in *.
  destruct (Z.lt_trichotomy (txbpr lp) (txbpi lp)) as [Hlt | [Heq | Hgt]].
  - rewrite send_run_nowrap by assumption. cbn [fst snd].
    rewrite sent_write, (leb_true (txbpr lp) (txbpi lp)) by lia.
    unfold tx_sent. cbn [txbpr txbpi txbsz set_txbpr set_txcnt].
    replace (add32 (txbpr lp) (txbpi lp - txbpr lp)) with (txbpi lp)
      by (int32; lia).
    rewrite (leb_false (txbsz lp) (txbpi lp)) by lia.
    cbn [txbpr txbpi set_txbpr set_txcnt]. auto.
  - rewrite send_buffered_data_idle
      by (rewrite tqln_eq by assumption;
          rewrite (ltb_false (txbpi lp) (txbpr lp)) by lia; lia).
    cbn [fst snd]. rewrite (leb_true (txbpr lp) (txbpi lp)) by lia.
    replace (txbpi lp - txbpr lp) with 0 by lia.
    unfold aslice. cbn [Z.to_nat firstn]. rewrite app_nil_r. auto.
  - rewrite send_run_wrap by assumption.
    rewrite (leb_false (txbpr lp) (txbpi lp)) by lia.
    assert (Hpr1 : txbpr (tx_sent lp (txbsz lp - txbpr lp)) = 0).
    { unfold tx_sent. cbn [txbpr txbsz set_txbpr set_txcnt].
      replace (add32 (txbpr lp) (txbsz lp - txbpr lp)) with (txbsz lp)
        by (int32; lia).
      now rewrite Z.leb_refl. }
    assert (Hpi1 : txbpi (tx_sent lp (txbsz lp - txbpr lp)) = txbpi lp)
      by apply tx_sent_drain_only.
    assert (Hsz1 : txbsz (tx_sent lp (txbsz lp - txbpr lp)) = txbsz lp)
      by apply tx_sent_tx_only.
    destruct (Z.eqb_spec (txbpi lp) 0) as [E0 | N0]; cbn [fst snd].
    + rewrite sent_write, Hpr1, Hpi1, E0.
      unfold aslice at 2. cbn [Z.to_nat firstn]. rewrite app_nil_r. auto.
    + rewrite !sent_write, app_assoc.
      split; [reflexivity |]. split; [reflexivity |].
      split; [| rewrite <- Hpi1 at 2; apply tx_sent_drain_only].
      unfold tx_sent at 1. cbn [txbpr txbsz set_txbpr set_txcnt].
      rewrite Hpr1, Hsz1.
      replace (add32 0 (txbpi lp)) with (txbpi lp) by (int32; lia).
      rewrite (leb_false (txbsz lp) (txbpi lp)) by lia. reflexivity.
Qed.

(** ** Receive: [tmxr_getc_ln] *)

Lemma rx_pending_empty (lp : TMLN) :
  rxbpi lp <= rxbpr lp -> rx_pending lp = [].
Proof.
  intros H. unfold rx_pending.
  replace (Z.to_nat (rxbpi lp - rxbpr lp)) with O by lia. reflexivity.
Qed.

Lemma rx_pending_cons (lp : TMLN) :
  rxbpr lp < rxbpi lp ->
  rx_pending lp =
  (aget (rxb lp) (rxbpr lp), aget (rbr lp) (rxbpr lp))
    :: rx_pending (set_rxbpr (rxbpr lp + 1) lp).
Proof.
  intros H. unfold rx_pending. cbn [rxb rbr rxbpr rxbpi set_rxbpr].
  replace (Z.to_nat (rxbpi lp - rxbpr lp))
    with (S (Z.to_nat (rxbpi lp - (rxbpr lp + 1)))) by lia.
  rewrite map_seq_cons. change (Z.of_nat 0) with 0.
  rewrite Z.add_0_r. f_equal.
  apply map_seq_ext. intros k _.
  replace (rxbpr lp + Z.of_nat (S k)) with (rxbpr lp + 1 + Z.of_nat k) by lia.
  reflexivity.
Qed.

Lemma getc_ln_empty (lp : TMLN) :
  rxbpi lp = rxbpr lp ->
  tmxr_getc_ln lp = (0, set_rxbpr 0 (set_rxbpi 0 lp)).
Proof.
  intros He. unfold tmxr_getc_ln. rewrite He.
  replace (sub32 (rxbpr lp) (rxbpr lp)) with 0
    by (unfold sub32; rewrite Z.sub_diag; reflexivity).
  cbn [nz Z.eqb negb].
  destruct (nz (conn lp) && nz (rcve lp)); rewrite He, Z.eqb_refl;
    reflexivity.
Qed.

Lemma getc_ln_char (lp : TMLN) :
  nz (conn lp) = true -> nz (rcve lp) = true ->
  0 <= rxbpr lp < rxbpi lp -> rxbpi lp <= INT32_MAX ->
  tmxr_getc_ln lp =
  (getc_value (aget (rxb lp) (rxbpr lp), aget (rbr lp) (rxbpr lp)),
   if rxbpi lp =? rxbpr lp + 1
   then set_rxbpr 0 (set_rxbpi 0 (set_rxbpr (rxbpr lp + 1) lp))
   else set_rxbpr (rxbpr lp + 1) lp).
Proof.
  intros Hc Hr Hp Hmax. unfold tmxr_getc_ln, getc_value, INT32_MAX in *.
  rewrite Hc, Hr. cbn [andb fst snd].
  replace (sub32 (rxbpi lp) (rxbpr lp)) with (rxbpi lp - rxbpr lp)
    by (int32; reflexivity).
  replace (nz (rxbpi lp - rxbpr lp)) with true
    by (symmetry; apply nz_true; lia).
  replace (add32 (rxbpr lp) 1) with (rxbpr lp + 1) by (int32; reflexivity).
  cbn [rxbpi rxbpr set_rxbpr]. reflexivity.
Qed.

(** Successive calls hand out the pending characters in order, flagged
    valid, and then report that nothing is there. *)
Lemma getc_n_pending (n : nat) (lp : TMLN) :
  nz (conn lp) = true -> nz (rcve lp) = true ->
  0 <= rxbpr lp <= rxbpi lp -> rxbpi lp <= INT32_MAX ->
  fst (getc_n n lp) =
  firstn n (map getc_value (rx_pending lp))
  ++ repeat 0 (n - List.length (rx_pending lp)).
Proof.
  revert lp. induction n as [| n IH]; intros lp Hc Hr Hp Hmax;
    [reflexivity |].
  cbn [getc_n].
  destruct (Z.eq_dec (rxbpi lp) (rxbpr lp)) as [He | Hne].
  - rewrite getc_ln_empty by assumption.
    specialize (IH (set_rxbpr 0 (set_rxbpi 0 lp)) Hc Hr).
    destruct (getc_n n (set_rxbpr 0 (set_rxbpi 0 lp))) as [vs lp2].
    cbn [fst snd] in *. rewrite IH by (cbn; unfold INT32_MAX; lia).
    rewrite (rx_pending_empty lp) by lia.
    rewrite rx_pending_empty by (cbn; lia).
    cbn [map List.length]. rewrite !firstn_nil, !Nat.sub_0_r. reflexivity.
  - rewrite getc_ln_char by (assumption || lia).
    rewrite (rx_pending_cons lp) by lia.
    cbn [map firstn List.length Nat.sub app].
    destruct (Z.eqb_spec (rxbpi lp) (rxbpr lp + 1)) as [E1 | N1].
    + specialize (IH (set_rxbpr 0 (set_rxbpi 0 (set_rxbpr (rxbpr lp + 1) lp)))
                     Hc Hr).
      destruct (getc_n n _) as [vs lp2]. cbn [fst snd] in *.
      rewrite IH by (cbn; unfold INT32_MAX; lia).
      rewrite (rx_pending_empty (set_rxbpr (rxbpr lp + 1) lp)) by (cbn; lia).
      rewrite rx_pending_empty by (cbn; lia). reflexivity.
    + specialize (IH (set_rxbpr (rxbpr lp + 1) lp) Hc Hr).
      destruct (getc_n n _) as [vs lp2]. cbn [fst snd] in *.
      rewrite IH by (cbn; lia). reflexivity.
Qed.

(** ** Receive: the Telnet filter *)

Lemma rmvrc_loop_eq (n : nat) (lp : TMLN) (p : Z) :
  rmvrc_loop n lp p =
  set_rbr (shift_left n (rbr lp) p) (set_rxb (shift_left n (rxb lp) p) lp).
Proof.
  revert lp p. induction n as [| n IH]; intros lp p.
  - destruct lp; reflexivity.
  - cbn [rmvrc_loop shift_left]. rewrite IH. destruct lp; reflexivity.
Qed.

Lemma tmxr_rmvrc_eq (lp : TMLN) (p : Z) :
  tmxr_rmvrc lp p =
  set_rxbpi (sub32 (rxbpi lp) 1)
    (set_rbr (shift_left (Z.to_nat (rxbpi lp - p)) (rbr lp) p)
       (set_rxb (shift_left (Z.to_nat (rxbpi lp - p)) (rxb lp) p) lp)).
Proof. unfold tmxr_rmvrc. rewrite rmvrc_loop_eq. reflexivity. Qed.

Lemma shift_left_length (n : nat) (a : list Z) (p : Z) :
  List.length (shift_left n a p) = List.length a.
Proof.
  revert a p. induction n as [| n IH]; intros a p; [reflexivity |].
  cbn [shift_left]. now rewrite IH, aset_length.
Qed.

Lemma shift_left_get (n : nat) (a : list Z) (p k : Z) :
  0 <= p -> p + Z.of_nat n <= zlen a -> zlen a <= INT32_MAX -> 0 <= k ->
  aget (shift_left n a p) k =
  if (p <=? k) && (k <? p + Z.of_nat n) then aget a (k + 1) else aget a k.
Proof.
  revert a p. induction n as [| n IH]; intros a p Hp Hlen Hmax Hk.
  - cbn [shift_left]. replace (p + Z.of_nat 0) with p by lia.
    destruct (Z.leb_spec p k); destruct (Z.ltb_spec k p); try reflexivity; lia.
  - cbn [shift_left]. unfold zlen, INT32_MAX in *.
    replace (add32 p 1) with (p + 1) by (int32; reflexivity).
    rewrite IH by (rewrite ?aset_length; unfold zlen, INT32_MAX; lia).
    rewrite !aget_aset by lia.
    destruct (Z.leb_spec (p + 1) k); destruct (Z.ltb_spec k (p + 1 + Z.of_nat n));
      destruct (Z.leb_spec p k); destruct (Z.ltb_spec k (p + Z.of_nat (S n)));
      cbn [andb]; zcases; try reflexivity; try lia.
    subst k. reflexivity.
Qed.

(** In the normal state a character other than IAC stays where it is. *)
Lemma rx_step_norm (lp : TMLN) (j : Z) :
  tsta lp = TNS_NORM -> aget (rxb lp) j <> TN_IAC ->
  rx_filter_step lp j =
  (if (aget (rxb lp) j =? TN_CR) && nz (dstb lp)
   then set_tsta TNS_CRPAD lp else lp, add32 j 1).
Proof.
  intros Hs Hne. unfold rx_filter_step. rewrite Hs. cbn [Z.eqb TNS_NORM].
  destruct (Z.eqb_spec (aget (rxb lp) j) TN_IAC); [contradiction |].
  reflexivity.
Qed.

Lemma rx_step_norm_iac (lp : TMLN) (j : Z) :
  tsta lp = TNS_NORM -> aget (rxb lp) j = TN_IAC ->
  rx_filter_step lp j = (tmxr_rmvrc (set_tsta TNS_IAC lp) j, j).
Proof.
  intros Hs He. unfold rx_filter_step. rewrite Hs, He. reflexivity.
Qed.

Lemma rx_step_iac_brk (lp : TMLN) (j : Z) :
  tsta lp = TNS_IAC -> aget (rxb lp) j = TN_BRK ->
  rx_filter_step lp j =
  (set_rbr (aset (rbr lp) j 1)
     (set_rxb (aset (rxb lp) j 0) (set_tsta TNS_NORM lp)), add32 j 1).
Proof.
  intros Hs He. unfold rx_filter_step. rewrite Hs, He. reflexivity.
Qed.

(** With the line in binary mode ([dstb] clear) and in the normal state,
    a block without IAC passes the filter untouched. *)
Lemma rx_filter_plain (n : nat) (lp : TMLN) (j : Z) :
  tsta lp = TNS_NORM -> dstb lp = 0 ->
  0 <= j -> rxbpi lp <= INT32_MAX ->
  (forall k, j <= k < rxbpi lp -> aget (rxb lp) k <> TN_IAC) ->
  fst (rx_filter n lp j) = lp.
Proof.
  revert j. induction n as [| n IH]; intros j Hs Hd Hj Hmax Hplain;
    [reflexivity |].
  cbn [rx_filter]. destruct (Z.ltb_spec j (rxbpi lp)) as [Hlt | Hge];
    [| reflexivity].
  rewrite rx_step_norm by (auto; apply Hplain; lia).
  rewrite Hd. cbn [nz Z.eqb negb]. rewrite andb_false_r.
  unfold INT32_MAX in *.
  replace (add32 j 1) with (j + 1) by (int32; reflexivity).
  apply IH; auto; try lia. intros k Hk. apply Hplain. lia.
Qed.

Lemma rx_filter_app (n m : nat) (lp : TMLN) (j : Z) :
  rx_filter (n + m) lp j =
  let '(lp1, j1) := rx_filter n lp j in rx_filter m lp1 j1.
Proof.
  revert lp j. induction n as [| n IH]; intros lp j; [reflexivity |].
  cbn [rx_filter Nat.add].
  destruct (Z.ltb_spec j (rxbpi lp)) as [Hlt | Hge].
  - destruct (rx_filter_step lp j) as [lp1 j1]. apply IH.
  - destruct m as [| m]; [reflexivity |]. cbn [rx_filter].
    destruct (Z.ltb_spec j (rxbpi lp)); [lia | reflexivity].
Qed.

(** The number of passes the loop still has to make is bounded by twice
    the characters left, plus one in the CR padding state. *)
Lemma rx_filter_step_measure (lp : TMLN) (j : Z) :
  0 <= j < rxbpi lp -> rxbpi lp <= INT32_MAX ->
  let '(lp1, j1) := rx_filter_step lp j in
  0 <= j1 <= rxbpi lp1 /\ rxbpi lp1 <= INT32_MAX /\
  2 * (rxbpi lp1 - j1) + (if tsta lp1 =? TNS_CRPAD then 1 else 0)
  < 2 * (rxbpi lp - j) + (if tsta lp =? TNS_CRPAD then 1 else 0).
Proof.
  intros Hj Hmax. unfold INT32_MAX in *.
  assert (Ha : add32 j 1 = j + 1) by (int32; reflexivity).
  assert (Hs : sub32 (rxbpi lp) 1 = rxbpi lp - 1) by (int32; reflexivity).
  unfold rx_filter_step, iac_command.
  repeat first
    [ progress cbn [fst snd rxbpi tsta set_rxbpi set_rbr set_rxb set_tsta
                    set_dstb]
    | progress rewrite ?tmxr_rmvrc_eq, ?Ha, ?Hs
    | progress (change (TNS_NORM =? TNS_CRPAD) with false;
                change (TNS_IAC =? TNS_CRPAD) with false;
                change (TNS_WILL =? TNS_CRPAD) with false;
                change (TNS_WONT =? TNS_CRPAD) with false;
                change (TNS_DO =? TNS_CRPAD) with false;
                change (TNS_DONT =? TNS_CRPAD) with false;
                change (TNS_CRPAD =? TNS_CRPAD) with true)
    | match goal with
      | |- context [if ?a =? ?b then _ else _] => destruct (Z.eqb_spec a b)
      | |- context [if ?b then _ else _] => destruct b
      end ];
    cbn [tsta set_tsta set_rxbpi set_rbr set_rxb set_dstb] in *;
    unfold TNS_NORM, TNS_IAC, TNS_WILL, TNS_WONT, TNS_CRPAD in *; lia.
Qed.

(** The loop is left with its condition false: the passes allotted to
    [rx_filter] are all the loop of the code makes. *)
Lemma rx_filter_exit (n : nat) (lp : TMLN) (j : Z) :
  0 <= j <= rxbpi lp -> rxbpi lp <= INT32_MAX ->
  2 * (rxbpi lp - j) + (if tsta lp =? TNS_CRPAD then 1 else 0)
  <= Z.of_nat n ->
  snd (rx_filter n lp j) = rxbpi (fst (rx_filter n lp j)).
Proof.
  revert lp j. induction n as [| n IH]; intros lp j Hj Hmax Hn.
  - cbn. destruct (tsta lp =? TNS_CRPAD); lia.
  - cbn [rx_filter]. destruct (Z.ltb_spec j (rxbpi lp)) as [Hlt | Hge].
    + pose proof (rx_filter_step_measure lp j ltac:(lia) Hmax) as Hm.
      destruct (rx_filter_step lp j) as [lp1 j1].
      destruct Hm as (Hj1 & Hmax1 & Hd). apply IH; lia.
    + cbn. lia.
Qed.

Lemma astore_length (a : list Z) (i : Z) (data : list Z) :
  List.length (astore a i data) = List.length a.
Proof.
  revert a i. induction data as [| b t IH]; intros a i; [reflexivity |].
  cbn [astore]. now rewrite IH, aset_length.
Qed.

Lemma astore_get (a : list Z) (i : Z) (data : list Z) (k : Z) :
  0 <= i -> i + zlen data <= zlen a -> 0 <= k ->
  aget (astore a i data) k =
  if (i <=? k) && (k <? i + zlen data)
  then to_char (nth (Z.to_nat (k - i)) data 0) else aget a k.
Proof.
  revert a i. unfold zlen.
  induction data as [| b t IH]; intros a i Hi Hlen Hk; cbn [astore].
  - cbn [List.length Z.of_nat]. zcases; cbn [andb]; try reflexivity; lia.
  - cbn [List.length] in *.
    rewrite IH by (rewrite ?aset_length; lia).
    rewrite aget_aset by lia.
    destruct (Z.eqb_spec k i) as [-> | Hne].
    + replace (Z.to_nat (i - i)) with O by lia. cbn [nth].
      zcases; cbn [andb]; try reflexivity; lia.
    + destruct (Z.leb_spec (i + 1) k); destruct (Z.leb_spec i k);
        destruct (Z.ltb_spec k (i + 1 + Z.of_nat (List.length t)));
        destruct (Z.ltb_spec k (i + Z.of_nat (S (List.length t))));
        cbn [andb]; try reflexivity; try lia.
      replace (Z.to_nat (k - i)) with (S (Z.to_nat (k - (i + 1)))) by lia.
      reflexivity.
Qed.

Lemma afill_get (a : list Z) (i v : Z) (n : nat) (k : Z) :
  0 <= i -> i + Z.of_nat n <= zlen a -> 0 <= k ->
  aget (afill a i v n) k =
  if (i <=? k) && (k <? i + Z.of_nat n) then v else aget a k.
Proof.
  revert a i. unfold zlen.
  induction n as [| n IH]; intros a i Hi Hlen Hk; cbn [afill].
  - zcases; cbn [andb]; try reflexivity; lia.
  - rewrite IH by (rewrite ?aset_length; lia).
    rewrite aget_aset by lia.
    destruct (Z.eqb_spec k i) as [E | Hne];
      destruct (Z.leb_spec (i + 1) k); destruct (Z.leb_spec i k);
      destruct (Z.ltb_spec k (i + 1 + Z.of_nat n));
      destruct (Z.ltb_spec k (i + Z.of_nat (S n)));
      cbn [andb]; try reflexivity; lia.
Qed.

Lemma list_map_seq (data : list Z) :
  data = map (fun k => nth k data 0) (seq 0 (List.length data)).
Proof.
  induction data as [| b t IH]; [reflexivity |].
  cbn [List.length]. rewrite map_seq_cons. cbn [nth]. now rewrite <- IH.
Qed.

(** ** Receive: [tmxr_poll_rx] for one line *)

(** What a read of [nbytes] characters into an empty buffer leads to. *)
Lemma poll_rx_line_data (lp : TMLN) (tr : list Event) (nbytes : Z)
      (data : list Z) :
  nz (conn lp) = true -> nz (rcve lp) = true -> rxbpi lp = 0 ->
  net_read net tr (conn lp) (sub32 TMXR_MAXBUF TMXR_GUARD) = (nbytes, data) ->
  0 < nbytes <= INT32_MAX ->
  fst (poll_rx_line net lp tr) =
  fst (rx_filter (Z.to_nat (2 * nbytes + 1))
         (set_rxcnt (add32 (rxcnt lp) nbytes)
            (set_rxbpi nbytes
               (set_rbr (afill (rbr lp) 0 0 (Z.to_nat nbytes))
                  (set_rxb (astore (rxb lp) 0
                              (firstn (Z.to_nat nbytes) data)) lp))))
         0).
Proof.
  intros Hc Hr Hpi Hread Hn. unfold poll_rx_line, INT32_MAX in *.
  rewrite Hc, Hr, Hpi. cbn [negb orb Z.eqb].
  unfold bind, sim_read_sock, ret. rewrite Hread. cbn [fst snd].
  destruct (Z.ltb_spec nbytes 0); [lia |].
  destruct (Z.ltb_spec 0 nbytes); [| lia].
  cbn [rxbpi rxcnt rbr set_rxb set_rbr set_rxbpi set_rxcnt]. rewrite Hpi.
  replace (add32 0 nbytes) with nbytes by (int32; lia).
  replace (nbytes - 0) with nbytes by lia. reflexivity.
Qed.

(** ** Lines of a multiplexor *)

Lemma upd_line_length (n : nat) (l : list TMLN) (v : TMLN) :
  List.length (upd_line n l v) = List.length l.
Proof.
  revert n. induction l as [| x t IH]; intros [| n]; simpl; auto.
Qed.

Lemma nth_upd_line (n m : nat) (l : list TMLN) (v : TMLN) :
  nth m (upd_line n l v) tmln_zero =
  if Nat.eqb m n && Nat.ltb n (List.length l) then v else nth m l tmln_zero.
Proof.
  revert n m. induction l as [| x t IH]; intros n m.
  - cbn [List.length Nat.ltb Nat.leb]. rewrite andb_false_r.
    destruct n; reflexivity.
  - destruct n as [| n]; destruct m as [| m]; cbn [upd_line nth]; auto.
Qed.

Lemma same_mux_refl (mp : TMXR) : same_mux mp mp.
Proof. unfold same_mux. tauto. Qed.

Lemma same_mux_trans (a b c : TMXR) :
  same_mux a b -> same_mux b c -> same_mux a c.
Proof. unfold same_mux. intuition congruence. Qed.

Lemma put_line_same (mp : TMXR) (i : Z) (lp : TMLN) :
  same_mux mp (put_line mp i lp).
Proof.
  unfold put_line, same_mux. destruct (i <? 0); cbn; try tauto.
  rewrite upd_line_length. tauto.
Qed.

Lemma get_put_line (mp : TMXR) (i : Z) (lp : TMLN) :
  0 <= i < zlen_lines mp ->
  get_line (put_line mp i lp) i = lp.
Proof.
  unfold zlen_lines, get_line, put_line. intros Hi.
  destruct (Z.ltb_spec i 0); [lia |]. cbn [ldsc set_ldsc].
  rewrite nth_upd_line, Nat.eqb_refl.
  destruct (Nat.ltb_spec (Z.to_nat i) (List.length (ldsc mp))); [| lia].
  reflexivity.
Qed.

Lemma get_put_line_other (mp : TMXR) (i k : Z) (lp : TMLN) :
  Z.to_nat k <> Z.to_nat i ->
  get_line (put_line mp i lp) k = get_line mp k.
Proof.
  unfold get_line, put_line. intros Hne.
  destruct (i <? 0); [reflexivity |]. cbn [ldsc set_ldsc].
  rewrite nth_upd_line.
  destruct (Nat.eqb_spec (Z.to_nat k) (Z.to_nat i)); [contradiction |].
  reflexivity.
Qed.

(** A relation every pass of a loop over the lines maintains for the
    line it serves holds between the lines before and after the loop. *)
Lemma for_lines_rel (R : TMLN -> TMLN -> Prop) (body : TMLN -> IO TMLN) :
  (forall lp, R lp lp) ->
  (forall a b c, R a b -> R b c -> R a c) ->
  (forall lp tr, R lp (fst (body lp tr))) ->
  forall n i mp tr,
    same_mux mp (fst (for_lines body n i mp tr)) /\
    forall k, R (get_line mp k) (get_line (fst (for_lines body n i mp tr)) k).
Proof.
  intros Hrefl Htrans Hbody.
  induction n as [| n IH]; intros i mp tr.
  - cbn. split; [apply same_mux_refl | auto].
  - cbn [for_lines]. unfold bind.
    pose proof (Hbody (get_line mp i) tr) as Hb.
    destruct (body (get_line mp i) tr) as [lp1 tr1]. cbn [fst] in Hb.
    destruct (IH (add32 i 1) (put_line mp i lp1) tr1) as [Hsame Hrel].
    split.
    + eapply same_mux_trans; [apply put_line_same | exact Hsame].
    + intros k. eapply Htrans; [| apply Hrel].
      unfold get_line, put_line.
      destruct (i <? 0); [apply Hrefl |]. cbn [ldsc set_ldsc].
      rewrite nth_upd_line.
      destruct (Nat.eqb_spec (Z.to_nat k) (Z.to_nat i)) as [E | _];
        [| apply Hrefl].
      destruct (Nat.ltb (Z.to_nat i) (List.length (ldsc mp)));
        cbn [andb]; [| apply Hrefl].
      rewrite E. exact Hb.
Qed.

(** ** What the transmit routines leave alone *)

Lemma tx_only_set_xmte (v : Z) (lp : TMLN) : tx_only lp (set_xmte v lp).
Proof. unfold tx_only. cbn. tauto. Qed.

Lemma tx_only_set_txdrp (v : Z) (lp : TMLN) : tx_only lp (set_txdrp v lp).
Proof. unfold tx_only. cbn. tauto. Qed.

Lemma tx_only_set_txbpi (v : Z) (lp : TMLN) : tx_only lp (set_txbpi v lp).
Proof. unfold tx_only. cbn. tauto. Qed.

Lemma tx_only_set_txcnt (v : Z) (lp : TMLN) : tx_only lp (set_txcnt v lp).
Proof. unfold tx_only. cbn. tauto. Qed.

(** The three ways out of [tmxr_putc_ln]. *)
Lemma putc_ln_cases (lp : TMLN) (chr : Z) (tr : list Event) :
  fst (tmxr_putc_ln lp chr tr) =
  if (conn lp =? 0) && negb (nz (txbfd lp)) then
    match txlog lp with
    | Some _ => (SCPE_OK, lp)
    | None => (SCPE_LOST, set_txdrp (add32 (txdrp lp) 1) lp)
    end
  else if nz (txbfd lp) || (1 <? TXBUF_AVAIL lp) then
    (SCPE_OK,
     let lp1 := if TN_IAC =? to_char chr then TXBUF_CHAR lp TN_IAC else lp in
     let lp2 := TXBUF_CHAR lp1 chr in
     if negb (nz (txbfd lp2)) && (TXBUF_AVAIL lp2 <=? TMXR_GUARD)
     then set_xmte 0 lp2 else lp2)
  else (SCPE_STALL, set_xmte 0 (set_txdrp (add32 (txdrp lp) 1) lp)).
Proof.
  destruct ((conn lp =? 0) && negb (nz (txbfd lp))) eqn:H1.
  - unfold tmxr_putc_ln, bind, fputc, ret. rewrite H1.
    destruct (txlog lp); reflexivity.
  - destruct (nz (txbfd lp) || (1 <? TXBUF_AVAIL lp)) eqn:H2.
    + now apply putc_ln_store.
    + now apply putc_ln_stall.
Qed.

Lemma putc_ln_tx_only (lp : TMLN) (chr : Z) (tr : list Event) :
  tx_only lp (snd (fst (tmxr_putc_ln lp chr tr))).
Proof.
  rewrite putc_ln_cases.
  destruct ((conn lp =? 0) && negb (nz (txbfd lp))).
  - destruct (txlog lp); cbn [snd];
      [apply tx_only_refl | apply tx_only_set_txdrp].
  - destruct (nz (txbfd lp) || (1 <? TXBUF_AVAIL lp)); cbn [snd].
    + cbv zeta.
      assert (H : tx_only lp
                    (TXBUF_CHAR
                       (if TN_IAC =? to_char chr
                        then TXBUF_CHAR lp TN_IAC else lp) chr)).
      { destruct (TN_IAC =? to_char chr).
        - eapply tx_only_trans; apply TXBUF_CHAR_tx_only.
        - apply TXBUF_CHAR_tx_only. }
      revert H.
      generalize (TXBUF_CHAR
                    (if TN_IAC =? to_char chr
                     then TXBUF_CHAR lp TN_IAC else lp) chr).
      intros lp2 H.
      destruct (negb (nz (txbfd lp2)) && (TXBUF_AVAIL lp2 <=? TMXR_GUARD));
        [| exact H].
      eapply tx_only_trans; [exact H | apply tx_only_set_xmte].
    + eapply tx_only_trans; [apply tx_only_set_txdrp | apply tx_only_set_xmte].
Qed.

Lemma linemsg_loop_tx_only (msg : list Z) (lp : TMLN) (tr : list Event) :
  tx_only lp (fst (linemsg_loop lp msg tr)).
Proof.
  revert lp tr. induction msg as [| c t IH]; intros lp tr.
  - apply tx_only_refl.
  - cbn [linemsg_loop]. unfold bind.
    pose proof (putc_ln_tx_only lp c tr) as H.
    destruct (tmxr_putc_ln lp c tr) as [[r lp1] tr1]. cbn [fst snd] in *.
    eapply tx_only_trans; [exact H | apply IH].
Qed.

Lemma send_buffered_data_tx_only (lp : TMLN) (tr : list Event) :
  tx_only lp (snd (fst (tmxr_send_buffered_data net lp tr))).
Proof.
  unfold tmxr_send_buffered_data, bind, sim_write_sock, ret.
  repeat match goal with
         | |- context [if ?b then _ else _] => destruct b
         end; cbn [fst snd];
    try apply tx_only_refl; try apply tx_sent_tx_only;
    try (eapply tx_only_trans; apply tx_sent_tx_only).
Qed.

Lemma send_buffered_data_xmte (lp : TMLN) (tr : list Event) :
  xmte (snd (fst (tmxr_send_buffered_data net lp tr))) = xmte lp.
Proof.
  unfold tmxr_send_buffered_data, bind, sim_write_sock, ret, tx_sent.
  repeat match goal with
         | |- context [if ?b then _ else _] => destruct b
         end; reflexivity.
Qed.

Lemma poll_tx_line_tx_only (lp : TMLN) (tr : list Event) :
  tx_only lp (fst (poll_tx_line net lp tr)).
Proof.
  unfold poll_tx_line. destruct (conn lp =? 0); [apply tx_only_refl |].
  unfold bind.
  pose proof (send_buffered_data_tx_only lp tr) as H.
  destruct (tmxr_send_buffered_data net lp tr) as [[n lp1] tr1].
  cbn [fst snd] in *. destruct (n =? 0); cbn [ret fst]; [| exact H].
  eapply tx_only_trans; [exact H |]. unfold tx_only. cbn. tauto.
Qed.

Lemma poll_tx_tx_only (mp : TMXR) (tr : list Event) :
  same_mux mp (fst (tmxr_poll_tx net mp tr)) /\
  forall k, tx_only (get_line mp k) (get_line (fst (tmxr_poll_tx net mp tr)) k).
Proof.
  unfold tmxr_poll_tx.
  apply (for_lines_rel tx_only (poll_tx_line net));
    [apply tx_only_refl | apply tx_only_trans | apply poll_tx_line_tx_only].
Qed.

(** ** [tmxr_poll_conn] *)

(** No caller: nothing happens. *)
Lemma poll_conn_none (mp : TMXR) (tr : list Event) (ip : Z) :
  net_accept net tr (master mp) = (INVALID_SOCKET, ip) ->
  fst (tmxr_poll_conn net mp tr) = (-1, mp).
Proof.
  intros Hacc. unfold tmxr_poll_conn, bind, sim_accept_conn.
  rewrite Hacc. cbn [fst snd]. rewrite Z.eqb_refl. reflexivity.
Qed.

(** The search came out at or beyond [lines]: the caller is turned away. *)
Lemma poll_conn_busy (mp : TMXR) (tr : list Event) (newsock ip : Z) :
  net_accept net tr (master mp) = (newsock, ip) ->
  newsock <> INVALID_SOCKET ->
  lines mp <= find_line mp (Z.to_nat (lines mp)) 0 (lines mp) 0 ->
  let tr1 := EvAccept (master mp) newsock ip :: tr in
  tmxr_poll_conn net mp tr =
  (-1, mp,
   EvClose newsock 0
     :: (if nz newsock
         then EvWrite newsock (cstr ("All connections busy" ++ crlf))
                (net_write net tr1 newsock
                   (cstr ("All connections busy" ++ crlf))) :: tr1
         else tr1)).
Proof.
  intros Hacc Hvalid Hbusy. cbv zeta.
  unfold tmxr_poll_conn, bind, sim_accept_conn. rewrite Hacc. cbn [fst snd].
  destruct (Z.eqb_spec newsock INVALID_SOCKET); [contradiction |].
  cbn [negb].
  destruct (Z.leb_spec (lines mp)
              (find_line mp (Z.to_nat (lines mp)) 0 (lines mp) 0)); [| lia].
  unfold tmxr_msg, sim_close_sock, sim_write_sock, bind, ret.
  destruct (nz newsock); reflexivity.
Qed.

(** The search came out below [lines]: the steps taken for the line
    found, one after the other. *)
Lemma poll_conn_run (mp : TMXR) (tr : list Event) (newsock ip : Z) :
  net_accept net tr (master mp) = (newsock, ip) ->
  newsock <> INVALID_SOCKET ->
  let i := find_line mp (Z.to_nat (lines mp)) 0 (lines mp) 0 in
  i < lines mp ->
  let tr1 := EvAccept (master mp) newsock ip :: tr in
  let tr2 := EvWrite newsock mantra (net_write net tr1 newsock mantra)
               :: tr1 in
  let t := net_msec net tr2 in
  let lp0 := conn_init mp
               (set_cnms t (set_ipad ip (set_conn newsock (get_line mp i))))
               (conn_msg mp i) in
  let r1 := tmxr_linemsg (set_txbpi (txbpr lp0) lp0) (conn_msg mp i)
              (EvMsec t :: tr2) in
  let r2 := tmxr_poll_tx net
              (put_line mp i (set_txbpi (txbpi lp0) (fst r1))) (snd r1) in
  tmxr_poll_conn net mp tr =
  (i,
   put_line (fst r2) i
     (set_txcnt (sub32 (txcnt (get_line (fst r2) i))
                   (strlen (conn_msg mp i)))
        (get_line (fst r2) i)),
   snd r2).
Proof.
  intros Hacc Hvalid i Hi. cbv zeta.
  unfold tmxr_poll_conn. unfold bind at 1. unfold sim_accept_conn.
  rewrite Hacc. cbn [fst snd].
  rewrite (eqb_false newsock INVALID_SOCKET) by assumption. cbn [negb].
  fold i. rewrite (leb_false (lines mp) i) by lia.
  unfold bind at 1. unfold sim_write_sock at 1.
  unfold bind at 1. unfold sim_os_msec at 1.
  unfold bind at 1.
  destruct (tmxr_linemsg _ (conn_msg mp i) _) as [lp1 tr4].
  unfold bind at 1. cbn [fst snd].
  destruct (tmxr_poll_tx net _ tr4) as [mp1 tr5]. reflexivity.
Qed.

Lemma conn_init_fields (mp : TMXR) (lp : TMLN) (msg : string) :
  tx_only (set_dstb 0 (set_tsta 0 (set_rxcnt (rxcnt (conn_init mp lp msg)) lp)))
          (conn_init mp lp msg).
Proof.
  unfold conn_init. destruct (negb (nz (buffered mp)));
    [| destruct (txbsz lp <? txcnt lp)];
    unfold tx_only; cbn; tauto.
Qed.

(** The search came out below [lines]: that line gets the connection.  Its
    Telnet state and [dstb] are cleared, the receive side is left as it
    was, and no other line changes outside its transmit fields. *)
Lemma poll_conn_accepted (mp : TMXR) (tr : list Event) (newsock ip : Z) :
  net_accept net tr (master mp) = (newsock, ip) ->
  newsock <> INVALID_SOCKET ->
  let i := find_line mp (Z.to_nat (lines mp)) 0 (lines mp) 0 in
  i < lines mp -> 0 <= i < zlen_lines mp ->
  let r := tmxr_poll_conn net mp tr in
  let lp := get_line mp i in
  let lp' := get_line (snd (fst r)) i in
  fst (fst r) = i /\
  same_mux mp (snd (fst r)) /\
  conn lp' = newsock /\ ipad lp' = ip /\ tsta lp' = 0 /\ dstb lp' = 0 /\
  rcve lp' = rcve lp /\ rxbpr lp' = rxbpr lp /\ rxbpi lp' = rxbpi lp /\
  rxb lp' = rxb lp /\ rbr lp' = rbr lp /\
  txbsz lp' = txbsz lp /\ txbfd lp' = txbfd lp /\ txlog lp' = txlog lp /\
  forall k, Z.to_nat k <> Z.to_nat i ->
            tx_only (get_line mp k) (get_line (snd (fst r)) k).
Proof.
  intros Hacc Hvalid i Hi Hrange. cbv zeta. fold i.
  pose proof (poll_conn_run mp tr newsock ip Hacc Hvalid Hi) as Hrun.
  cbv zeta in Hrun. fold i in Hrun. rewrite Hrun. clear Hrun.
  cbn [fst snd].
  set (t := net_msec net _).
  pose proof (conn_init_fields mp
                (set_cnms t (set_ipad ip (set_conn newsock (get_line mp i))))
                (conn_msg mp i)) as H0.
  revert H0.
  generalize (conn_init mp
                (set_cnms t (set_ipad ip (set_conn newsock (get_line mp i))))
                (conn_msg mp i)).
  intros lp0 H0.
  unfold tmxr_linemsg.
  match goal with
  | |- context [linemsg_loop ?l ?m ?tt] =>
      pose proof (linemsg_loop_tx_only m l tt) as H1;
      revert H1; generalize (linemsg_loop l m tt)
  end.
  intros [lp1 tr4] H1. cbn [fst snd] in *.
  match goal with
  | |- context [tmxr_poll_tx net ?m ?tt] =>
      pose proof (poll_tx_tx_only m tt) as H2;
      revert H2; generalize (tmxr_poll_tx net m tt)
  end.
  intros [mp1 tr5] [Hsame Hrel]. cbn [fst snd] in *.
  assert (Hsame' : same_mux mp mp1)
    by (eapply same_mux_trans; [apply put_line_same | exact Hsame]).
  assert (Hlen : zlen_lines mp1 = zlen_lines mp)
    by (unfold zlen_lines; f_equal; apply Hsame').
  split; [reflexivity |].
  split; [eapply same_mux_trans; [exact Hsame' | apply put_line_same] |].
  rewrite get_put_line by lia.
  pose proof (Hrel i) as Hi1. rewrite get_put_line in Hi1 by lia.
  assert (Hchain : tx_only
                     (set_dstb 0 (set_tsta 0 (set_rxcnt (rxcnt lp0)
                        (set_cnms t (set_ipad ip
                           (set_conn newsock (get_line mp i)))))))
                     (set_txcnt (sub32 (txcnt (get_line mp1 i))
                                   (strlen (conn_msg mp i)))
                        (get_line mp1 i))).
  { eapply tx_only_trans; [exact H0 |].
    eapply tx_only_trans; [apply (tx_only_set_txbpi (txbpr lp0)) |].
    eapply tx_only_trans; [exact H1 |].
    eapply tx_only_trans; [apply (tx_only_set_txbpi (txbpi lp0)) |].
    eapply tx_only_trans; [exact Hi1 |].
    apply tx_only_set_txcnt. }
  revert Hchain.
  generalize (set_txcnt (sub32 (txcnt (get_line mp1 i))
                           (strlen (conn_msg mp i)))
                (get_line mp1 i)).
  intros lpf Hchain. unfold tx_only in Hchain. cbn in Hchain.
  destruct Hchain as (? & ? & ? & ? & ? & ? & ? & ? & ? & ? & ? & ? & ? & ?).
  repeat (split; [assumption |]).
  intros k Hk. rewrite get_put_line_other by assumption.
  specialize (Hrel k). now rewrite get_put_line_other in Hrel by assumption.
Qed.


(** ** What sending leaves alone *)

Lemma send_buffered_data_drain_only (lp : TMLN) (tr : list Event) :
  drain_only lp (snd (fst (tmxr_send_buffered_data net lp tr))).
Proof.
  unfold tmxr_send_buffered_data, bind, sim_write_sock, ret.
  repeat match goal with
         | |- context [if ?b then _ else _] => destruct b
         end; cbn [fst snd];
    try apply drain_only_refl; try apply tx_sent_drain_only;
    try (eapply drain_only_trans; apply tx_sent_drain_only).
Qed.

Lemma poll_tx_line_drain_only (lp : TMLN) (tr : list Event) :
  drain_only lp (fst (poll_tx_line net lp tr)).
Proof.
  unfold poll_tx_line. destruct (conn lp =? 0); [apply drain_only_refl |].
  unfold bind.
  pose proof (send_buffered_data_drain_only lp tr) as H.
  destruct (tmxr_send_buffered_data net lp tr) as [[n lp1] tr1].
  cbn [fst snd] in *. destruct (n =? 0); cbn [ret fst]; [| exact H].
  eapply drain_only_trans; [exact H |].
  unfold drain_only, tx_only. cbn. tauto.
Qed.

Lemma poll_tx_drain_only (mp : TMXR) (tr : list Event) :
  same_mux mp (fst (tmxr_poll_tx net mp tr)) /\
  forall k,
    drain_only (get_line mp k) (get_line (fst (tmxr_poll_tx net mp tr)) k).
Proof.
  unfold tmxr_poll_tx.
  apply (for_lines_rel drain_only (poll_tx_line net));
    [apply drain_only_refl | apply drain_only_trans
     | apply poll_tx_line_drain_only].
Qed.

(** ** Sending under partial writes *)

Lemma accepts_all_sane : accepts_all net -> sane_peer net.
Proof.
  intros H tr s buf. right. rewrite H. unfold zlen. lia.
Qed.

Lemma sent_write_part (s : SOCKET) (buf : list Z) (k : Z) (tr : list Event) :
  sent s (EvWrite s buf k :: tr) = sent s tr ++ firstn (Z.to_nat k) buf.
Proof.
  simpl. rewrite Z.eqb_refl. simpl.
  destruct (Z.ltb_spec 0 k) as [H | H]; [reflexivity |].
  replace (Z.to_nat k) with 0%nat by lia. simpl. now rewrite app_nil_r.
Qed.

Lemma firstn_plus {A : Type} (a b : nat) (l : list A) :
  firstn (a + b) l = firstn a l ++ firstn b (skipn a l).
Proof.
  revert l. induction a as [| a IH]; intros l; [reflexivity |].
  destruct l as [| x l]; simpl.
  - now rewrite firstn_nil.
  - now rewrite IH.
Qed.

Lemma firstn_seq_le (n s l : nat) :
  (n <= l)%nat -> firstn n (seq s l) = seq s n.
Proof.
  revert s l. induction n as [| n IH]; intros s l H; [reflexivity |].
  destruct l as [| l]; [lia |]. simpl. f_equal. apply IH. lia.
Qed.

(** A slice that starts at the remove pointer is a prefix of the queue. *)
Lemma aslice_queue (lp : TMLN) (m : Z) :
  tx_ok lp -> 0 <= m <= tmxr_tqln lp -> m <= txbsz lp - txbpr lp ->
  aslice (txb lp) (txbpr lp) m = firstn (Z.to_nat m) (tx_queue lp).
Proof.
  intros Hok Hm Hend. pose proof Hok as (Hsz & Hpr & Hpi & Hlen).
  fold (zlen (txb lp)) in Hlen.
  unfold tx_queue. rewrite firstn_map, firstn_seq_le by lia.
  rewrite aslice_map by lia. apply map_seq_ext. intros k Hk.
  f_equal. rems. zcases; lia.
Qed.

(** The bookkeeping after [k] bytes were taken from the front. *)
Lemma tx_sent_queue (lp : TMLN) (k : Z) :
  tx_ok lp -> 0 <= k <= tmxr_tqln lp -> k <= txbsz lp - txbpr lp ->
  tx_ok (tx_sent lp k) /\
  tmxr_tqln (tx_sent lp k) = tmxr_tqln lp - k /\
  tx_queue (tx_sent lp k) = skipn (Z.to_nat k) (tx_queue lp) /\
  txbpr (tx_sent lp k) = (txbpr lp + k) mod txbsz lp /\
  txcnt (tx_sent lp k) = wrap32 (txcnt lp + k).
Proof.
  intros Hok Hk Hend. pose proof Hok as (Hsz & Hpr & Hpi & Hlen).
  pose proof (tqln_eq lp Hok) as Hq. unfold INT32_MAX in *.
  assert (Hsent : tx_sent lp k =
                  set_txcnt (add32 (txcnt lp) k)
                    (set_txbpr (if txbpr lp + k =? txbsz lp then 0
                                else txbpr lp + k) lp)).
  { unfold tx_sent. cbn [txbsz txbpr set_txbpr].
    replace (add32 (txbpr lp) k) with (txbpr lp + k) by (int32; lia).
    destruct (Z.leb_spec (txbsz lp) (txbpr lp + k));
      destruct (Z.eqb_spec (txbpr lp + k) (txbsz lp)); try lia; reflexivity. }
  rewrite Hsent.
  set (pr' := if txbpr lp + k =? txbsz lp then 0 else txbpr lp + k).
  assert (Hpr' : 0 <= pr' < txbsz lp /\
                 (pr' = txbpr lp + k \/ pr' = txbpr lp + k - txbsz lp))
    by (unfold pr'; zcases; lia).
  assert (Hok' : tx_ok (set_txcnt (add32 (txcnt lp) k) (set_txbpr pr' lp))).
  { unfold tx_ok, INT32_MAX. cbn. lia. }
  assert (Hq' : tmxr_tqln (set_txcnt (add32 (txcnt lp) k) (set_txbpr pr' lp))
                = tmxr_tqln lp - k).
  { rewrite (tqln_eq _ Hok'). cbn [txbpi txbpr txbsz set_txcnt set_txbpr].
    rewrite Hq in *. revert Hk Hend. zcases; lia. }
  split; [exact Hok' |]. split; [exact Hq' |].
  split; [| split; [| reflexivity]].
  2: { cbn [txbpr set_txcnt set_txbpr]. unfold pr'.
       destruct (Z.eqb_spec (txbpr lp + k) (txbsz lp)) as [E | N].
       - rewrite E, Z_mod_same_full. reflexivity.
       - rewrite Z.mod_small by lia. reflexivity. }
  unfold tx_queue. rewrite Hq'.
  cbn [txb txbpr txbsz set_txcnt set_txbpr].
  rewrite skipn_map, skipn_seq.
  replace (Z.to_nat (tmxr_tqln lp) - Z.to_nat k)%nat
    with (Z.to_nat (tmxr_tqln lp - k)) by lia.
  rewrite (map_seq_from _ (0 + Z.to_nat k)%nat).
  apply map_seq_ext. intros j Hj. f_equal.
  pose proof (tqln_range lp Hok) as Hr.
  rems. zcases; lia.
Qed.

(** One write and its bookkeeping: the peer took [k] of the [m] bytes
    offered from the remove pointer on, or failed. *)
Lemma send_step (lp : TMLN) (m k : Z) :
  tx_ok lp -> SOCKET_ERROR < 0 ->
  0 <= m <= tmxr_tqln lp -> m <= txbsz lp - txbpr lp ->
  k = SOCKET_ERROR \/ 0 <= k <= m ->
  let lp1 := if negb (k =? SOCKET_ERROR) then tx_sent lp k else lp in
  let n1 := if negb (k =? SOCKET_ERROR) then sub32 (tmxr_tqln lp) k
            else tmxr_tqln lp in
  tx_ok lp1 /\ n1 = tmxr_tqln lp1 /\ n1 = tmxr_tqln lp - Z.max 0 k /\
  tx_queue lp1 = skipn (Z.to_nat k) (tx_queue lp) /\
  firstn (Z.to_nat k) (aslice (txb lp) (txbpr lp) m)
  = firstn (Z.to_nat k) (tx_queue lp) /\
  drain_only lp lp1 /\
  txbpr lp1 = (txbpr lp + Z.max 0 k) mod txbsz lp /\
  (counter_ok (txcnt lp) m -> txcnt lp1 = txcnt lp + Z.max 0 k).
Proof.
  intros Hok Herr Hm Hend Hk. cbv zeta.
  pose proof (tqln_range lp Hok) as Hr.
  pose proof Hok as (Hsz & _). unfold INT32_MAX in Hsz.
  destruct (Z.eqb_spec k SOCKET_ERROR) as [E | N]; cbn [negb].
  - replace (Z.to_nat k) with 0%nat by lia.
    replace (Z.max 0 k) with 0 by lia.
    split; [exact Hok |]. split; [reflexivity |]. split; [lia |].
    split; [reflexivity |]. split; [reflexivity |].
    split; [apply drain_only_refl |].
    destruct Hok as (_ & Hpr & _).
    rewrite Z.add_0_r, Z.mod_small by lia.
    split; [reflexivity |]. intros _. lia.
  - destruct Hk as [Hk | Hk]; [contradiction |].
    destruct (tx_sent_queue lp k Hok) as (Hok1 & Hq1 & Hqu1 & Hpr1 & Hc1);
      [lia | lia |].
    replace (Z.max 0 k) with k by lia.
    split; [exact Hok1 |].
    split; [rewrite Hq1; int32; reflexivity |].
    split; [int32; lia |].
    split; [exact Hqu1 |].
    split; [rewrite aslice_queue by (assumption || lia);
            rewrite firstn_firstn; f_equal; lia |].
    split; [apply tx_sent_drain_only |]. split; [exact Hpr1 |].
    intros [Hc Hc']. rewrite Hc1. unfold INT32_MAX in *. apply wrap32_id. lia.
Qed.

Lemma if_pair {A B : Type} (c : bool) (a a' : A) (b b' : B) :
  (if c then (a, b) else (a', b')) = (if c then a else a', if c then b else b').
Proof. destruct c; reflexivity. Qed.

Lemma send_buffered_data_part (lp : TMLN) (tr : list Event) :
  tx_ok lp -> sane_peer net -> SOCKET_ERROR < 0 ->
  exists left lp' tr',
    tmxr_send_buffered_data net lp tr = (left, lp', tr') /\
    0 <= left <= tmxr_tqln lp /\
    left = tmxr_tqln lp' /\
    tx_ok lp' /\
    sent (conn lp) tr' =
    sent (conn lp) tr ++ firstn (Z.to_nat (tmxr_tqln lp - left)) (tx_queue lp) /\
    tx_queue lp' = skipn (Z.to_nat (tmxr_tqln lp - left)) (tx_queue lp) /\
    drain_only lp lp' /\
    txbpr lp' = (txbpr lp + (tmxr_tqln lp - left)) mod txbsz lp /\
    (counter_ok (txcnt lp) (tmxr_tqln lp) ->
     txcnt lp' = txcnt lp + (tmxr_tqln lp - left)).
Proof.
  intros Hok Hnet Herr.
  pose proof (tqln_range lp Hok) as Hr.
  pose proof (tqln_eq lp Hok) as Hq.
  pose proof Hok as (Hsz & Hpr & Hpi & Hlen). unfold INT32_MAX in Hsz.
  unfold tmxr_send_buffered_data.
  destruct (Z.eq_dec (tmxr_tqln lp) 0) as [E0 | N0].
  - rewrite E0. cbn [nz Z.eqb negb ret].
    exists 0, lp, tr. rewrite E0.
    cbn [Z.sub Z.to_nat firstn skipn]. rewrite app_nil_r.
    split; [reflexivity |].
    split; [lia |]. split; [reflexivity |]. split; [exact Hok |].
    split; [reflexivity |]. split; [reflexivity |].
    split; [apply drain_only_refl |].
    rewrite Z.add_0_r, Z.mod_small by lia. split; [reflexivity |].
    intros _. lia.
  - rewrite (nz_eq_true (tmxr_tqln lp)) by assumption.
    set (m := if txbpr lp <? txbpi lp then tmxr_tqln lp
              else txbsz lp - txbpr lp).
    assert (Hm : 0 <= m <= tmxr_tqln lp /\ m <= txbsz lp - txbpr lp).
    { unfold m. rewrite Hq. revert N0. rewrite Hq. zcases; lia. }
    assert (Hw : (if txbpr lp <? txbpi lp
                  then sim_write_sock net (conn lp)
                         (aslice (txb lp) (txbpr lp) (tmxr_tqln lp))
                  else sim_write_sock net (conn lp)
                         (aslice (txb lp) (txbpr lp)
                            (sub32 (txbsz lp) (txbpr lp))))
                 = sim_write_sock net (conn lp)
                     (aslice (txb lp) (txbpr lp) m)).
    { unfold m. destruct (txbpr lp <? txbpi lp); [reflexivity |].
      replace (sub32 (txbsz lp) (txbpr lp)) with (txbsz lp - txbpr lp)
        by (int32; reflexivity).
      reflexivity. }
    rewrite Hw. clear Hw.
    unfold bind at 1. unfold sim_write_sock at 1. cbv zeta.
    pose proof (Hnet tr (conn lp) (aslice (txb lp) (txbpr lp) m)) as Hk1.
    rewrite zlen_aslice in Hk1 by (fold (zlen (txb lp)) in Hlen; lia).
    pose proof (sent_write_part (conn lp) (aslice (txb lp) (txbpr lp) m)
                  (net_write net tr (conn lp) (aslice (txb lp) (txbpr lp) m))
                  tr) as Hs1.
    revert Hk1 Hs1.
    generalize (EvWrite (conn lp) (aslice (txb lp) (txbpr lp) m)
                  (net_write net tr (conn lp)
                     (aslice (txb lp) (txbpr lp) m)) :: tr).
    generalize (net_write net tr (conn lp) (aslice (txb lp) (txbpr lp) m)).
    intros k1 tr1 Hk1 Hs1.
    destruct (send_step lp m k1 Hok Herr (proj1 Hm) (proj2 Hm) Hk1)
      as (Hok1 & Hn1 & Hn1' & Hqu1 & Hfst1 & Hdr1 & Hp1 & Hc1).
    rewrite Hfst1 in Hs1. clear Hfst1.
    rewrite if_pair.
    revert Hok1 Hn1 Hn1' Hqu1 Hdr1 Hp1 Hc1.
    generalize (if negb (k1 =? SOCKET_ERROR) then tx_sent lp k1 else lp).
    generalize (if negb (k1 =? SOCKET_ERROR)
                then sub32 (tmxr_tqln lp) k1 else tmxr_tqln lp).
    intros n1 lp1 Hok1 Hn1 Hn1' Hqu1 Hdr1 Hp1 Hc1. cbv beta iota zeta.
    assert (Hbs1 : txbsz lp1 = txbsz lp) by apply Hdr1.
    assert (Hk1' : Z.to_nat k1 = Z.to_nat (tmxr_tqln lp - n1)) by lia.
    rewrite Hk1' in Hs1, Hqu1.
    destruct (nz n1 && (txbpr lp1 =? 0)) eqn:H2.
    + apply andb_true_iff in H2. destruct H2 as [_ Hpr1].
      apply Z.eqb_eq in Hpr1.
      assert (Hcn : conn lp1 = conn lp) by apply Hdr1.
      unfold bind, sim_write_sock. cbv zeta.
      pose proof (Hnet tr1 (conn lp1) (aslice (txb lp1) 0 n1)) as Hk2.
      pose proof (tqln_range lp1 Hok1) as Hr1.
      pose proof Hok1 as (Hsz1 & _ & _ & Hlen1).
      fold (zlen (txb lp1)) in Hlen1.
      rewrite zlen_aslice in Hk2 by lia.
      pose proof (sent_write_part (conn lp1) (aslice (txb lp1) 0 n1)
                    (net_write net tr1 (conn lp1) (aslice (txb lp1) 0 n1))
                    tr1) as Hs2.
      revert Hk2 Hs2.
      generalize (EvWrite (conn lp1) (aslice (txb lp1) 0 n1)
                    (net_write net tr1 (conn lp1)
                       (aslice (txb lp1) 0 n1)) :: tr1).
      generalize (net_write net tr1 (conn lp1) (aslice (txb lp1) 0 n1)).
      intros k2 tr2 Hk2 Hs2.
      destruct (send_step lp1 n1 k2 Hok1 Herr ltac:(lia) ltac:(lia) Hk2)
        as (Hok2 & Hn2 & Hn2' & Hqu2 & Hfst2 & Hdr2 & Hp2 & Hc2).
      rewrite Hpr1 in Hfst2. rewrite Hfst2, Hcn in Hs2.
      clear Hfst2. rewrite <- Hn1 in Hn2, Hn2'.
      assert (Hsum : Z.to_nat (tmxr_tqln lp - (n1 - Z.max 0 k2))
                     = (Z.to_nat (tmxr_tqln lp - n1) + Z.to_nat k2)%nat)
        by lia.
      assert (Hres : (if negb (k2 =? SOCKET_ERROR)
                      then ret (sub32 n1 k2, tx_sent lp1 k2)
                      else ret (n1, lp1)) tr2
                     = (n1 - Z.max 0 k2,
                        (if negb (k2 =? SOCKET_ERROR)
                         then tx_sent lp1 k2 else lp1), tr2)).
      { revert Hn2'.
        destruct (negb (k2 =? SOCKET_ERROR)); unfold ret;
          intros <-; reflexivity. }
      rewrite Hres. clear Hres.
      revert Hok2 Hn2 Hn2' Hqu2 Hdr2 Hp2 Hc2.
      generalize (if negb (k2 =? SOCKET_ERROR) then tx_sent lp1 k2 else lp1).
      intros lp2 Hok2 Hn2 Hn2' Hqu2 Hdr2 Hp2 Hc2.
      exists (n1 - Z.max 0 k2), lp2, tr2.
      split; [reflexivity |].
      split; [lia |].
      split; [rewrite <- Hn2; rewrite Hn2'; reflexivity |].
      split; [exact Hok2 |].
      rewrite Hsum, firstn_plus, Hs2, Hs1, <- app_assoc, <- Hqu1.
      split; [reflexivity |].
      split; [rewrite Hqu2, Hqu1, skipn_skipn; f_equal; lia |].
      split; [exact (drain_only_trans _ _ _ Hdr1 Hdr2) |].
      split.
      * rewrite Hp2, Hp1, Hbs1, Zplus_mod_idemp_l. f_equal. lia.
      * intros Hcnt. unfold counter_ok in *.
        rewrite Hc2, Hc1 by lia. lia.
    + exists n1, lp1, tr1. unfold ret.
      split; [reflexivity |].
      split; [lia |]. split; [exact Hn1 |]. split; [exact Hok1 |].
      split; [exact Hs1 |]. split; [exact Hqu1 |]. split; [exact Hdr1 |].
      split.
      * rewrite Hp1. f_equal. lia.
      * intros Hcnt. unfold counter_ok in *. rewrite Hc1 by lia. lia.
Qed.


(** ** Transmit: stall, eviction and IAC stuffing *)

Lemma is_iac_byte (b : Z) : 0 <= b < 255 -> is_iac b = false.
Proof.
  intros Hb. unfold is_iac, to_char, TN_IAC. apply Z.eqb_neq.
  destruct (Z.lt_ge_cases b 128) as [Hlo | Hhi].
  - rewrite Z.mod_small by lia. lia.
  - replace (b + 128) with ((b - 128) + 1 * 256) by lia.
    rewrite Z.mod_add by lia. rewrite Z.mod_small by lia. lia.
Qed.

Lemma store_test (lp : TMLN) :
  tx_ok lp -> conn lp <> 0 -> 1 <= tx_free lp ->
  (conn lp =? 0) && negb (nz (txbfd lp)) = false /\
  nz (txbfd lp) || (1 <? TXBUF_AVAIL lp) = true.
Proof.
  intros Hok Hc Hfree. rewrite TXBUF_AVAIL_free by assumption. split.
  - destruct (Z.eqb_spec (conn lp) 0); [contradiction | reflexivity].
  - destruct (Z.ltb_spec 1 (tx_free lp + 1)); [| lia]. apply orb_true_r.
Qed.

(** The unbuffered line, in full: a stall exactly when no slot is free;
    otherwise the bytes are stored, and whatever does not fit pushes the
    oldest bytes out. *)
Lemma putc_ln_unbuffered (lp : TMLN) (chr : Z) (tr : list Event) :
  conn lp <> 0 -> txbfd lp = 0 -> tx_ok lp -> counter_ok (txdrp lp) 2 ->
  let r := tmxr_putc_ln lp chr tr in
  let lp' := snd (fst r) in
  let ev := evicted (tx_free lp) (zlen (stuffed chr)) in
  (tx_free lp = 0 ->
   fst (fst r) = SCPE_STALL /\ txdrp lp' = txdrp lp + 1 /\ xmte lp' = 0 /\
   tx_queue lp' = tx_queue lp) /\
  (1 <= tx_free lp ->
   fst (fst r) = SCPE_OK /\
   tx_queue lp' = skipn (Z.to_nat ev) (tx_queue lp ++ stuffed chr) /\
   txdrp lp' = txdrp lp + ev /\
   xmte lp' = (if tx_free lp' <? TMXR_GUARD then 0 else xmte lp)).
Proof.
  intros Hc Hfd Hok Hdrp. cbv zeta. split; intros Hfree.
  - rewrite putc_ln_stall.
    + cbn [fst snd]. destruct Hdrp as [Hd1 Hd2]. unfold INT32_MAX in *.
      repeat split. cbn [txdrp set_xmte set_txdrp]. int32. reflexivity.
    + destruct (Z.eqb_spec (conn lp) 0); [contradiction | reflexivity].
    + rewrite TXBUF_AVAIL_free, Hfree, Hfd by assumption. reflexivity.
  - destruct (store_test lp Hok Hc Hfree) as [H1 H2].
    destruct (putc_ln_stored lp chr tr H1 H2 Hok Hdrp)
      as (Hst & _ & Hqu & _ & Hdr & Hx & _).
    cbv zeta in Hst, Hqu, Hdr, Hx. rewrite Hfd in Hx.
    repeat split; assumption.
Qed.

(** C4, at the input where the code parts from it: an unbuffered,
    connected line with exactly one free slot is given an IAC.  The room
    test lets the call through: it returns ok, both IAC bytes are
    written, the pointers meet, and the oldest queued byte is pushed out
    and counted as a drop.  The stall the claim requires for an IAC with
    fewer than two slots does not happen. *)
Theorem putc_ln_iac_one_slot (lp : TMLN) (chr : Z) (tr : list Event) :
  conn lp <> 0 -> txbfd lp = 0 -> tx_ok lp -> counter_ok (txdrp lp) 2 ->
  is_iac chr = true -> tx_free lp = 1 ->
  let r := tmxr_putc_ln lp chr tr in
  fst (fst r) = SCPE_OK /\
  tx_queue (snd (fst r)) = skipn 1 (tx_queue lp ++ [TN_IAC; TN_IAC]) /\
  txdrp (snd (fst r)) = txdrp lp + 1.
Proof.
  intros Hc Hfd Hok Hdrp Hiac Hfree. cbv zeta.
  destruct (putc_ln_unbuffered lp chr tr Hc Hfd Hok Hdrp) as [_ Hstore].
  destruct Hstore as (Hst & Hqu & Hdr & _); [lia |].
  assert (Hs : stuffed chr = [TN_IAC; TN_IAC]).
  { unfold stuffed. rewrite Hiac. unfold is_iac in Hiac.
    apply Z.eqb_eq in Hiac. now rewrite <- Hiac. }
  rewrite Hs, Hfree in *. auto.
Qed.

(** C5: a buffered line never stalls.  Whatever the byte, [tmxr_putc_ln]
    returns ok; on a well-formed ring the bytes that do not fit push out
    as many of the oldest bytes (the remove pointer advances by that
    number, the queue loses its head) and [txdrp] grows by one for each. *)
Theorem putc_ln_buffered (lp : TMLN) (chr : Z) (tr : list Event) :
  txbfd lp <> 0 ->
  let r := tmxr_putc_ln lp chr tr in
  let lp' := snd (fst r) in
  let ev := evicted (tx_free lp) (zlen (stuffed chr)) in
  fst (fst r) = SCPE_OK /\
  (tx_ok lp -> counter_ok (txdrp lp) 2 ->
   tx_queue lp' = skipn (Z.to_nat ev) (tx_queue lp ++ stuffed chr) /\
   txbpr lp' = (txbpr lp + ev) mod txbsz lp /\
   txdrp lp' = txdrp lp + ev /\
   (tx_free lp = 0 -> ev = zlen (stuffed chr))).
Proof.
  intros Hfd. cbv zeta.
  assert (Hnz : nz (txbfd lp) = true) by now apply nz_true.
  assert (H1 : (conn lp =? 0) && negb (nz (txbfd lp)) = false)
    by (rewrite Hnz; apply andb_false_r).
  assert (H2 : nz (txbfd lp) || (1 <? TXBUF_AVAIL lp) = true)
    by (rewrite Hnz; reflexivity).
  split.
  - now rewrite putc_ln_store.
  - intros Hok Hdrp.
    destruct (putc_ln_stored lp chr tr H1 H2 Hok Hdrp)
      as (_ & _ & Hqu & Hpr & Hdr & _).
    repeat split; try assumption.
    intros Hfree. unfold evicted. rewrite Hfree. unfold zlen. lia.
Qed.

(** C7: on a connected line with two free slots or more, the byte 0xFF
    is stored as two IAC bytes at the tail of the queue and the call
    returns ok; a peer that takes what it is offered then receives the
    queue followed by the two bytes.  Any other byte value is stored
    once. *)
Theorem putc_ln_iac_doubled (lp : TMLN) (chr : Z) (tr : list Event) :
  conn lp <> 0 -> tx_ok lp -> counter_ok (txdrp lp) 2 -> 2 <= tx_free lp ->
  0 <= chr <= 255 ->
  let r := tmxr_putc_ln lp chr tr in
  let lp' := snd (fst r) in
  let stored := if chr =? 255 then [TN_IAC; TN_IAC] else [to_char chr] in
  fst (fst r) = SCPE_OK /\
  tx_queue lp' = tx_queue lp ++ stored /\
  (accepts_all net -> SOCKET_ERROR < 0 ->
   sent (conn lp) (snd (tmxr_send_buffered_data net lp' (snd r)))
   = sent (conn lp) (snd r) ++ tx_queue lp ++ stored).
Proof.
  intros Hc Hok Hdrp Hfree Hchr. cbv zeta.
  destruct (store_test lp Hok Hc ltac:(lia)) as [H1 H2].
  destruct (putc_ln_stored lp chr tr H1 H2 Hok Hdrp)
    as (Hst & Hok' & Hqu & _ & _ & _ & Hto).
  cbv zeta in Hst, Hok', Hqu, Hto.
  assert (Hs : stuffed chr
               = if chr =? 255 then [TN_IAC; TN_IAC] else [to_char chr]).
  { destruct (Z.eqb_spec chr 255) as [-> | Hne]; [reflexivity |].
    unfold stuffed. now rewrite is_iac_byte by lia. }
  assert (Hev : evicted (tx_free lp) (zlen (stuffed chr)) = 0).
  { unfold evicted, zlen. rewrite Hs.
    destruct (chr =? 255); simpl List.length; lia. }
  rewrite Hev, Hs in Hqu. simpl skipn in Hqu.
  split; [assumption |]. split; [assumption |].
  intros Hnet Herr.
  destruct (send_buffered_data_all _ (snd (tmxr_putc_ln lp chr tr))
              Hok' Hnet Herr) as (Hsent & _).
  cbv zeta in Hsent.
  replace (conn (snd (fst (tmxr_putc_ln lp chr tr)))) with (conn lp) in Hsent
    by (symmetry; apply Hto).
  rewrite Hsent, Hqu. reflexivity.
Qed.

(** ** Receive: CR padding, BREAK *)

Lemma rmvrc_tsta (lp : TMLN) (p : Z) : tsta (tmxr_rmvrc lp p) = tsta lp.
Proof. rewrite tmxr_rmvrc_eq. reflexivity. Qed.

Lemma rmvrc_dstb (lp : TMLN) (p : Z) : dstb (tmxr_rmvrc lp p) = dstb lp.
Proof. rewrite tmxr_rmvrc_eq. reflexivity. Qed.

(** [tmxr_rmvrc] on a buffer that holds the character to remove: the
    characters from [p] on move down by one and there is one less. *)
Lemma rmvrc_spec (lp : TMLN) (p : Z) :
  0 <= p < rxbpi lp ->
  rxbpi lp <= zlen (rxb lp) -> rxbpi lp <= zlen (rbr lp) ->
  zlen (rxb lp) <= INT32_MAX -> zlen (rbr lp) <= INT32_MAX ->
  let lp' := tmxr_rmvrc lp p in
  rxbpi lp' = rxbpi lp - 1 /\
  zlen (rxb lp') = zlen (rxb lp) /\ zlen (rbr lp') = zlen (rbr lp) /\
  tsta lp' = tsta lp /\ dstb lp' = dstb lp /\
  (forall k, 0 <= k ->
     aget (rxb lp') k = if (p <=? k) && (k <? rxbpi lp)
                        then aget (rxb lp) (k + 1) else aget (rxb lp) k) /\
  (forall k, 0 <= k ->
     aget (rbr lp') k = if (p <=? k) && (k <? rxbpi lp)
                        then aget (rbr lp) (k + 1) else aget (rbr lp) k).
Proof.
  intros Hp Hlb Hlr Hmb Hmr. cbv zeta. rewrite tmxr_rmvrc_eq.
  cbn [rxbpi rxb rbr tsta dstb set_rxbpi set_rbr set_rxb].
  unfold INT32_MAX in *.
  split; [int32; reflexivity |].
  split; [unfold zlen; now rewrite shift_left_length |].
  split; [unfold zlen; now rewrite shift_left_length |].
  split; [reflexivity |]. split; [reflexivity |].
  split; intros k Hk; rewrite shift_left_get by (unfold INT32_MAX; lia);
    replace (p + Z.of_nat (Z.to_nat (rxbpi lp - p))) with (rxbpi lp) by lia;
    reflexivity.
Qed.

Lemma rx_step_iac_will (lp : TMLN) (j : Z) :
  tsta lp = TNS_IAC -> aget (rxb lp) j = TN_WILL ->
  rx_filter_step lp j = (tmxr_rmvrc (set_tsta TNS_WILL lp) j, j).
Proof.
  intros Hs He. unfold rx_filter_step, iac_command. rewrite Hs, He.
  reflexivity.
Qed.

Lemma rx_step_iac_wont (lp : TMLN) (j : Z) :
  tsta lp = TNS_IAC -> aget (rxb lp) j = TN_WONT ->
  rx_filter_step lp j = (tmxr_rmvrc (set_tsta TNS_WONT lp) j, j).
Proof.
  intros Hs He. unfold rx_filter_step, iac_command. rewrite Hs, He.
  reflexivity.
Qed.

Lemma rx_step_will_bin (lp : TMLN) (j : Z) :
  tsta lp = TNS_WILL -> aget (rxb lp) j = TN_BIN ->
  rx_filter_step lp j = (set_tsta TNS_NORM (tmxr_rmvrc (set_dstb 0 lp) j), j).
Proof.
  intros Hs He. unfold rx_filter_step. rewrite Hs, He. reflexivity.
Qed.

Lemma rx_step_wont_bin (lp : TMLN) (j : Z) :
  tsta lp = TNS_WONT -> aget (rxb lp) j = TN_BIN ->
  rx_filter_step lp j = (set_tsta TNS_NORM (tmxr_rmvrc (set_dstb 1 lp) j), j).
Proof.
  intros Hs He. unfold rx_filter_step. rewrite Hs, He. reflexivity.
Qed.

(** A pass of the filter changes [dstb] in one place only: on the
    option BIN after WILL or WONT. *)
Lemma rx_step_dstb (lp : TMLN) (j : Z) :
  dstb (fst (rx_filter_step lp j)) <> dstb lp ->
  aget (rxb lp) j = TN_BIN /\ (tsta lp = TNS_WILL \/ tsta lp = TNS_WONT).
Proof.
  unfold rx_filter_step, iac_command.
  destruct (tsta lp =? TNS_NORM).
  { destruct (aget (rxb lp) j =? TN_IAC); cbn [fst];
      [rewrite rmvrc_dstb; cbn; congruence |].
    destruct ((aget (rxb lp) j =? TN_CR) && nz (dstb lp)); cbn; congruence. }
  destruct (tsta lp =? TNS_IAC).
  { destruct (aget (rxb lp) j =? TN_IAC); [cbn; congruence |].
    destruct (aget (rxb lp) j =? TN_BRK); [cbn; congruence |].
    cbn [fst]. rewrite rmvrc_dstb.
    repeat match goal with
           | |- context [if ?b then _ else _] => destruct b
           end; cbn; congruence. }
  destruct (Z.eqb_spec (tsta lp) TNS_WILL) as [Ew | Nw];
    destruct (Z.eqb_spec (tsta lp) TNS_WONT) as [Eo | No]; cbn [orb];
    try (destruct (Z.eqb_spec (aget (rxb lp) j) TN_BIN) as [Eb | Nb];
         cbn [fst dstb set_tsta]; rewrite rmvrc_dstb;
         [intros _; tauto | congruence]).
  destruct (tsta lp =? TNS_CRPAD).
  - destruct ((aget (rxb lp) j =? TN_LF) || (aget (rxb lp) j =? TN_NUL));
      cbn [fst]; rewrite ?rmvrc_dstb; cbn; congruence.
  - cbn [fst dstb set_tsta]. rewrite rmvrc_dstb. congruence.
Qed.

(** The three passes over IAC, WILL or WONT, BIN met in the normal
    state: the three characters are taken out, the filter is back in the
    normal state at the same place, what followed has moved down by
    three, and [dstb] is 0 after WILL and 1 after WONT. *)
Lemma rx_filter_option (lp : TMLN) (j : Z) (will : bool) :
  tsta lp = TNS_NORM ->
  aget (rxb lp) j = TN_IAC ->
  aget (rxb lp) (j + 1) = (if will then TN_WILL else TN_WONT) ->
  aget (rxb lp) (j + 2) = TN_BIN ->
  0 <= j -> j + 2 < rxbpi lp ->
  rxbpi lp <= zlen (rxb lp) -> rxbpi lp <= zlen (rbr lp) ->
  zlen (rxb lp) <= INT32_MAX -> zlen (rbr lp) <= INT32_MAX ->
  let lp' := fst (rx_filter 3 lp j) in
  snd (rx_filter 3 lp j) = j /\
  dstb lp' = (if will then 0 else 1) /\
  tsta lp' = TNS_NORM /\ rxbpi lp' = rxbpi lp - 3 /\
  (forall k, 0 <= k < j -> aget (rxb lp') k = aget (rxb lp) k) /\
  (forall k, j <= k < rxbpi lp' -> aget (rxb lp') k = aget (rxb lp) (k + 3)).
Proof.
  intros Hs Hiac Hcmd Hbin Hj Hpi Hlb Hlr Hmb Hmr. cbv zeta.
  cbn [rx_filter].
  rewrite (ltb_true j (rxbpi lp)) by lia.
  rewrite rx_step_norm_iac by assumption.
  destruct (rmvrc_spec (set_tsta TNS_IAC lp) j)
    as (Hpi1 & Hlb1 & Hlr1 & Hs1 & Hd1 & Hb1 & _);
    try (cbn [rxbpi rxb rbr set_tsta]; assumption || lia).
  cbv zeta in Hpi1, Hlb1, Hlr1, Hs1, Hd1, Hb1.
  cbn [rxbpi rxb rbr tsta dstb set_tsta] in Hpi1, Hlb1, Hlr1, Hs1, Hd1, Hb1.
  revert Hpi1 Hlb1 Hlr1 Hs1 Hd1 Hb1.
  generalize (tmxr_rmvrc (set_tsta TNS_IAC lp) j).
  intros lp1 Hpi1 Hlb1 Hlr1 Hs1 Hd1 Hb1.
  rewrite (ltb_true j (rxbpi lp1)) by lia.
  assert (Hc1 : aget (rxb lp1) j = if will then TN_WILL else TN_WONT).
  { rewrite Hb1 by lia. rewrite (leb_true j j), (ltb_true j (rxbpi lp)) by lia.
    exact Hcmd. }
  assert (Hstep2 : exists lp2,
             rx_filter_step lp1 j = (lp2, j) /\
             tsta lp2 = (if will then TNS_WILL else TNS_WONT) /\
             dstb lp2 = dstb lp /\ rxbpi lp2 = rxbpi lp - 2 /\
             zlen (rxb lp2) = zlen (rxb lp) /\
             zlen (rbr lp2) = zlen (rbr lp) /\
             forall k, 0 <= k ->
               aget (rxb lp2) k = if (j <=? k) && (k <? rxbpi lp1)
                                  then aget (rxb lp1) (k + 1)
                                  else aget (rxb lp1) k).
  { destruct will.
    - rewrite rx_step_iac_will by assumption.
      destruct (rmvrc_spec (set_tsta TNS_WILL lp1) j)
        as (A1 & A2 & A3 & A4 & A5 & A6 & _);
        try (cbn [rxbpi rxb rbr set_tsta]; lia).
      cbv zeta in A1, A2, A3, A4, A5, A6.
      cbn [rxbpi rxb rbr tsta dstb set_tsta] in A1, A2, A3, A4, A5, A6.
      eexists. split; [reflexivity |].
      split; [exact A4 |]. split; [congruence |]. split; [lia |].
      split; [congruence |]. split; [congruence | exact A6].
    - rewrite rx_step_iac_wont by assumption.
      destruct (rmvrc_spec (set_tsta TNS_WONT lp1) j)
        as (A1 & A2 & A3 & A4 & A5 & A6 & _);
        try (cbn [rxbpi rxb rbr set_tsta]; lia).
      cbv zeta in A1, A2, A3, A4, A5, A6.
      cbn [rxbpi rxb rbr tsta dstb set_tsta] in A1, A2, A3, A4, A5, A6.
      eexists. split; [reflexivity |].
      split; [exact A4 |]. split; [congruence |]. split; [lia |].
      split; [congruence |]. split; [congruence | exact A6]. }
  destruct Hstep2 as (lp2 & E2 & Hs2 & Hd2 & Hpi2 & Hlb2 & Hlr2 & Hb2).
  rewrite E2. rewrite (ltb_true j (rxbpi lp2)) by lia.
  assert (Hc2 : aget (rxb lp2) j = TN_BIN).
  { rewrite Hb2 by lia. rewrite (leb_true j j), (ltb_true j (rxbpi lp1)) by lia.
    rewrite Hb1 by lia.
    rewrite (leb_true j (j + 1)), (ltb_true (j + 1) (rxbpi lp)) by lia.
    cbn [andb]. replace (j + 1 + 1) with (j + 2) by lia. exact Hbin. }
  assert (Hstep3 : exists lp3,
             rx_filter_step lp2 j = (lp3, j) /\
             tsta lp3 = TNS_NORM /\
             dstb lp3 = (if will then 0 else 1) /\
             rxbpi lp3 = rxbpi lp - 3 /\
             forall k, 0 <= k ->
               aget (rxb lp3) k = if (j <=? k) && (k <? rxbpi lp2)
                                  then aget (rxb lp2) (k + 1)
                                  else aget (rxb lp2) k).
  { destruct will.
    - rewrite rx_step_will_bin by assumption.
      destruct (rmvrc_spec (set_dstb 0 lp2) j)
        as (A1 & _ & _ & _ & A5 & A6 & _);
        try (cbn [rxbpi rxb rbr set_dstb]; lia).
      cbv zeta in A1, A5, A6.
      cbn [rxbpi rxb rbr tsta dstb set_dstb] in A1, A5, A6.
      eexists. split; [reflexivity |].
      cbn [tsta dstb rxbpi rxb set_tsta].
      split; [reflexivity |]. split; [exact A5 |]. split; [lia | exact A6].
    - rewrite rx_step_wont_bin by assumption.
      destruct (rmvrc_spec (set_dstb 1 lp2) j)
        as (A1 & _ & _ & _ & A5 & A6 & _);
        try (cbn [rxbpi rxb rbr set_dstb]; lia).
      cbv zeta in A1, A5, A6.
      cbn [rxbpi rxb rbr tsta dstb set_dstb] in A1, A5, A6.
      eexists. split; [reflexivity |].
      cbn [tsta dstb rxbpi rxb set_tsta].
      split; [reflexivity |]. split; [exact A5 |]. split; [lia | exact A6]. }
  destruct Hstep3 as (lp3 & E3 & Hs3 & Hd3 & Hpi3 & Hb3).
  rewrite E3. cbn [fst snd].
  split; [reflexivity |]. split; [exact Hd3 |]. split; [exact Hs3 |].
  split; [exact Hpi3 |]. split.
  - intros k Hk.
    rewrite Hb3 by lia. rewrite (leb_false j k) by lia. cbn [andb].
    rewrite Hb2 by lia. rewrite (leb_false j k) by lia. cbn [andb].
    rewrite Hb1 by lia. rewrite (leb_false j k) by lia. reflexivity.
  - intros k Hk. rewrite Hb3 by lia.
    rewrite (leb_true j k), (ltb_true k (rxbpi lp2)) by lia. cbn [andb].
    rewrite Hb2 by lia.
    rewrite (leb_true j (k + 1)), (ltb_true (k + 1) (rxbpi lp1)) by lia.
    cbn [andb]. rewrite Hb1 by lia.
    rewrite (leb_true j (k + 1 + 1)), (ltb_true (k + 1 + 1) (rxbpi lp)) by lia.
    cbn [andb]. f_equal. lia.
Qed.

(** C3, as the code has it: in the normal state the filter goes to the
    CR padding state exactly when the character is CR and [dstb] is set
    (non zero, the line is not in binary mode); the CR is kept in either
    case, and with [dstb] clear the filter stays in the normal state.
    The flag is set by the peer's IAC WONT BIN and cleared by its
    IAC WILL BIN: the three characters are taken out of the buffer and
    the filter is back in the normal state; and no other pass of the
    filter changes the flag. *)
Theorem rx_filter_cr_armed (lp : TMLN) (j : Z) :
  tsta lp = TNS_NORM ->
  let r := rx_filter_step lp j in
  (tsta (fst r) = TNS_CRPAD <-> aget (rxb lp) j = TN_CR /\ dstb lp <> 0) /\
  (aget (rxb lp) j = TN_CR ->
   snd r = add32 j 1 /\
   rxb (fst r) = rxb lp /\ rbr (fst r) = rbr lp /\
   rxbpi (fst r) = rxbpi lp /\
   tsta (fst r) = if dstb lp =? 0 then TNS_NORM else TNS_CRPAD) /\
  (aget (rxb lp) j = TN_IAC -> aget (rxb lp) (j + 2) = TN_BIN ->
   0 <= j -> j + 2 < rxbpi lp ->
   rxbpi lp <= zlen (rxb lp) -> rxbpi lp <= zlen (rbr lp) ->
   zlen (rxb lp) <= INT32_MAX -> zlen (rbr lp) <= INT32_MAX ->
   let r3 := rx_filter 3 lp j in
   (aget (rxb lp) (j + 1) = TN_WONT -> dstb (fst r3) = 1) /\
   (aget (rxb lp) (j + 1) = TN_WILL -> dstb (fst r3) = 0) /\
   (aget (rxb lp) (j + 1) = TN_WONT \/ aget (rxb lp) (j + 1) = TN_WILL ->
    snd r3 = j /\ tsta (fst r3) = TNS_NORM /\
    rxbpi (fst r3) = rxbpi lp - 3 /\
    (forall k, 0 <= k < j -> aget (rxb (fst r3)) k = aget (rxb lp) k) /\
    (forall k, j <= k < rxbpi lp - 3 ->
       aget (rxb (fst r3)) k = aget (rxb lp) (k + 3)))) /\
  (forall (lq : TMLN) (k : Z),
     dstb (fst (rx_filter_step lq k)) <> dstb lq ->
     aget (rxb lq) k = TN_BIN /\ (tsta lq = TNS_WILL \/ tsta lq = TNS_WONT)).
Proof.
  intros Hs. cbv zeta.
  assert (Hcr :
    (tsta (fst (rx_filter_step lp j)) = TNS_CRPAD <->
     aget (rxb lp) j = TN_CR /\ dstb lp <> 0) /\
    (aget (rxb lp) j = TN_CR ->
     snd (rx_filter_step lp j) = add32 j 1 /\
     rxb (fst (rx_filter_step lp j)) = rxb lp /\
     rbr (fst (rx_filter_step lp j)) = rbr lp /\
     rxbpi (fst (rx_filter_step lp j)) = rxbpi lp /\
     tsta (fst (rx_filter_step lp j))
     = if dstb lp =? 0 then TNS_NORM else TNS_CRPAD)).
  { destruct (Z.eq_dec (aget (rxb lp) j) TN_IAC) as [Hiac | Hne].
    - rewrite rx_step_norm_iac by assumption. cbn [fst snd].
      rewrite rmvrc_tsta. cbn [tsta set_tsta]. rewrite Hiac.
      split; [split; [discriminate | intros [H _]; discriminate H] |].
      discriminate.
    - rewrite rx_step_norm by assumption. cbn [fst snd]. unfold nz.
      destruct (Z.eqb_spec (aget (rxb lp) j) TN_CR) as [Hcr | Hncr];
        destruct (Z.eqb_spec (dstb lp) 0) as [Hd | Hd]; cbn [andb negb];
        cbn [tsta set_tsta rxb rbr rxbpi]; rewrite ?Hs;
        (split; [split; [try discriminate; tauto | intros [H1 H2]; tauto] |]);
        try tauto; intros _; auto. }
  destruct Hcr as [Hcr1 Hcr2].
  split; [exact Hcr1 |]. split; [exact Hcr2 |].
  split; [| intros lq k; apply rx_step_dstb].
  intros Hiac Hbin Hj Hpi Hlb Hlr Hmb Hmr.
  split; [| split].
  - intros Hw.
    apply (rx_filter_option lp j false Hs Hiac Hw Hbin Hj Hpi Hlb Hlr Hmb Hmr).
  - intros Hw.
    apply (rx_filter_option lp j true Hs Hiac Hw Hbin Hj Hpi Hlb Hlr Hmb Hmr).
  - intros [Hw | Hw].
    + destruct (rx_filter_option lp j false Hs Hiac Hw Hbin Hj Hpi Hlb Hlr
                  Hmb Hmr) as (A1 & _ & A3 & A4 & A5 & A6).
      cbv zeta in A3, A4, A5, A6. rewrite A4 in A6. auto.
    + destruct (rx_filter_option lp j true Hs Hiac Hw Hbin Hj Hpi Hlb Hlr
                  Hmb Hmr) as (A1 & _ & A3 & A4 & A5 & A6).
      cbv zeta in A3, A4, A5, A6. rewrite A4 in A6. auto.
Qed.

(** IAC BRK met in the normal state: after the two passes the pair has
    become one entry, a null character flagged as a break, at the place
    of the IAC; what came before is untouched and what came after has
    moved down by one. *)
Lemma rx_filter_iac_brk (lp : TMLN) (j : Z) :
  tsta lp = TNS_NORM ->
  aget (rxb lp) j = TN_IAC -> aget (rxb lp) (j + 1) = TN_BRK ->
  0 <= j -> j + 1 < rxbpi lp ->
  rxbpi lp <= zlen (rxb lp) -> rxbpi lp <= zlen (rbr lp) ->
  zlen (rxb lp) <= INT32_MAX -> zlen (rbr lp) <= INT32_MAX ->
  let lp' := fst (rx_filter 2 lp j) in
  snd (rx_filter 2 lp j) = j + 1 /\
  tsta lp' = TNS_NORM /\ rxbpi lp' = rxbpi lp - 1 /\
  aget (rxb lp') j = 0 /\ aget (rbr lp') j = 1 /\
  (forall k, 0 <= k < j ->
     aget (rxb lp') k = aget (rxb lp) k /\
     aget (rbr lp') k = aget (rbr lp) k) /\
  (forall k, j < k < rxbpi lp' ->
     aget (rxb lp') k = aget (rxb lp) (k + 1) /\
     aget (rbr lp') k = aget (rbr lp) (k + 1)) /\
  dstb lp' = dstb lp /\ rxbpr lp' = rxbpr lp /\
  conn lp' = conn lp /\ rcve lp' = rcve lp.
Proof.
  intros Hs Hiac Hbrk Hj Hpi Hlb Hlr Hmb Hmr. cbv zeta.
  unfold INT32_MAX in *.
  assert (Hlenb : forall n p v,
             zlen (aset (shift_left n (rxb lp) p) j v) = zlen (rxb lp))
    by (intros; unfold zlen; now rewrite aset_length, shift_left_length).
  assert (Hlenr : forall n p v,
             zlen (aset (shift_left n (rbr lp) p) j v) = zlen (rbr lp))
    by (intros; unfold zlen; now rewrite aset_length, shift_left_length).
  cbn [rx_filter].
  destruct (Z.ltb_spec j (rxbpi lp)); [| lia].
  rewrite rx_step_norm_iac by assumption.
  rewrite tmxr_rmvrc_eq.
  cbn [rxbpi rxb rbr tsta set_tsta set_rxb set_rbr set_rxbpi].
  replace (sub32 (rxbpi lp) 1) with (rxbpi lp - 1) by (int32; reflexivity).
  destruct (Z.ltb_spec j (rxbpi lp - 1)); [| lia].
  rewrite rx_step_iac_brk.
  2: reflexivity.
  2: { cbn [rxb set_rxbpi set_rbr set_rxb].
       rewrite shift_left_get by (unfold INT32_MAX; lia).
       destruct (Z.leb_spec j j); [| lia].
       destruct (Z.ltb_spec j (j + Z.of_nat (Z.to_nat (rxbpi lp - j))));
         [| lia].
       assumption. }
  cbn [fst snd rxbpi rxb rbr tsta dstb rxbpr conn rcve
       set_tsta set_rxb set_rbr set_rxbpi].
  replace (add32 j 1) with (j + 1) by (int32; reflexivity).
  assert (Hzb : zlen (shift_left (Z.to_nat (rxbpi lp - j)) (rxb lp) j)
                = zlen (rxb lp))
    by (unfold zlen; now rewrite shift_left_length).
  assert (Hzr : zlen (shift_left (Z.to_nat (rxbpi lp - j)) (rbr lp) j)
                = zlen (rbr lp))
    by (unfold zlen; now rewrite shift_left_length).
  unfold zlen in Hzb, Hzr, Hlb, Hlr, Hmb, Hmr.
  repeat split; try reflexivity.
  - rewrite aget_aset by lia. now rewrite Z.eqb_refl.
  - rewrite aget_aset by lia. now rewrite Z.eqb_refl.
  - rewrite aget_aset by lia.
    destruct (Z.eqb_spec k j); [lia |].
    rewrite shift_left_get by (unfold zlen, INT32_MAX; lia).
    destruct (Z.leb_spec j k); [lia | reflexivity].
  - rewrite aget_aset by lia.
    destruct (Z.eqb_spec k j); [lia |].
    rewrite shift_left_get by (unfold zlen, INT32_MAX; lia).
    destruct (Z.leb_spec j k); [lia | reflexivity].
  - rewrite aget_aset by lia.
    destruct (Z.eqb_spec k j); [lia |].
    rewrite shift_left_get by (unfold zlen, INT32_MAX; lia).
    destruct (Z.leb_spec j k); [| lia].
    destruct (Z.ltb_spec k (j + Z.of_nat (Z.to_nat (rxbpi lp - j))));
      [reflexivity | lia].
  - rewrite aget_aset by lia.
    destruct (Z.eqb_spec k j); [lia |].
    rewrite shift_left_get by (unfold zlen, INT32_MAX; lia).
    destruct (Z.leb_spec j k); [| lia].
    destruct (Z.ltb_spec k (j + Z.of_nat (Z.to_nat (rxbpi lp - j))));
      [reflexivity | lia].
Qed.

(** A block without IAC read into the empty buffer of a line in binary
    mode is handed on as it came: nothing is taken out, CR or not. *)
Lemma poll_rx_line_plain (lp : TMLN) (tr : list Event) (data : list Z) :
  nz (conn lp) = true -> nz (rcve lp) = true ->
  tsta lp = TNS_NORM -> dstb lp = 0 -> rxbpi lp = 0 -> rxbpr lp = 0 ->
  net_read net tr (conn lp) (sub32 TMXR_MAXBUF TMXR_GUARD)
  = (zlen data, data) ->
  0 < zlen data -> zlen data <= zlen (rxb lp) -> zlen data <= zlen (rbr lp) ->
  zlen (rxb lp) <= INT32_MAX ->
  (forall b, In b data -> to_char b <> TN_IAC) ->
  let lp' := fst (poll_rx_line net lp tr) in
  rx_pending lp' = map (fun b => (to_char b, 0)) data /\
  conn lp' = conn lp /\ rcve lp' = rcve lp /\
  rxbpr lp' = 0 /\ rxbpi lp' = zlen data.
Proof.
  intros Hc Hr Hs Hd Hpi Hpr Hread Hn Hlb Hlr Hmax Hplain. cbv zeta.
  rewrite (poll_rx_line_data lp tr (zlen data) data) by (auto; lia).
  assert (Hall : firstn (Z.to_nat (zlen data)) data = data)
    by (unfold zlen; rewrite Nat2Z.id; apply firstn_all).
  rewrite Hall.
  rewrite rx_filter_plain; cbn [tsta dstb rxbpi rxb set_rxcnt set_rxbpi
                                 set_rbr set_rxb]; auto; try lia.
  - unfold rx_pending.
    cbn [rxb rbr rxbpr rxbpi conn rcve set_rxcnt set_rxbpi set_rbr set_rxb].
    rewrite Hpr. repeat split; auto.
    replace (Z.to_nat (zlen data - 0)) with (List.length data)
      by (unfold zlen; lia).
    transitivity (map (fun b => (to_char b, 0))
                    (map (fun k => nth k data 0)
                       (seq 0 (List.length data))));
      [| now rewrite <- list_map_seq].
    rewrite map_map.
    apply map_seq_ext. intros k Hk. cbn [Z.add].
    rewrite astore_get by (unfold zlen in *; lia).
    rewrite afill_get by (unfold zlen in *; lia).
    unfold zlen.
    destruct (Z.leb_spec 0 (Z.of_nat k)); [| lia].
    destruct (Z.ltb_spec (Z.of_nat k) (0 + Z.of_nat (List.length data)));
      [| lia].
    destruct (Z.ltb_spec (Z.of_nat k)
                (0 + Z.of_nat (Z.to_nat (Z.of_nat (List.length data)))));
      [| lia].
    cbn [andb]. replace (Z.to_nat (Z.of_nat k - 0)) with k by lia.
    reflexivity.
  - intros k Hk. rewrite astore_get by (unfold zlen in *; lia).
    destruct (Z.leb_spec 0 k); [| lia].
    destruct (Z.ltb_spec k (0 + zlen data)); [| lia]. cbn [andb].
    apply Hplain, nth_In. unfold zlen in *. lia.
Qed.

Lemma getc_n_all (lp : TMLN) (l : list (Z * Z)) :
  nz (conn lp) = true -> nz (rcve lp) = true ->
  0 <= rxbpr lp <= rxbpi lp -> rxbpi lp <= INT32_MAX ->
  rx_pending lp = l ->
  fst (getc_n (S (List.length l)) lp) = map getc_value l ++ [0].
Proof.
  intros Hc Hr Hp Hmax Hl. rewrite getc_n_pending by assumption.
  rewrite Hl. rewrite firstn_all2 by (rewrite length_map; lia).
  replace (S (List.length l) - List.length l)%nat with 1%nat by lia.
  reflexivity.
Qed.

(** ** Connections: acceptance, reset *)


(** C1, at the input where the code parts from it: two lines, both
    connected, and the connection order 1;0.  The search runs through the
    list without finding a free line and leaves its index at 1, below
    [lines]; the caller is not turned away: line 1, which has a
    connection, is given the new socket and 1 is returned. *)
Theorem poll_conn_order_overwrites (tr : list Event) (newsock ip : Z) :
  net_accept net tr (master busy_mux) = (newsock, ip) ->
  newsock <> INVALID_SOCKET ->
  let r := tmxr_poll_conn net busy_mux tr in
  (forall k, 0 <= k < lines busy_mux -> conn (get_line busy_mux k) <> 0) /\
  fst (fst r) = 1 /\
  conn (get_line busy_mux 1) = 6 /\
  conn (get_line (snd (fst r)) 1) = newsock.
Proof.
  intros Hacc Hvalid. cbv zeta.
  destruct (poll_conn_accepted busy_mux tr newsock ip Hacc Hvalid)
    as (Ei & _ & Hc & _);
    [reflexivity | split; [apply Z.leb_le | apply Z.ltb_lt]; reflexivity |].
  cbv zeta in Ei, Hc.
  change (find_line busy_mux (Z.to_nat (lines busy_mux)) 0
            (lines busy_mux) 0) with 1 in Ei, Hc.
  repeat split; auto.
  intros k Hk. change (lines busy_mux) with 2 in Hk.
  assert (Hk' : k = 0 \/ k = 1) by lia.
  destruct Hk' as [-> | ->]; cbn; discriminate.
Qed.

Lemma send_buffered_data_trace (lp : TMLN) (tr : list Event) :
  exists ws,
    snd (tmxr_send_buffered_data net lp tr) = ws ++ tr /\
    Forall (is_write_to (conn lp)) ws /\ (List.length ws <= 2)%nat.
Proof.
  unfold tmxr_send_buffered_data, bind, sim_write_sock, ret.
  assert (Hc : forall n, conn (tx_sent lp n) = conn lp)
    by (intros; apply tx_sent_tx_only).
  repeat match goal with
         | |- context [if ?b then _ else _] => destruct b
         end; cbn [fst snd]; rewrite ?Hc;
    try (exists []; cbn; split; [reflexivity | split; [constructor | lia]]);
    try (eexists [_]; cbn; split; [reflexivity |];
         split; [repeat constructor | lia]);
    try (eexists [_; _]; cbn; split; [reflexivity |];
         split; [repeat constructor | lia]).
Qed.

(** [tmxr_reset_ln] step by step. *)
Lemma reset_ln_run (lp : TMLN) (tr : list Event) :
  let tr0 := match txlog lp with
             | Some f => EvFflush f :: tr
             | None => tr
             end in
  let r := tmxr_send_buffered_data net lp tr0 in
  let lp1 := snd (fst r) in
  let lp5 := set_rxbpr 0 (set_rxbpi 0 (set_conn 0 (set_tsta 0 lp1))) in
  tmxr_reset_ln net lp tr =
  (set_dstb 0
     (set_xmte 1
        (if negb (nz (txbfd lp1)) then set_txbpr 0 (set_txbpi 0 lp5)
         else lp5)),
   EvClose (conn lp1) 0 :: snd r).
Proof.
  cbv zeta. unfold tmxr_reset_ln, bind, sim_close_sock, ret, fflush.
  destruct (txlog lp);
    destruct (tmxr_send_buffered_data net lp _) as [[n lp1] tr2];
    reflexivity.
Qed.

(** C6, as the code has it: after [tmxr_reset_ln] the log, if any, has
    been flushed, what was queued has been offered to the socket once
    more by [tmxr_send_buffered_data], the socket has been closed, and
    [conn], the Telnet state and both receive pointers are zero;
    transmission is enabled and [dstb] is clear.  The counters are not
    reset: [rxcnt] and [txdrp] are what they were, and [txcnt] is what
    the last flush left.  An unbuffered line has both transmit pointers
    at zero; a buffered line keeps its insert pointer and its buffer,
    and its remove pointer is where the last flush left it.  For a
    well-formed ring and a peer that keeps the contract of [send], the
    last flush delivers the first [k] queued bytes, for some [k];
    [txcnt] has grown by [k], the remove pointer of a buffered line has
    advanced by [k] and its queue has lost these [k] bytes; with a peer
    that takes everything [k] is the length of the queue. *)
Theorem reset_ln_state (lp : TMLN) (tr : list Event) :
  let r := tmxr_reset_ln net lp tr in
  let lp' := fst r in
  let tr0 := match txlog lp with
             | Some f => EvFflush f :: tr
             | None => tr
             end in
  let s := tmxr_send_buffered_data net lp tr0 in
  conn lp' = 0 /\ tsta lp' = 0 /\ rxbpi lp' = 0 /\ rxbpr lp' = 0 /\
  xmte lp' = 1 /\ dstb lp' = 0 /\
  rxcnt lp' = rxcnt lp /\ txdrp lp' = txdrp lp /\
  (txbfd lp = 0 -> txbpr lp' = 0 /\ txbpi lp' = 0) /\
  (txbfd lp <> 0 ->
   txbpi lp' = txbpi lp /\ txb lp' = txb lp /\
   (tmxr_tqln lp = 0 -> txbpr lp' = txbpr lp /\ txcnt lp' = txcnt lp)) /\
  (exists ws,
    snd r = EvClose (conn lp) 0 :: ws
            ++ match txlog lp with
               | Some f => EvFflush f :: tr
               | None => tr
               end /\
    Forall (is_write_to (conn lp)) ws) /\
  snd r = EvClose (conn lp) 0 :: snd s /\
  txcnt lp' = txcnt (snd (fst s)) /\
  (txbfd lp <> 0 -> txbpr lp' = txbpr (snd (fst s))) /\
  (tx_ok lp -> sane_peer net -> SOCKET_ERROR < 0 ->
   exists k,
     0 <= k <= tmxr_tqln lp /\
     sent (conn lp) (snd r) =
     sent (conn lp) tr ++ firstn (Z.to_nat k) (tx_queue lp) /\
     (counter_ok (txcnt lp) (tmxr_tqln lp) -> txcnt lp' = txcnt lp + k) /\
     (txbfd lp <> 0 ->
      txbpr lp' = (txbpr lp + k) mod txbsz lp /\
      tx_queue lp' = skipn (Z.to_nat k) (tx_queue lp)) /\
     (accepts_all net -> k = tmxr_tqln lp)).
Proof.
  cbv zeta. rewrite reset_ln_run. cbv zeta. cbn [fst snd].
  set (tr0 := match txlog lp with
              | Some f => EvFflush f :: tr
              | None => tr
              end).
  assert (Hsent0 : sent (conn lp) tr0 = sent (conn lp) tr)
    by (unfold tr0; destruct (txlog lp); reflexivity).
  pose proof (send_buffered_data_drain_only lp tr0) as Hd.
  pose proof (send_buffered_data_trace lp tr0) as Hws.
  pose proof (send_buffered_data_idle lp tr0) as Hidle.
  assert (Hpart : tx_ok lp -> sane_peer net -> SOCKET_ERROR < 0 ->
            exists k,
              0 <= k <= tmxr_tqln lp /\
              sent (conn lp) (snd (tmxr_send_buffered_data net lp tr0)) =
              sent (conn lp) tr ++ firstn (Z.to_nat k) (tx_queue lp) /\
              (counter_ok (txcnt lp) (tmxr_tqln lp) ->
               txcnt (snd (fst (tmxr_send_buffered_data net lp tr0)))
               = txcnt lp + k) /\
              txbpr (snd (fst (tmxr_send_buffered_data net lp tr0)))
              = (txbpr lp + k) mod txbsz lp /\
              tx_queue (snd (fst (tmxr_send_buffered_data net lp tr0)))
              = skipn (Z.to_nat k) (tx_queue lp) /\
              (accepts_all net -> k = tmxr_tqln lp)).
  { intros Hok Hnet Herr.
    pose proof (fun H => send_buffered_data_all lp tr0 Hok H Herr) as Hall.
    destruct (send_buffered_data_part lp tr0 Hok Hnet Herr)
      as (left & lp1 & tr1 & E & Hl & _ & _ & Hs & Hq & _ & Hp & Hc).
    rewrite E in Hall |- *. cbn [fst snd] in Hall |- *.
    exists (tmxr_tqln lp - left).
    split; [lia |]. split; [rewrite Hs, Hsent0; reflexivity |].
    split; [exact Hc |]. split; [exact Hp |]. split; [exact Hq |].
    intros Ha. destruct (Hall Ha) as (_ & Hz & _). lia. }
  revert Hd Hws Hidle Hpart.
  generalize (tmxr_send_buffered_data net lp tr0).
  intros [[n lp1] tr2] Hd (ws & Hws & Hall & _) Hidle Hpart.
  cbn [fst snd] in *. subst tr2.
  destruct Hd as (Hto & Hpi & Hdrp & Htxb).
  assert (Hfd : txbfd lp1 = txbfd lp) by apply Hto.
  assert (Hcn : conn lp1 = conn lp) by apply Hto.
  assert (Hrc : rxcnt lp1 = rxcnt lp) by apply Hto.
  rewrite Hfd, Hcn.
  assert (Htr : exists ws0,
             EvClose (conn lp) 0 :: ws ++ tr0 = EvClose (conn lp) 0 :: ws0 ++ tr0
             /\ Forall (is_write_to (conn lp)) ws0)
    by (exists ws; auto).
  destruct (Z.eqb_spec (txbfd lp) 0) as [E | N].
  - replace (nz (txbfd lp)) with false by (rewrite E; reflexivity).
    cbn [negb].
    cbn [conn tsta rxbpi rxbpr xmte dstb rxcnt txdrp txbpr txbpi txb txcnt
         set_dstb set_xmte set_txbpr set_txbpi set_rxbpr set_rxbpi set_conn
         set_tsta].
    do 8 (split; [first [reflexivity | assumption] |]).
    split; [intros _; split; reflexivity |].
    split; [intros Hne; contradiction |].
    split; [exact Htr |].
    split; [reflexivity |]. split; [reflexivity |].
    split; [intros Hne; contradiction |].
    intros Hok Hnet Herr.
    destruct (Hpart Hok Hnet Herr) as (k & Hk & Hs & Hc & _ & _ & Ha).
    exists k. split; [exact Hk |].
    split; [cbn [sent]; exact Hs |]. split; [exact Hc |].
    split; [intros Hne; contradiction | exact Ha].
  - rewrite (nz_eq_true (txbfd lp)) by assumption. cbn [negb].
    cbn [conn tsta rxbpi rxbpr xmte dstb rxcnt txdrp txbpr txbpi txb txcnt
         set_dstb set_xmte set_txbpr set_txbpi set_rxbpr set_rxbpi set_conn
         set_tsta].
    do 8 (split; [first [reflexivity | assumption] |]).
    split; [intros Hz; contradiction |].
    split.
    { intros _. split; [assumption |]. split; [assumption |].
      intros Hq. specialize (Hidle Hq).
      assert (E1 : lp1 = lp) by congruence. rewrite E1. auto. }
    split; [exact Htr |].
    split; [reflexivity |]. split; [reflexivity |].
    split; [intros _; reflexivity |].
    intros Hok Hnet Herr.
    destruct (Hpart Hok Hnet Herr) as (k & Hk & Hs & Hc & Hp & Hq & Ha).
    exists k. split; [exact Hk |].
    split; [cbn [sent]; exact Hs |]. split; [exact Hc |].
    split; [intros _; split; [exact Hp | exact Hq] | exact Ha].
Qed.

(** ** Receive: the literal scenarios *)

(** The bytes 41 FF F3 42 read into the empty buffer of a line in the
    normal state leave three entries: A, a flagged null, B. *)
Lemma poll_rx_line_break (lp : TMLN) (tr : list Event) :
  nz (conn lp) = true -> nz (rcve lp) = true ->
  tsta lp = TNS_NORM -> rxbpi lp = 0 -> rxbpr lp = 0 ->
  net_read net tr (conn lp) (sub32 TMXR_MAXBUF TMXR_GUARD)
  = (4, [65; 255; 243; 66]) ->
  (4 <= List.length (rxb lp))%nat -> (4 <= List.length (rbr lp))%nat ->
  let lp' := fst (poll_rx_line net lp tr) in
  rx_pending lp' = [(65, 0); (0, 1); (66, 0)] /\
  conn lp' = conn lp /\ rcve lp' = rcve lp /\
  rxbpr lp' = 0 /\ rxbpi lp' = 3 /\ tsta lp' = TNS_NORM.
Proof.
  intros Hc Hr Hs Hpi Hpr Hread Hlb Hlr. cbv zeta.
  rewrite (poll_rx_line_data lp tr 4 [65; 255; 243; 66])
    by (auto; unfold INT32_MAX; lia).
  destruct lp as [cn ip cm ts rc xm ds rpr rpi rct tpr tpi tct tdr tsz tfd
                  tlg rb rr tb].
  cbn [conn rcve tsta rxbpi rxbpr rxb rbr] in *. subst ts rpi rpr.
  destruct rb as [| b0 [| b1 [| b2 [| b3 rb]]]]; cbn [List.length] in Hlb;
    try lia.
  destruct rr as [| r0 [| r1 [| r2 [| r3 rr]]]]; cbn [List.length] in Hlr;
    try lia.
  clear. vm_compute. repeat split.
Qed.

(** C8: IAC BRK, met in the normal state, becomes one entry of the
    receive buffer, a null character with its break flag set, at the
    place of the IAC; the characters before it stay, those after it move
    down by one.  So a connected, receive-enabled line that reads
    41 FF F3 42 hands out 'A', null with the BREAK flag, 'B', and then
    nothing. *)
Theorem rx_break_mapping :
  (forall (lp : TMLN) (j : Z),
      tsta lp = TNS_NORM ->
      aget (rxb lp) j = TN_IAC -> aget (rxb lp) (j + 1) = TN_BRK ->
      0 <= j -> j + 1 < rxbpi lp ->
      rxbpi lp <= zlen (rxb lp) -> rxbpi lp <= zlen (rbr lp) ->
      zlen (rxb lp) <= INT32_MAX -> zlen (rbr lp) <= INT32_MAX ->
      let lp' := fst (rx_filter 2 lp j) in
      snd (rx_filter 2 lp j) = j + 1 /\
      tsta lp' = TNS_NORM /\ rxbpi lp' = rxbpi lp - 1 /\
      aget (rxb lp') j = 0 /\ aget (rbr lp') j = 1 /\
      (forall k, 0 <= k < j ->
         aget (rxb lp') k = aget (rxb lp) k /\
         aget (rbr lp') k = aget (rbr lp) k) /\
      (forall k, j < k < rxbpi lp' ->
         aget (rxb lp') k = aget (rxb lp) (k + 1) /\
         aget (rbr lp') k = aget (rbr lp) (k + 1))) /\
  (forall (lp : TMLN) (tr : list Event),
      conn lp <> 0 -> rcve lp <> 0 ->
      tsta lp = TNS_NORM -> rxbpi lp = 0 -> rxbpr lp = 0 ->
      net_read net tr (conn lp) (sub32 TMXR_MAXBUF TMXR_GUARD)
      = (4, [65; 255; 243; 66]) ->
      (4 <= List.length (rxb lp))%nat -> (4 <= List.length (rbr lp))%nat ->
      fst (getc_n 4 (fst (poll_rx_line net lp tr))) =
      [Z.lor TMXR_VALID 65;
       Z.lor (Z.lor TMXR_VALID 0) SCPE_BREAK;
       Z.lor TMXR_VALID 66;
       0]).
Proof.
  split.
  - intros lp j Hs Hi Hb Hj Hpi Hlb Hlr Hmb Hmr.
    destruct (rx_filter_iac_brk lp j Hs Hi Hb Hj Hpi Hlb Hlr Hmb Hmr)
      as (H1 & H2 & H3 & H4 & H5 & H6 & H7 & _).
    cbv zeta. repeat split; auto; try apply H6; try apply H7; auto.
  - intros lp tr Hc Hr Hs Hpi Hpr Hread Hlb Hlr.
    apply nz_true in Hc. apply nz_true in Hr.
    destruct (poll_rx_line_break lp tr Hc Hr Hs Hpi Hpr Hread Hlb Hlr)
      as (Hp & Hc' & Hr' & Hpr' & Hpi' & _).
    cbv zeta in Hp, Hc', Hr', Hpr', Hpi'.
    rewrite (getc_n_all _ [(65, 0); (0, 1); (66, 0)]); auto;
      try congruence; try (unfold INT32_MAX; lia).
Qed.

(** C2, as the code has it: a line that [tmxr_poll_conn] has just
    connected is in binary mode ([dstb] is 0, as is the Telnet state), so
    the filter takes nothing out of 41 0D 0A 42: with reception enabled
    and the buffer empty, [tmxr_getc_ln] hands out four values, 'A', CR,
    LF and 'B', and then nothing. *)
Theorem poll_rx_cr_lf_after_connect
        (mp : TMXR) (tr tr2 : list Event) (newsock ip : Z) :
  net_accept net tr (master mp) = (newsock, ip) ->
  newsock <> INVALID_SOCKET -> newsock <> 0 ->
  let i := find_line mp (Z.to_nat (lines mp)) 0 (lines mp) 0 in
  i < lines mp -> 0 <= i < zlen_lines mp ->
  let mp1 := snd (fst (tmxr_poll_conn net mp tr)) in
  let lp := set_rcve 1 (get_line mp1 i) in
  rxbpi lp = 0 -> rxbpr lp = 0 ->
  4 <= zlen (rxb lp) <= INT32_MAX -> 4 <= zlen (rbr lp) ->
  net_read net tr2 newsock (sub32 TMXR_MAXBUF TMXR_GUARD)
  = (4, [65; 13; 10; 66]) ->
  tsta lp = TNS_NORM /\ dstb lp = 0 /\
  fst (getc_n 5 (fst (poll_rx_line net lp tr2))) =
  [Z.lor TMXR_VALID 65; Z.lor TMXR_VALID 13; Z.lor TMXR_VALID 10;
   Z.lor TMXR_VALID 66; 0].
Proof.
  intros Hacc Hvalid Hnz i Hi Hrange mp1 lp Hpi Hpr Hlb Hlr Hread.
  destruct (poll_conn_accepted mp tr newsock ip Hacc Hvalid Hi Hrange)
    as (_ & _ & Hc & _ & Hs & Hd & _).
  cbv zeta in Hc, Hs, Hd. fold i in Hc, Hs, Hd. fold mp1 in Hc, Hs, Hd.
  assert (Hc' : conn lp = newsock) by exact Hc.
  assert (Hs' : tsta lp = TNS_NORM) by exact Hs.
  assert (Hd' : dstb lp = 0) by exact Hd.
  split; [assumption |]. split; [assumption |].
  destruct (poll_rx_line_plain lp tr2 [65; 13; 10; 66])
    as (Hp & Hc2 & Hr2 & Hpr2 & Hpi2); auto.
  - apply nz_true. congruence.
  - now rewrite Hc'.
  - reflexivity.
  - apply Hlb.
  - apply Hlb.
  - intros b Hb. cbn in Hb.
    destruct Hb as [<- | [<- | [<- | [<- | []]]]]; vm_compute; discriminate.
  - cbv zeta in Hp, Hc2, Hr2, Hpr2, Hpi2.
    pose proof (getc_n_all _ _
                  ltac:(rewrite Hc2; apply nz_true; congruence)
                  ltac:(rewrite Hr2; reflexivity)
                  ltac:(rewrite Hpr2, Hpi2; cbn; lia)
                  ltac:(rewrite Hpi2; cbn; unfold INT32_MAX; lia) Hp) as Hg.
    exact Hg.
Qed.

(** ** Console: output conversion and output *)

(** C9, as the code has it: in 7B mode [sim_tt_outcvt] returns the
    character masked to seven bits and never drops it, 0x7F included;
    in 8B mode it returns the character masked to eight bits and never
    drops it either.  A character is dropped (the result is -1) in the
    modes UC and 7P only, and 0x7F is dropped in both of them. *)
Theorem outcvt_7b_keeps_del (pchar c mode : Z) :
  TTUF_MODE_7B <> TTUF_MODE_8B ->
  TTUF_MODE_7B <> TTUF_MODE_UC ->
  TTUF_MODE_7B <> TTUF_MODE_7P ->
  TTUF_MODE_UC <> TTUF_MODE_8B ->
  TTUF_MODE_7P <> TTUF_MODE_8B ->
  (Z.land mode TTUF_M_MODE = TTUF_MODE_7B ->
   sim_tt_outcvt pchar c mode = Z.land c 127) /\
  (Z.land mode TTUF_M_MODE = TTUF_MODE_7P \/
   Z.land mode TTUF_M_MODE = TTUF_MODE_UC ->
   Z.land c 127 = 127 -> sim_tt_outcvt pchar c mode = -1) /\
  (Z.land mode TTUF_M_MODE = TTUF_MODE_8B ->
   sim_tt_outcvt pchar c mode = Z.land c 255) /\
  (sim_tt_outcvt pchar c mode = -1 ->
   Z.land mode TTUF_M_MODE = TTUF_MODE_UC \/
   Z.land mode TTUF_M_MODE = TTUF_MODE_7P) /\
  (Z.land mode TTUF_M_MODE = TTUF_MODE_7B \/
   Z.land mode TTUF_M_MODE = TTUF_MODE_8B ->
   0 <= sim_tt_outcvt pchar c mode <= 255).
Proof.
  intros H78 H7u H7p Hu8 Hp8.
  assert (Hl7 : 0 <= Z.land c (Z.ones 7) <= 127).
  { rewrite Z.land_ones by lia.
    pose proof (Z.mod_pos_bound c (2 ^ 7)). lia. }
  change (Z.ones 7) with 127 in Hl7.
  assert (Hl8 : 0 <= Z.land c (Z.ones 8) <= 255).
  { rewrite Z.land_ones by lia.
    pose proof (Z.mod_pos_bound c (2 ^ 8)). lia. }
  change (Z.ones 8) with 255 in Hl8.
  assert (E7 : Z.land mode TTUF_M_MODE = TTUF_MODE_7B ->
               sim_tt_outcvt pchar c mode = Z.land c 127).
  { intros Hmd. unfold sim_tt_outcvt. rewrite Hmd.
    destruct (Z.eqb_spec TTUF_MODE_7B TTUF_MODE_8B); [contradiction |].
    destruct (Z.eqb_spec TTUF_MODE_7B TTUF_MODE_UC); [contradiction |].
    destruct (Z.eqb_spec TTUF_MODE_7B TTUF_MODE_7P); [contradiction |].
    reflexivity. }
  assert (E8 : Z.land mode TTUF_M_MODE = TTUF_MODE_8B ->
               sim_tt_outcvt pchar c mode = Z.land c 255).
  { intros Hmd. unfold sim_tt_outcvt. rewrite Hmd, Z.eqb_refl.
    reflexivity. }
  split; [exact E7 |]. split; [| split; [exact E8 | split]].
  - intros Hmd Hc. unfold sim_tt_outcvt. rewrite Hc.
    change (islower 127) with false. cbn [Z.eqb Pos.eqb orb andb].
    destruct Hmd as [Hmd | Hmd]; rewrite Hmd.
    + destruct (Z.eqb_spec TTUF_MODE_7P TTUF_MODE_8B); [contradiction |].
      cbn [negb]. rewrite Z.eqb_refl, orb_true_r.
      destruct (TTUF_MODE_7P =? TTUF_MODE_UC); cbn [andb];
        [destruct (nz (Z.land mode TTUF_KSR) && (96 <=? 127)) |];
        reflexivity.
    + destruct (Z.eqb_spec TTUF_MODE_UC TTUF_MODE_8B); [contradiction |].
      cbn [negb]. rewrite Z.eqb_refl. cbn [orb andb].
      destruct (nz (Z.land mode TTUF_KSR) && (96 <=? 127)); reflexivity.
  - unfold sim_tt_outcvt.
    destruct (Z.eqb_spec (Z.land mode TTUF_M_MODE) TTUF_MODE_8B) as [E | N];
      cbn [negb]; [intros H; lia |].
    destruct (Z.eqb_spec (Z.land mode TTUF_M_MODE) TTUF_MODE_UC) as [Eu | Nu];
      [intros _; now left |].
    destruct (Z.eqb_spec (Z.land mode TTUF_M_MODE) TTUF_MODE_7P) as [Ep | Np];
      [intros _; now right |].
    cbn [orb andb]. intros H. lia.
  - intros [Hmd | Hmd]; [rewrite (E7 Hmd) | rewrite (E8 Hmd)]; lia.
Qed.

Lemma sim_con_ldsc_put (cn : Console) (lp : TMLN) :
  0 < zlen_lines (sim_con_tmxr cn) ->
  sim_con_ldsc (set_sim_con_ldsc lp cn) = lp.
Proof.
  intros H. unfold sim_con_ldsc, set_sim_con_ldsc. cbn [sim_con_tmxr
    set_sim_con_tmxr]. apply get_put_line. lia.
Qed.

(** The trace once the character has gone to the simulator log. *)
Lemma con_log_run (cn : Console) (c : Z) (tr : list Event) :
  (match sim_log cn, txlog (sim_con_ldsc cn) with
   | Some f, None => fputc c f
   | _, _ => ret tt
   end) tr =
  (tt, match sim_log cn, txlog (sim_con_ldsc cn) with
       | Some f, None => EvFputc c f :: tr
       | _, _ => tr
       end).
Proof.
  unfold fputc, ret. destruct (sim_log cn);
    destruct (txlog (sim_con_ldsc cn)); reflexivity.
Qed.

(** [sim_putchar] with the console on Telnet and a client connected. *)
Lemma sim_putchar_run (cn : Console) (c : Z) (tr : list Event) :
  master (sim_con_tmxr cn) <> 0 -> conn (sim_con_ldsc cn) <> 0 ->
  let tr1 := match sim_log cn, txlog (sim_con_ldsc cn) with
             | Some f, None => EvFputc c f :: tr
             | _, _ => tr
             end in
  let r := tmxr_putc_ln (sim_con_ldsc cn) c tr1 in
  let cn2 := set_sim_con_ldsc (snd (fst r)) cn in
  let p := tmxr_poll_tx net (sim_con_tmxr cn2) (snd r) in
  sim_putchar net cn c tr = (SCPE_OK, set_sim_con_tmxr (fst p) cn2, snd p).
Proof.
  intros Hm Hc. cbv zeta. unfold sim_putchar.
  rewrite (eqb_false (master (sim_con_tmxr cn)) 0) by assumption.
  rewrite (eqb_false (conn (sim_con_ldsc cn)) 0) by assumption.
  unfold bind at 1. rewrite con_log_run.
  unfold bind at 1. unfold ret at 1.
  unfold bind at 1.
  destruct (tmxr_putc_ln (sim_con_ldsc cn) c _) as [[st lp1] tr2].
  cbn [fst snd]. unfold bind.
  destruct (tmxr_poll_tx net _ tr2) as [mp2 tr3]. reflexivity.
Qed.

(** [sim_putchar_s] in the same situation. *)
Lemma sim_putchar_s_run (cn : Console) (c : Z) (tr : list Event) :
  master (sim_con_tmxr cn) <> 0 -> conn (sim_con_ldsc cn) <> 0 ->
  let tr1 := match sim_log cn, txlog (sim_con_ldsc cn) with
             | Some f, None => EvFputc c f :: tr
             | _, _ => tr
             end in
  let q := if xmte (sim_con_ldsc cn) =? 0
           then (SCPE_STALL, sim_con_ldsc cn, tr1)
           else tmxr_putc_ln (sim_con_ldsc cn) c tr1 in
  let cn2 := set_sim_con_ldsc (snd (fst q)) cn in
  let p := tmxr_poll_tx net (sim_con_tmxr cn2) (snd q) in
  sim_putchar_s net cn c tr =
  (fst (fst q), set_sim_con_tmxr (fst p) cn2, snd p).
Proof.
  intros Hm Hc. cbv zeta. unfold sim_putchar_s.
  rewrite (eqb_false (master (sim_con_tmxr cn)) 0) by assumption.
  rewrite (eqb_false (conn (sim_con_ldsc cn)) 0) by assumption.
  unfold bind at 1. rewrite con_log_run.
  unfold bind at 1. unfold ret at 1.
  unfold bind at 1.
  destruct (xmte (sim_con_ldsc cn) =? 0).
  - unfold ret at 1. cbn [fst snd]. unfold bind.
    destruct (tmxr_poll_tx net _ _) as [mp2 tr3]. reflexivity.
  - destruct (tmxr_putc_ln (sim_con_ldsc cn) c _) as [[st lp1] tr2].
    cbn [fst snd]. unfold bind.
    destruct (tmxr_poll_tx net _ tr2) as [mp2 tr3]. reflexivity.
Qed.

(** C10: with the console on Telnet and a client connected,
    [sim_putchar] returns ok whatever [tmxr_putc_ln] returned.  In
    particular, on an unbuffered line whose ring is full the inner call
    stalls, the character is not queued and the line's drop count has
    gone up by one when [sim_putchar] returns, still with ok.
    [sim_putchar_s] hands the status of the inner call back, and reports
    a stall without calling it when transmission is disabled. *)
Theorem sim_putchar_hides_status (cn : Console) (c : Z) (tr : list Event) :
  master (sim_con_tmxr cn) <> 0 -> conn (sim_con_ldsc cn) <> 0 ->
  let lp := sim_con_ldsc cn in
  let tr1 := match sim_log cn, txlog lp with
             | Some f, None => EvFputc c f :: tr
             | _, _ => tr
             end in
  let r := sim_putchar net cn c tr in
  let lp' := sim_con_ldsc (snd (fst r)) in
  fst (fst r) = SCPE_OK /\
  (txbfd lp = 0 -> tx_ok lp -> tx_free lp = 0 -> counter_ok (txdrp lp) 2 ->
   0 < zlen_lines (sim_con_tmxr cn) ->
   fst (fst (tmxr_putc_ln lp c tr1)) = SCPE_STALL /\
   txdrp lp' = txdrp lp + 1 /\ txbpi lp' = txbpi lp /\ txb lp' = txb lp) /\
  fst (fst (sim_putchar_s net cn c tr)) =
  (if xmte lp =? 0 then SCPE_STALL
   else fst (fst (tmxr_putc_ln lp c tr1))).
Proof.
  intros Hm Hc. cbv zeta.
  pose proof (sim_putchar_run cn c tr Hm Hc) as Hrun.
  pose proof (sim_putchar_s_run cn c tr Hm Hc) as Hruns.
  cbv zeta in Hrun, Hruns. rewrite Hrun, Hruns. clear Hrun Hruns.
  cbn [fst snd].
  set (tr1 := match sim_log cn, txlog (sim_con_ldsc cn) with
              | Some f, None => EvFputc c f :: tr
              | _, _ => tr
              end).
  split; [reflexivity |].
  split.
  - intros Hfd Hok Hfree Hdrp Hlen.
    pose proof (putc_ln_unbuffered (sim_con_ldsc cn) c tr1 Hc Hfd Hok Hdrp)
      as [Hstall _].
    cbv zeta in Hstall. destruct (Hstall Hfree) as (Hst & Hd & _ & _).
    clear Hstall.
    pose proof (putc_ln_stall (sim_con_ldsc cn) c tr1) as Hs.
    assert (Elp : snd (fst (tmxr_putc_ln (sim_con_ldsc cn) c tr1)) =
                  set_xmte 0 (set_txdrp (add32 (txdrp (sim_con_ldsc cn)) 1)
                                (sim_con_ldsc cn))).
    { rewrite Hs; [reflexivity | |].
      - now rewrite (eqb_false (conn (sim_con_ldsc cn)) 0).
      - rewrite TXBUF_AVAIL_free, Hfree, Hfd by assumption. reflexivity. }
    split; [assumption |].
    revert Hd Elp.
    generalize (tmxr_putc_ln (sim_con_ldsc cn) c tr1).
    intros [[st lp1] tr2] Hd Elp. cbn [fst snd] in *.
    match goal with
    | |- context [tmxr_poll_tx net ?m ?t] =>
        pose proof (poll_tx_drain_only m t) as Hp;
        revert Hp; generalize (tmxr_poll_tx net m t)
    end.
    intros [mp2 tr3] [_ Hrel]. cbn [fst snd] in *.
    specialize (Hrel 0). unfold set_sim_con_ldsc in Hrel.
    cbn [sim_con_tmxr set_sim_con_tmxr] in Hrel.
    rewrite get_put_line in Hrel by lia.
    destruct Hrel as (_ & Hpi & Hdr & Htxb).
    unfold sim_con_ldsc at 1 3 5. cbn [sim_con_tmxr set_sim_con_tmxr].
    rewrite Hpi, Hdr, Htxb, Hd. subst lp1. repeat split.
  - destruct (xmte (sim_con_ldsc cn) =? 0); reflexivity.
Qed.

(** * Further properties of the multiplexor *)

(** ** Characters in *)

(** X1: [tmxr_getc_ln] hands out what the filter left in the buffer, in
    order: [n] calls on a connected, receive-enabled line return the
    pending characters, each flagged valid (and as a break where the
    break flag is set), followed by zeros once the buffer is empty.  A
    line that is not connected or not enabled returns 0. *)
Theorem getc_in_order (n : nat) (lp : TMLN) :
  0 <= rxbpr lp <= rxbpi lp -> rxbpi lp <= INT32_MAX ->
  (conn lp <> 0 -> rcve lp <> 0 ->
   fst (getc_n n lp) =
   firstn n (map getc_value (rx_pending lp))
   ++ repeat 0 (n - List.length (rx_pending lp))) /\
  (conn lp = 0 \/ rcve lp = 0 -> fst (tmxr_getc_ln lp) = 0).
Proof.
  intros Hp Hmax. split.
  - intros Hc Hr. apply getc_n_pending; auto; now apply nz_true.
  - intros Hoff. unfold tmxr_getc_ln.
    assert (E : nz (conn lp) && nz (rcve lp) = false).
    { destruct Hoff as [H | H]; rewrite H; cbn [nz Z.eqb negb andb];
        [reflexivity | apply andb_false_r]. }
    rewrite E. destruct (rxbpi lp =? rxbpr lp); reflexivity.
Qed.

(** X2: when the receive buffer has been read empty both pointers are
    back at zero, so that the next read from the socket starts at the
    beginning of the buffer. *)
Theorem getc_rewinds_when_empty (lp : TMLN) :
  conn lp <> 0 -> rcve lp <> 0 ->
  0 <= rxbpr lp <= rxbpi lp -> rxbpi lp <= INT32_MAX ->
  let lp' := snd (getc_n (List.length (rx_pending lp)) lp) in
  rxbpi lp' = rxbpr lp' /\
  (rxbpr lp < rxbpi lp -> rxbpi lp' = 0 /\ rxbpr lp' = 0).
Proof.
  intros Hc Hr. apply nz_true in Hc. apply nz_true in Hr.
  remember (List.length (rx_pending lp)) as n eqn:En.
  revert lp Hc Hr En. induction n as [| n IH]; intros lp Hc Hr En Hp Hmax.
  - cbn [getc_n snd]. unfold rx_pending in En.
    rewrite length_map, length_seq in En. split; lia.
  - cbn [getc_n].
    assert (Hlt : rxbpr lp < rxbpi lp).
    { unfold rx_pending in En. rewrite length_map, length_seq in En. lia. }
    rewrite getc_ln_char by (assumption || lia).
    rewrite (rx_pending_cons lp) in En by lia. cbn [List.length] in En.
    injection En as En.
    destruct (Z.eqb_spec (rxbpi lp) (rxbpr lp + 1)) as [E1 | N1].
    + rewrite rx_pending_empty in En by (cbn; lia). subst n.
      cbn [getc_n snd rxbpi rxbpr set_rxbpr set_rxbpi]. auto.
    + specialize (IH (set_rxbpr (rxbpr lp + 1) lp) Hc Hr En).
      destruct (getc_n n (set_rxbpr (rxbpr lp + 1) lp)) as [vs lp2].
      cbn [snd rxbpi rxbpr set_rxbpr] in *.
      destruct IH as [I1 I2]; [lia | lia |].
      split; [assumption | intros _; apply I2; lia].
Qed.

(** ** Characters out *)

(** X3: an unbuffered, connected line stalls exactly when no slot of the
    ring is free; the stalled character is not queued, the drop count
    goes up by one and transmission is disabled.  Otherwise a character
    other than IAC is appended to the queue and nothing is dropped. *)
Theorem putc_unbuffered_stall_iff (lp : TMLN) (chr : Z) (tr : list Event) :
  conn lp <> 0 -> txbfd lp = 0 -> tx_ok lp -> counter_ok (txdrp lp) 2 ->
  let r := tmxr_putc_ln lp chr tr in
  let lp' := snd (fst r) in
  (fst (fst r) = SCPE_STALL <-> tx_free lp = 0) /\
  (fst (fst r) = SCPE_OK <-> 1 <= tx_free lp) /\
  (tx_free lp = 0 ->
   tx_queue lp' = tx_queue lp /\ txdrp lp' = txdrp lp + 1 /\ xmte lp' = 0) /\
  (1 <= tx_free lp -> is_iac chr = false ->
   tx_queue lp' = tx_queue lp ++ [to_char chr] /\ txdrp lp' = txdrp lp).
Proof.
  intros Hc Hfd Hok Hdrp. cbv zeta.
  pose proof (tqln_range lp Hok) as Hq.
  assert (Hfree : 0 <= tx_free lp) by (unfold tx_free; lia).
  destruct (putc_ln_unbuffered lp chr tr Hc Hfd Hok Hdrp) as [Hstall Hstore].
  cbv zeta in Hstall, Hstore.
  destruct (Z.eq_dec (tx_free lp) 0) as [E | N].
  - destruct (Hstall E) as (Hst & Hd & Hx & Hqu). rewrite Hst.
    split; [tauto |]. split; [split; [discriminate | lia] |].
    split; [auto | lia].
  - destruct (Hstore ltac:(lia)) as (Hst & Hqu & Hd & _). rewrite Hst.
    split; [split; [discriminate | lia] |].
    split; [split; [lia | reflexivity] |].
    split; [lia |].
    intros _ Hni. unfold stuffed in Hqu, Hd. rewrite Hni in Hqu, Hd.
    replace (evicted (tx_free lp) (zlen [to_char chr])) with 0 in Hqu, Hd
      by (unfold evicted, zlen; cbn [List.length]; lia).
    cbn [Z.to_nat skipn] in Hqu. split; [assumption | lia].
Qed.

(** X4: a line that is neither connected nor buffered takes no
    character: without a log the call reports the connection lost and
    counts a drop; with a log the character counts as delivered, the
    call returns ok and the line is left as it was.  Whatever the state
    of the line, a character given to a line with a log is written to
    that log first. *)
Theorem putc_disconnected (lp : TMLN) (chr : Z) (tr : list Event) :
  (conn lp = 0 -> txbfd lp = 0 ->
   match txlog lp with
   | Some f => tmxr_putc_ln lp chr tr = (SCPE_OK, lp, EvFputc chr f :: tr)
   | None => tmxr_putc_ln lp chr tr
             = (SCPE_LOST, set_txdrp (add32 (txdrp lp) 1) lp, tr)
   end) /\
  snd (tmxr_putc_ln lp chr tr) =
  match txlog lp with
  | Some f => EvFputc chr f :: tr
  | None => tr
  end.
Proof.
  split; [| apply putc_ln_trace].
  intros Hc Hfd. unfold tmxr_putc_ln, bind, fputc, ret.
  rewrite Hc, Hfd. cbn [Z.eqb nz negb andb].
  destruct (txlog lp); reflexivity.
Qed.

(** X5: [tmxr_putc_ln] keeps the transmit ring well formed, whichever
    way it returns, and the ring never holds more than [txbsz - 1]
    bytes. *)
Theorem putc_keeps_ring (lp : TMLN) (chr : Z) (tr : list Event) :
  tx_ok lp -> counter_ok (txdrp lp) 2 ->
  let lp' := snd (fst (tmxr_putc_ln lp chr tr)) in
  tx_ok lp' /\ txbsz lp' = txbsz lp /\
  zlen (tx_queue lp') <= txbsz lp - 1.
Proof.
  intros Hok Hdrp. cbv zeta.
  assert (Hgoal : tx_ok (snd (fst (tmxr_putc_ln lp chr tr))) /\
                  txbsz (snd (fst (tmxr_putc_ln lp chr tr))) = txbsz lp).
  { destruct ((conn lp =? 0) && negb (nz (txbfd lp))) eqn:H1.
    - rewrite putc_ln_cases, H1. destruct (txlog lp); cbn [snd]; auto.
    - destruct (nz (txbfd lp) || (1 <? TXBUF_AVAIL lp)) eqn:H2.
      + destruct (putc_ln_stored lp chr tr H1 H2 Hok Hdrp)
          as (_ & Hok' & _ & _ & _ & _ & Hto).
        split; [exact Hok' | apply Hto].
      + rewrite putc_ln_stall by assumption. cbn [fst snd]. auto. }
  destruct Hgoal as [Hok' Hsz]. split; [assumption |].
  split; [assumption |].
  unfold zlen, tx_queue. rewrite length_map, length_seq.
  pose proof (tqln_range _ Hok') as Hq. rewrite Hsz in Hq. lia.
Qed.

(** ** Sending under partial writes *)

(** X6: [tmxr_send_buffered_data] is a first-in first-out drain for any
    peer that keeps the contract of [send], also when a write is partial
    or fails: the bytes that reach the peer are a prefix of the queue,
    what is left in the ring is the rest of it in the same order, and
    the value returned is the number of bytes left.  Nothing is sent
    twice and nothing is skipped. *)
Theorem send_buffered_data_fifo (lp : TMLN) (tr : list Event) :
  tx_ok lp -> sane_peer net -> SOCKET_ERROR < 0 ->
  let r := tmxr_send_buffered_data net lp tr in
  let lp' := snd (fst r) in
  let k := Z.to_nat (tmxr_tqln lp - fst (fst r)) in
  0 <= fst (fst r) <= tmxr_tqln lp /\
  fst (fst r) = tmxr_tqln lp' /\
  tx_ok lp' /\
  sent (conn lp) (snd r) = sent (conn lp) tr ++ firstn k (tx_queue lp) /\
  tx_queue lp' = skipn k (tx_queue lp) /\
  drain_only lp lp'.
Proof.
  intros Hok Hnet Herr. cbv zeta.
  destruct (send_buffered_data_part lp tr Hok Hnet Herr)
    as (left & lp' & tr' & -> & H1 & H2 & H3 & H4 & H5 & H6 & _).
  cbn [fst snd].
  split; [exact H1 |]. split; [exact H2 |]. split; [exact H3 |].
  split; [exact H4 |]. split; [exact H5 | exact H6].
Qed.

(** ** The output poll *)

(** A loop over the lines serves each line of its range once and leaves
    the others alone. *)
Lemma for_lines_each (P : TMLN -> TMLN -> Prop) (body : TMLN -> IO TMLN) :
  (forall lp tr, P lp (fst (body lp tr))) ->
  forall n i mp tr,
    0 <= i -> i + Z.of_nat n <= zlen_lines mp -> zlen_lines mp <= INT32_MAX ->
    (forall k, i <= k < i + Z.of_nat n ->
               P (get_line mp k) (get_line (fst (for_lines body n i mp tr)) k)) /\
    (forall k, 0 <= k < i \/ i + Z.of_nat n <= k ->
               get_line (fst (for_lines body n i mp tr)) k = get_line mp k).
Proof.
  intros Hbody. induction n as [| n IH]; intros i mp tr Hi Hn Hmax.
  - cbn [for_lines ret fst]. split; [intros k Hk; lia | reflexivity].
  - cbn [for_lines]. unfold bind.
    pose proof (Hbody (get_line mp i) tr) as Hb.
    destruct (body (get_line mp i) tr) as [lp1 tr1]. cbn [fst] in Hb.
    assert (Hlen : zlen_lines (put_line mp i lp1) = zlen_lines mp).
    { unfold zlen_lines. f_equal. apply (put_line_same mp i lp1). }
    unfold INT32_MAX in *.
    replace (add32 i 1) with (i + 1) by (int32; reflexivity).
    destruct (IH (i + 1) (put_line mp i lp1) tr1) as [Hin Hout];
      [lia | lia | lia |].
    split.
    + intros k Hk. destruct (Z.eq_dec k i) as [-> | Hne].
      * rewrite Hout by lia. rewrite get_put_line by lia. exact Hb.
      * rewrite <- (get_put_line_other mp i k lp1) by lia.
        apply Hin. lia.
    + intros k Hk. rewrite Hout by lia.
      apply get_put_line_other. lia.
Qed.

Lemma poll_tx_line_polled (lp : TMLN) (tr : list Event) :
  sane_peer net -> SOCKET_ERROR < 0 ->
  polled_tx lp (fst (poll_tx_line net lp tr)).
Proof.
  intros Hnet Herr. split; [apply poll_tx_line_drain_only |].
  unfold poll_tx_line. split.
  - intros ->. reflexivity.
  - intros Hc Hok. rewrite (eqb_false (conn lp) 0) by assumption.
    unfold bind.
    pose proof (send_buffered_data_xmte lp tr) as Hx.
    destruct (send_buffered_data_part lp tr Hok Hnet Herr)
      as (left & lp1 & tr1 & E & Hl & Hl' & Hok1 & _ & Hqu & _).
    rewrite E in Hx |- *. cbn [fst snd] in Hx.
    destruct (Z.eqb_spec left 0) as [E0 | N0]; unfold ret; cbn [fst].
    + split; [exact Hok1 |]. split; [eauto |].
      replace (tmxr_tqln (set_xmte 1 lp1)) with (tmxr_tqln lp1)
        by reflexivity.
      rewrite <- Hl', E0. reflexivity.
    + split; [exact Hok1 |]. split; [eauto |].
      rewrite <- Hl', (eqb_false left 0) by assumption. exact Hx.
Qed.

(** X7: one pass of [tmxr_poll_tx] serves every line of the multiplexor
    once.  A line without a connection is left as it was.  On a
    connected line only the remove pointer, the count of bytes sent and
    the transmit enable can change: the ring stays well formed, what is
    left in it is a suffix of what was queued, and transmission is
    switched on exactly when the ring has been emptied. *)
Theorem poll_tx_each_line (mp : TMXR) (tr : list Event) (k : Z) :
  sane_peer net -> SOCKET_ERROR < 0 ->
  0 <= lines mp <= zlen_lines mp -> zlen_lines mp <= INT32_MAX ->
  0 <= k < lines mp ->
  let lp := get_line mp k in
  let lp' := get_line (fst (tmxr_poll_tx net mp tr)) k in
  drain_only lp lp' /\
  (conn lp = 0 -> lp' = lp) /\
  (conn lp <> 0 -> tx_ok lp ->
   tx_ok lp' /\
   (exists n, tx_queue lp' = skipn n (tx_queue lp)) /\
   xmte lp' = if tmxr_tqln lp' =? 0 then 1 else xmte lp).
Proof.
  intros Hnet Herr Hl Hmax Hk. cbv zeta. unfold tmxr_poll_tx.
  destruct (for_lines_each polled_tx (poll_tx_line net)
              (fun lp0 tr0 => poll_tx_line_polled lp0 tr0 Hnet Herr)
              (Z.to_nat (lines mp)) 0 mp tr) as [Hin _]; try lia.
  apply (Hin k). lia.
Qed.

(** ** The search for a line *)

Lemma find_line_nonneg (mp : TMXR) (n : nat) (j i0 : Z) (op : nat) :
  0 <= j -> 0 <= i0 -> j + Z.of_nat n <= INT32_MAX -> lines mp <= INT32_MAX ->
  0 <= find_line mp n j i0 op.
Proof.
  revert j i0 op. induction n as [| n IH]; intros j i0 op Hj Hi0 Hn Hmax.
  - exact Hi0.
  - cbn [find_line]. unfold INT32_MAX in *.
    set (use := match lnorder mp with
                | Some l => (0 <=? nth op l (-1)) && (nth op l (-1) <? lines mp)
                | None => false
                end).
    set (i1 := if use then match lnorder mp with
                           | Some l => nth op l (-1)
                           | None => j
                           end else j).
    assert (Hi1 : 0 <= i1 <= 2147483646).
    { unfold i1, use. destruct (lnorder mp) as [l |]; [| lia].
      destruct (Z.leb_spec 0 (nth op l (-1)));
        destruct (Z.ltb_spec (nth op l (-1)) (lines mp)); cbn [andb]; lia. }
    destruct (conn (get_line mp i1) =? 0); [lia |].
    apply IH; try lia.
    + replace (add32 j 1) with (j + 1) by (int32; reflexivity). lia.
    + replace (add32 i1 1) with (i1 + 1) by (int32; reflexivity). lia.
    + replace (add32 j 1) with (j + 1) by (int32; reflexivity). lia.
Qed.

(** The search along a connection order whose entries are line numbers:
    the first listed line without a connection, or one more than the
    last entry when every listed line has one. *)
Lemma find_line_order (mp : TMXR) (l : list Z) :
  lnorder mp = Some l -> lines mp <= INT32_MAX ->
  forall (n : nat) (j i0 : Z) (op : nat),
    (forall k, (op <= k < op + n)%nat -> 0 <= nth k l (-1) < lines mp) ->
    let i := find_line mp n j i0 op in
    (exists m, (op <= m < op + n)%nat /\ i = nth m l (-1) /\
               conn (get_line mp i) = 0 /\
               forall k, (op <= k < m)%nat ->
                         conn (get_line mp (nth k l (-1))) <> 0) \/
    ((forall k, (op <= k < op + n)%nat ->
                conn (get_line mp (nth k l (-1))) <> 0) /\
     i = match n with
         | O => i0
         | S n' => nth (op + n') l (-1) + 1
         end).
Proof.
  intros Hl Hmax. induction n as [| n IH]; intros j i0 op Hval; cbv zeta.
  - right. split; [intros k Hk; lia | reflexivity].
  - cbn [find_line]. rewrite Hl.
    pose proof (Hval op ltac:(lia)) as H0.
    rewrite (leb_true 0 (nth op l (-1))) by lia.
    rewrite (ltb_true (nth op l (-1)) (lines mp)) by lia.
    cbn [andb].
    destruct (Z.eqb_spec (conn (get_line mp (nth op l (-1)))) 0)
      as [Hfree | Hbusy].
    + left. exists op. split; [lia |]. split; [reflexivity |].
      split; [exact Hfree |]. intros k Hk. lia.
    + unfold INT32_MAX in *.
      replace (add32 (nth op l (-1)) 1) with (nth op l (-1) + 1)
        by (int32; reflexivity).
      destruct (IH (add32 j 1) (nth op l (-1) + 1) (S op)) as [Hfound | Hnone].
      * intros k Hk. apply Hval. lia.
      * destruct Hfound as (m & Hm & Hi & Hc & Hb). left. exists m.
        split; [lia |]. split; [exact Hi |]. split; [exact Hc |].
        intros k Hk. destruct (Nat.eq_dec k op) as [-> | Hne];
          [assumption | apply Hb; lia].
      * destruct Hnone as [Hall Hi]. right. split.
        -- intros k Hk. destruct (Nat.eq_dec k op) as [-> | Hne];
             [assumption | apply Hall; lia].
        -- rewrite Hi. destruct n as [| n'].
           ++ now rewrite Nat.add_0_r.
           ++ replace (S op + n')%nat with (op + S n')%nat by lia.
              reflexivity.
Qed.

(** X8: with a connection order whose entries are line numbers, a caller
    gets the first line of the list that has no connection: the order of
    the list is the order of preference.  The connections of the other
    lines stay as they were. *)
Theorem poll_conn_order_first_free
  (mp : TMXR) (l : list Z) (m : nat) (tr : list Event) (newsock ip : Z) :
  lnorder mp = Some l ->
  0 <= lines mp <= INT32_MAX -> lines mp = zlen_lines mp ->
  (forall k, (k < Z.to_nat (lines mp))%nat -> 0 <= nth k l (-1) < lines mp) ->
  (m < Z.to_nat (lines mp))%nat ->
  conn (get_line mp (nth m l (-1))) = 0 ->
  (forall k, (k < m)%nat -> conn (get_line mp (nth k l (-1))) <> 0) ->
  net_accept net tr (master mp) = (newsock, ip) ->
  newsock <> INVALID_SOCKET ->
  let r := tmxr_poll_conn net mp tr in
  let mp' := snd (fst r) in
  fst (fst r) = nth m l (-1) /\
  conn (get_line mp' (nth m l (-1))) = newsock /\
  forall k, 0 <= k -> k <> nth m l (-1) ->
            conn (get_line mp' k) = conn (get_line mp k).
Proof.
  intros Hl Hlines Hlen Hval Hm Hfree Hbusy Hacc Hvalid. cbv zeta.
  assert (Hi : find_line mp (Z.to_nat (lines mp)) 0 (lines mp) 0
               = nth m l (-1)).
  { destruct (find_line_order mp l Hl ltac:(lia) (Z.to_nat (lines mp)) 0
                (lines mp) 0%nat) as [Hfound | Hnone].
    - intros k Hk. apply Hval. lia.
    - destruct Hfound as (m' & Hm' & Hi & Hc & Hb). rewrite Hi.
      destruct (Nat.lt_trichotomy m' m) as [Hlt | [-> | Hgt]];
        [| reflexivity |].
      + exfalso. apply (Hbusy m' Hlt). now rewrite <- Hi.
      + exfalso. apply (Hb m); [lia | assumption].
    - exfalso. apply (proj1 Hnone m); [lia | assumption]. }
  pose proof (Hval m Hm) as Hr.
  destruct (poll_conn_accepted mp tr newsock ip Hacc Hvalid)
    as (Ei & _ & Hc & _ & _ & _ & _ & _ & _ & _ & _ & _ & _ & _ & Hoth);
    [rewrite Hi; lia | rewrite Hi; lia |].
  cbv zeta in Ei, Hc, Hoth. rewrite Hi in Ei, Hc, Hoth.
  split; [exact Ei |]. split; [exact Hc |].
  intros k Hk Hne. apply Hoth. lia.
Qed.

(** X9: what a call of [tmxr_poll_conn] can come to.  Either it returns
    -1 and the multiplexor is exactly as before (no caller, or the
    caller was turned away), or it returns a line number below [lines],
    that line now holds the new socket, and every other line differs
    from before in its transmit fields at most. *)
Theorem poll_conn_outcome (mp : TMXR) (tr : list Event) :
  0 <= lines mp <= INT32_MAX -> lines mp <= zlen_lines mp ->
  let r := tmxr_poll_conn net mp tr in
  let i := fst (fst r) in
  let mp' := snd (fst r) in
  (i = -1 /\ mp' = mp) \/
  (0 <= i < lines mp /\ same_mux mp mp' /\
   conn (get_line mp' i) = fst (net_accept net tr (master mp)) /\
   fst (net_accept net tr (master mp)) <> INVALID_SOCKET /\
   forall k, 0 <= k -> k <> i -> tx_only (get_line mp k) (get_line mp' k)).
Proof.
  intros Hlines Hlen. cbv zeta.
  destruct (net_accept net tr (master mp)) as [newsock ip] eqn:Hacc.
  cbn [fst].
  destruct (Z.eq_dec newsock INVALID_SOCKET) as [-> | Hvalid].
  - left. rewrite (poll_conn_none mp tr ip Hacc). auto.
  - pose proof (find_line_nonneg mp (Z.to_nat (lines mp)) 0 (lines mp) 0)
      as Hnn.
    destruct (Z.lt_ge_cases
                (find_line mp (Z.to_nat (lines mp)) 0 (lines mp) 0)
                (lines mp)) as [Hlt | Hge].
    + right.
      destruct (poll_conn_accepted mp tr newsock ip Hacc Hvalid Hlt)
        as (Ei & Hsame & Hc & _ & _ & _ & _ & _ & _ & _ & _ & _ & _ & _ & Hoth);
        [lia |].
      cbv zeta in Ei, Hc, Hoth. rewrite Ei.
      split; [lia |]. split; [exact Hsame |]. split; [exact Hc |].
      split; [exact Hvalid |].
      intros k Hk Hne. apply Hoth. lia.
    + left. rewrite (poll_conn_busy mp tr newsock ip Hacc Hvalid Hge).
      auto.
Qed.

(** ** Messages *)

Lemma lastn_app_lastn (n : nat) (l s : list Z) :
  lastn n (lastn n l ++ s) = lastn n (l ++ s).
Proof.
  unfold lastn.
  assert (E : skipn (List.length l - n) l ++ s
              = skipn (List.length l - n) (l ++ s)).
  { rewrite skipn_app.
    replace (List.length l - n - List.length l)%nat with O by lia.
    reflexivity. }
  rewrite E, skipn_skipn. f_equal.
  rewrite length_skipn, !length_app. lia.
Qed.

Lemma lastn_all (n : nat) (l : list Z) :
  (List.length l <= n)%nat -> lastn n l = l.
Proof.
  intros H. unfold lastn. now replace (List.length l - n)%nat with O by lia.
Qed.

Lemma stuffed_length (c : Z) : 1 <= zlen (stuffed c) <= 2.
Proof. unfold stuffed, zlen. destruct (is_iac c); cbn; lia. Qed.

Lemma tx_queue_length (lp : TMLN) :
  tx_ok lp -> zlen (tx_queue lp) = tmxr_tqln lp.
Proof.
  intros Hok. pose proof (tqln_range lp Hok).
  unfold zlen, tx_queue. rewrite length_map, length_seq. lia.
Qed.

Lemma sent_fputc (s : SOCKET) (lp : TMLN) (c : Z) (tr : list Event) :
  sent s (snd (tmxr_putc_ln lp c tr)) = sent s tr.
Proof. rewrite putc_ln_trace. destruct (txlog lp); reflexivity. Qed.

(** A message goes into the ring byte by byte; the ring keeps the newest
    [txbsz - 1] bytes of what it held and what was added. *)
Lemma linemsg_loop_stores (msg : list Z) :
  forall (lp : TMLN) (tr : list Event),
    txbfd lp <> 0 \/
    (conn lp <> 0 /\ zlen (flat_map stuffed msg) <= tx_free lp) ->
    tx_ok lp -> counter_ok (txdrp lp) (2 * zlen msg) ->
    let r := linemsg_loop lp msg tr in
    tx_ok (fst r) /\
    tx_queue (fst r) =
    lastn (Z.to_nat (txbsz lp - 1)) (tx_queue lp ++ flat_map stuffed msg) /\
    txdrp (fst r) + zlen (tx_queue (fst r)) =
    txdrp lp + zlen (tx_queue lp) + zlen (flat_map stuffed msg) /\
    txbpr (fst r) = (txbpr lp + (txdrp (fst r) - txdrp lp)) mod txbsz lp /\
    sent (conn lp) (snd r) = sent (conn lp) tr.
Proof.
  induction msg as [| c t IH]; intros lp tr Hmode Hok Hdrp; cbv zeta.
  - cbn [linemsg_loop ret fst snd flat_map]. rewrite app_nil_r.
    pose proof (tx_queue_length lp Hok) as Hlen.
    pose proof (tqln_range lp Hok) as Hr.
    split; [exact Hok |].
    split; [rewrite lastn_all; [reflexivity |]; unfold zlen in Hlen; lia |].
    split; [unfold zlen; cbn [List.length]; lia |].
    split; [| reflexivity].
    rewrite Z.sub_diag, Z.add_0_r, Z.mod_small; [reflexivity | apply Hok].
  - cbn [linemsg_loop]. unfold bind.
    pose proof (tx_queue_length lp Hok) as Hlen.
    pose proof (tqln_range lp Hok) as Hr.
    pose proof (stuffed_length c) as Hsc.
    assert (Hzl : zlen (c :: t) = zlen t + 1)
      by (unfold zlen; cbn [List.length]; lia).
    assert (Hfl : zlen (flat_map stuffed (c :: t))
                  = zlen (stuffed c) + zlen (flat_map stuffed t))
      by (unfold zlen; cbn [flat_map]; rewrite length_app; lia).
    assert (Hzt : 0 <= zlen t /\ 0 <= zlen (flat_map stuffed t))
      by (unfold zlen; lia).
    assert (H1 : (conn lp =? 0) && negb (nz (txbfd lp)) = false).
    { destruct Hmode as [Hfd | [Hc _]].
      - rewrite (proj2 (nz_true _) Hfd). apply andb_false_r.
      - now rewrite (eqb_false (conn lp) 0). }
    assert (H2 : nz (txbfd lp) || (1 <? TXBUF_AVAIL lp) = true).
    { destruct Hmode as [Hfd | [Hc Hroom]].
      - now rewrite (proj2 (nz_true _) Hfd).
      - rewrite TXBUF_AVAIL_free by assumption.
        rewrite (ltb_true 1 (tx_free lp + 1)) by lia. apply orb_true_r. }
    assert (Hdrp2 : counter_ok (txdrp lp) 2)
      by (unfold counter_ok in *; lia).
    destruct (putc_ln_stored lp c tr H1 H2 Hok Hdrp2)
      as (_ & Hok1 & Hqu1 & Hpr1 & Hdr1 & _ & Hto).
    pose proof (sent_fputc (conn lp) lp c tr) as Hs1.
    destruct (tmxr_putc_ln lp c tr) as [[st lp1] tr1].
    cbn [fst snd] in Hok1, Hqu1, Hpr1, Hdr1, Hto, Hs1 |- *.
    assert (Hev : 0 <= evicted (tx_free lp) (zlen (stuffed c)) <= 2)
      by (unfold evicted; unfold tx_free; lia).
    assert (Hq1 : tx_queue lp1 =
                  lastn (Z.to_nat (txbsz lp - 1)) (tx_queue lp ++ stuffed c)).
    { rewrite Hqu1. unfold lastn. f_equal. rewrite length_app.
      unfold evicted, tx_free. unfold zlen in *. lia. }
    assert (Hsz1 : txbsz lp1 = txbsz lp) by apply Hto.
    assert (Hlen1 : zlen (tx_queue lp1)
                    = zlen (tx_queue lp) + zlen (stuffed c)
                      - evicted (tx_free lp) (zlen (stuffed c))).
    { rewrite Hqu1. unfold zlen. rewrite length_skipn, length_app.
      unfold evicted, tx_free, zlen in *. lia. }
    destruct (IH lp1 tr1) as (Hok2 & Hqu2 & Hdr2 & Hpr2 & Hs2).
    + destruct Hmode as [Hfd | [Hc Hroom]].
      * left. replace (txbfd lp1) with (txbfd lp); [assumption |].
        symmetry. apply Hto.
      * right. split; [replace (conn lp1) with (conn lp);
                         [assumption | symmetry; apply Hto] |].
        pose proof (tx_queue_length lp1 Hok1) as Hl1.
        unfold tx_free in *. rewrite Hsz1, <- Hl1, Hlen1.
        unfold evicted. lia.
    + exact Hok1.
    + unfold counter_ok, INT32_MAX in *. lia.
    + cbv zeta in Hok2, Hqu2, Hdr2, Hpr2, Hs2.
      replace (conn lp1) with (conn lp) in Hs2 by (symmetry; apply Hto).
      split; [exact Hok2 |].
      split; [rewrite Hqu2, Hsz1, Hq1, lastn_app_lastn; cbn [flat_map];
              now rewrite app_assoc |].
      split; [lia |]. split; [| congruence].
      rewrite Hpr2, Hpr1, Hsz1, Hdr1, Zplus_mod_idemp_l. f_equal. lia.
Qed.

(** X10: a buffered line keeps the tail of its output.  After
    [tmxr_linemsg] the ring holds the newest [txbsz - 1] bytes of what
    it held followed by the message (each 0xFF of it doubled), whether
    or not a client is connected; the bytes that had to go are counted
    as dropped, and nothing is written to the socket. *)
Theorem linemsg_buffered_retains (lp : TMLN) (msg : string) (tr : list Event) :
  txbfd lp <> 0 -> tx_ok lp ->
  counter_ok (txdrp lp) (2 * zlen (cstr msg)) ->
  let r := tmxr_linemsg lp msg tr in
  let lp' := fst r in
  let all := tx_queue lp ++ flat_map stuffed (cstr msg) in
  tx_ok lp' /\
  tx_queue lp' = lastn (Z.to_nat (txbsz lp - 1)) all /\
  txdrp lp' = txdrp lp + (zlen all - zlen (tx_queue lp')) /\
  sent (conn lp) (snd r) = sent (conn lp) tr.
Proof.
  intros Hfd Hok Hdrp. cbv zeta. unfold tmxr_linemsg.
  destruct (linemsg_loop_stores (cstr msg) lp tr (or_introl Hfd) Hok Hdrp)
    as (Hok' & Hqu & Hdr & _ & Hs).
  cbv zeta in Hok', Hqu, Hdr, Hs.
  split; [exact Hok' |]. split; [exact Hqu |]. split; [| exact Hs].
  unfold zlen in *. rewrite length_app. lia.
Qed.

(** X11: on a connected, unbuffered line with room for the whole
    message, [tmxr_linemsg] appends the message to the queue, each 0xFF
    of it doubled, in order; nothing is dropped, and nothing is written
    to the socket before the next output poll. *)
Theorem linemsg_queues_message (lp : TMLN) (msg : string) (tr : list Event) :
  conn lp <> 0 -> tx_ok lp -> counter_ok (txdrp lp) (2 * zlen (cstr msg)) ->
  zlen (flat_map stuffed (cstr msg)) <= tx_free lp ->
  let r := tmxr_linemsg lp msg tr in
  let lp' := fst r in
  tx_ok lp' /\
  tx_queue lp' = tx_queue lp ++ flat_map stuffed (cstr msg) /\
  txdrp lp' = txdrp lp /\
  sent (conn lp) (snd r) = sent (conn lp) tr.
Proof.
  intros Hc Hok Hdrp Hroom. cbv zeta. unfold tmxr_linemsg.
  destruct (linemsg_loop_stores (cstr msg) lp tr
              (or_intror (conj Hc Hroom)) Hok Hdrp)
    as (Hok' & Hqu & Hdr & _ & Hs).
  cbv zeta in Hok', Hqu, Hdr, Hs.
  pose proof (tx_queue_length lp Hok) as Hlen.
  assert (Hall : lastn (Z.to_nat (txbsz lp - 1))
                   (tx_queue lp ++ flat_map stuffed (cstr msg))
                 = tx_queue lp ++ flat_map stuffed (cstr msg)).
  { apply lastn_all. rewrite length_app. unfold tx_free, zlen in *. lia. }
  rewrite Hall in Hqu.
  split; [exact Hok' |]. split; [exact Hqu |]. split; [| exact Hs].
  rewrite Hqu in Hdr. unfold zlen in *. rewrite length_app in Hdr. lia.
Qed.

(** ** The greeting *)

(** Writes go to the socket of the line and to no other. *)
Lemma send_buffered_data_sent_other (s : SOCKET) (lp : TMLN) (tr : list Event) :
  conn lp <> s ->
  sent s (snd (tmxr_send_buffered_data net lp tr)) = sent s tr.
Proof.
  intros Hne.
  assert (Hc : forall k, conn (tx_sent lp k) = conn lp)
    by (intros k; apply tx_sent_tx_only).
  unfold tmxr_send_buffered_data, bind, sim_write_sock, ret.
  repeat match goal with
         | |- context [if ?b then _ else _] => destruct b
         end; cbn [fst snd sent]; rewrite ?Hc;
    rewrite ?(eqb_false (conn lp) s) by assumption; reflexivity.
Qed.

Lemma poll_tx_line_sent_other (s : SOCKET) (lp : TMLN) (tr : list Event) :
  conn lp <> s ->
  sent s (snd (poll_tx_line net lp tr)) = sent s tr.
Proof.
  intros Hne. unfold poll_tx_line.
  destruct (conn lp =? 0); [reflexivity |]. unfold bind.
  pose proof (send_buffered_data_sent_other s lp tr Hne) as H.
  destruct (tmxr_send_buffered_data net lp tr) as [[n lp1] tr1].
  cbn [snd] in H. destruct (n =? 0); exact H.
Qed.

(** The output poll of a line whose peer takes everything. *)
Lemma poll_tx_line_all (lp : TMLN) (tr : list Event) :
  accepts_all net -> SOCKET_ERROR < 0 -> conn lp <> 0 -> tx_ok lp ->
  let r := poll_tx_line net lp tr in
  sent (conn lp) (snd r) = sent (conn lp) tr ++ tx_queue lp /\
  txbpr (fst r) = txbpi lp /\ xmte (fst r) = 1.
Proof.
  intros Hnet Herr Hc Hok. cbv zeta. unfold poll_tx_line.
  rewrite (eqb_false (conn lp) 0) by assumption. unfold bind.
  destruct (send_buffered_data_all lp tr Hok Hnet Herr)
    as (Hs & Hz & Hpr & _).
  destruct (tmxr_send_buffered_data net lp tr) as [[n lp1] tr1].
  cbn [fst snd] in *. subst n. cbn [Z.eqb ret fst snd].
  split; [exact Hs |]. split; [exact Hpr | reflexivity].
Qed.

Lemma tx_sent_txcnt (lp : TMLN) (k : Z) :
  txcnt (tx_sent lp k) = add32 (txcnt lp) k.
Proof.
  unfold tx_sent.
  match goal with |- context [if ?b then _ else _] => destruct b end;
    reflexivity.
Qed.

(** The count of bytes sent, for a peer that takes everything. *)
Lemma send_buffered_data_txcnt (lp : TMLN) (tr : list Event) :
  tx_ok lp -> accepts_all net -> SOCKET_ERROR < 0 ->
  counter_ok (txcnt lp) (tmxr_tqln lp) ->
  txcnt (snd (fst (tmxr_send_buffered_data net lp tr)))
  = txcnt lp + tmxr_tqln lp.
Proof.
  intros Hok Hnet Herr Hcnt. unfold counter_ok, INT32_MAX in Hcnt.
  rewrite (tqln_eq lp Hok) in Hcnt |- *.
  pose proof Hok as (Hsz & Hpr & Hpi & Hlen). unfold INT32_MAX in *.
  destruct (Z.lt_trichotomy (txbpr lp) (txbpi lp)) as [Hlt | [Heq | Hgt]].
  - rewrite send_run_nowrap by assumption. cbn [fst snd].
    rewrite (ltb_false (txbpi lp) (txbpr lp)) in Hcnt |- * by lia.
    rewrite tx_sent_txcnt. int32. reflexivity.
  - rewrite send_buffered_data_idle
      by (rewrite tqln_eq by assumption;
          rewrite (ltb_false (txbpi lp) (txbpr lp)) by lia; lia).
    cbn [fst snd]. rewrite (ltb_false (txbpi lp) (txbpr lp)) by lia. lia.
  - rewrite (ltb_true (txbpi lp) (txbpr lp)) in Hcnt |- * by lia.
    pose proof (send_run_wrap lp tr Hok Hnet Herr Hgt) as Hrun.
    cbv zeta in Hrun. rewrite Hrun.
    destruct (Z.eqb_spec (txbpi lp) 0) as [E0 | N0]; cbn [fst snd];
      rewrite !tx_sent_txcnt; int32; lia.
Qed.

Lemma poll_tx_line_flushed (lp : TMLN) (tr : list Event) :
  accepts_all net -> SOCKET_ERROR < 0 ->
  flushed lp (fst (poll_tx_line net lp tr)).
Proof.
  intros Hnet Herr. split; [apply poll_tx_line_drain_only |]. split.
  - intros Hc Hok. apply (poll_tx_line_all lp tr Hnet Herr Hc Hok).
  - intros Hc Hok Hcnt. unfold poll_tx_line.
    rewrite (eqb_false (conn lp) 0) by assumption. unfold bind.
    pose proof (send_buffered_data_txcnt lp tr Hok Hnet Herr Hcnt) as H.
    destruct (tmxr_send_buffered_data net lp tr) as [[n lp1] tr1].
    cbn [fst snd] in H. destruct (n =? 0); exact H.
Qed.

(** What one pass of the output poll sends to a socket that one line at
    most is connected to. *)
Lemma poll_tx_sent_one (s : SOCKET) (i0 : Z) :
  accepts_all net -> SOCKET_ERROR < 0 -> s <> 0 -> 0 <= i0 ->
  forall n i mp tr,
    0 <= i -> i + Z.of_nat n <= zlen_lines mp -> zlen_lines mp <= INT32_MAX ->
    (forall k, i <= k < i + Z.of_nat n -> k <> i0 ->
               conn (get_line mp k) <> s) ->
    (i <= i0 < i + Z.of_nat n ->
     conn (get_line mp i0) = s /\ tx_ok (get_line mp i0)) ->
    sent s (snd (for_lines (poll_tx_line net) n i mp tr)) =
    sent s tr ++ (if (i <=? i0) && (i0 <? i + Z.of_nat n)
                  then tx_queue (get_line mp i0) else []).
Proof.
  intros Hnet Herr Hs Hi0.
  induction n as [| n IH]; intros i mp tr Hi Hn Hmax Hoth Hone.
  - cbn [for_lines ret snd].
    destruct (Z.leb_spec i i0); destruct (Z.ltb_spec i0 (i + Z.of_nat 0));
      cbn [andb]; try lia; now rewrite app_nil_r.
  - cbn [for_lines]. unfold bind. unfold INT32_MAX in *.
    replace (add32 i 1) with (i + 1) by (int32; reflexivity).
    destruct (Z.eq_dec i i0) as [-> | Hne].
    + destruct Hone as [Hc Hok]; [lia |].
      destruct (poll_tx_line_all (get_line mp i0) tr Hnet Herr) as (Hs1 & _);
        [congruence | assumption |].
      rewrite Hc in Hs1.
      destruct (poll_tx_line net (get_line mp i0) tr) as [lp1 tr1].
      cbn [snd] in Hs1.
      rewrite (IH (i0 + 1) (put_line mp i0 lp1) tr1).
      * rewrite Hs1.
        rewrite (leb_false (i0 + 1) i0) by lia.
        rewrite (leb_true i0 i0), (ltb_true i0 (i0 + Z.of_nat (S n))) by lia.
        cbn [andb]. now rewrite app_nil_r.
      * lia.
      * replace (zlen_lines (put_line mp i0 lp1)) with (zlen_lines mp)
          by (unfold zlen_lines; f_equal; symmetry;
              apply (put_line_same mp i0 lp1)).
        lia.
      * replace (zlen_lines (put_line mp i0 lp1)) with (zlen_lines mp)
          by (unfold zlen_lines; f_equal; symmetry;
              apply (put_line_same mp i0 lp1)).
        lia.
      * intros k Hk Hk0. rewrite get_put_line_other by lia.
        apply Hoth; lia.
      * intros Hk. lia.
    + pose proof (poll_tx_line_sent_other s (get_line mp i) tr
                    (Hoth i ltac:(lia) Hne)) as Hs1.
      destruct (poll_tx_line net (get_line mp i) tr) as [lp1 tr1].
      cbn [snd] in Hs1.
      rewrite (IH (i + 1) (put_line mp i lp1) tr1).
      * rewrite Hs1. f_equal.
        rewrite get_put_line_other by lia.
        destruct (Z.leb_spec (i + 1) i0); destruct (Z.leb_spec i i0);
          destruct (Z.ltb_spec i0 (i + 1 + Z.of_nat n));
          destruct (Z.ltb_spec i0 (i + Z.of_nat (S n)));
          cbn [andb]; try lia; reflexivity.
      * lia.
      * replace (zlen_lines (put_line mp i lp1)) with (zlen_lines mp)
          by (unfold zlen_lines; f_equal; symmetry;
              apply (put_line_same mp i lp1)).
        lia.
      * replace (zlen_lines (put_line mp i lp1)) with (zlen_lines mp)
          by (unfold zlen_lines; f_equal; symmetry;
              apply (put_line_same mp i lp1)).
        lia.
      * intros k Hk Hk0. rewrite get_put_line_other by lia.
        apply Hoth; lia.
      * intros Hk. rewrite get_put_line_other by lia. apply Hone. lia.
Qed.

Lemma stuffed_plain (msg : list Z) :
  ~ In TN_IAC (map to_char msg) ->
  flat_map stuffed msg = map to_char msg.
Proof.
  induction msg as [| c t IH]; intros Hno; [reflexivity |].
  cbn [flat_map map]. rewrite IH by (intros H; apply Hno; now right).
  unfold stuffed, is_iac.
  destruct (Z.eqb_spec TN_IAC (to_char c)) as [E | _]; [| reflexivity].
  exfalso. apply Hno. left. now symmetry.
Qed.

Lemma cstr_to_char (s : string) : map to_char (cstr s) = cstr s.
Proof.
  unfold cstr. rewrite map_map. apply map_ext. intros c. apply to_char_idem.
Qed.

Lemma tx_queue_set_txbpi (lp : TMLN) :
  tx_queue (set_txbpi (txbpi lp) lp) = tx_queue lp.
Proof. reflexivity. Qed.

Lemma strlen_cstr (s : string) : strlen s = zlen (cstr s).
Proof.
  unfold strlen, zlen, cstr. rewrite length_map. f_equal.
  induction s as [| c s IH]; [reflexivity |]. cbn. now rewrite IH.
Qed.

Lemma conn_msg_nonempty (mp : TMXR) (i : Z) : 1 <= strlen (conn_msg mp i).
Proof.
  unfold conn_msg, strlen, lf. cbn [append String.length]. lia.
Qed.

(** The line [tmxr_poll_conn] prepares on an unbuffered multiplexor. *)
Lemma conn_init_unbuffered (mp : TMXR) (lp : TMLN) (msg : string) :
  buffered mp = 0 -> 0 < txbsz lp <= INT32_MAX -> 0 <= strlen msg <= txbsz lp ->
  let lp0 := conn_init mp lp msg in
  txbpi lp0 = 0 /\ txbpr lp0 = txbsz lp - strlen msg /\
  txcnt lp0 = 0 /\ txdrp lp0 = 0 /\ rxcnt lp0 = 0 /\
  conn lp0 = conn lp /\ txbsz lp0 = txbsz lp /\ txb lp0 = txb lp /\
  txbfd lp0 = txbfd lp.
Proof.
  intros Hbuf Hsz Hlen. cbv zeta. unfold conn_init. rewrite Hbuf.
  cbn [nz Z.eqb negb]. cbn. unfold INT32_MAX in *.
  repeat split. int32. reflexivity.
Qed.

Lemma putc_ln_txcnt (lp : TMLN) (c : Z) (tr : list Event) :
  txcnt (snd (fst (tmxr_putc_ln lp c tr))) = txcnt lp.
Proof.
  rewrite putc_ln_cases.
  destruct ((conn lp =? 0) && negb (nz (txbfd lp)));
    [destruct (txlog lp); reflexivity |].
  destruct (nz (txbfd lp) || (1 <? TXBUF_AVAIL lp)); [| reflexivity].
  cbn [snd]. cbv zeta.
  match goal with
  | |- context [if ?b then set_xmte 0 ?x else _] => destruct b
  end; cbn [txcnt set_xmte]; rewrite TXBUF_CHAR_txcnt;
    destruct (TN_IAC =? to_char c); rewrite ?TXBUF_CHAR_txcnt; reflexivity.
Qed.

Lemma linemsg_loop_txcnt (msg : list Z) (lp : TMLN) (tr : list Event) :
  txcnt (fst (linemsg_loop lp msg tr)) = txcnt lp.
Proof.
  revert lp tr. induction msg as [| c t IH]; intros lp tr; [reflexivity |].
  cbn [linemsg_loop]. unfold bind.
  pose proof (putc_ln_txcnt lp c tr) as H.
  destruct (tmxr_putc_ln lp c tr) as [[st lp1] tr1]. cbn [fst snd] in *.
  now rewrite IH.
Qed.

(** X12: what a caller gets on an unbuffered multiplexor.  With a peer
    that takes what it is offered, the new socket receives the Telnet
    option negotiation and then the connection message, in that order
    and complete, before [tmxr_poll_conn] returns.  The line is left
    with an empty ring, transmission enabled and its counters at zero:
    the greeting is not counted as output.  (The message is put
    together in a buffer of 256 bytes and has to fit the ring.) *)
Theorem poll_conn_greets (mp : TMXR) (tr : list Event) (newsock ip : Z) :
  accepts_all net -> SOCKET_ERROR < 0 ->
  buffered mp = 0 ->
  0 <= lines mp <= zlen_lines mp -> zlen_lines mp <= INT32_MAX ->
  net_accept net tr (master mp) = (newsock, ip) ->
  newsock <> INVALID_SOCKET -> newsock <> 0 ->
  let i := find_line mp (Z.to_nat (lines mp)) 0 (lines mp) 0 in
  let msg := conn_msg mp i in
  i < lines mp ->
  tx_ok (get_line mp i) -> txbfd (get_line mp i) = 0 ->
  strlen msg <= 255 -> strlen msg < txbsz (get_line mp i) ->
  ~ In TN_IAC (cstr msg) ->
  (forall k, 0 <= k < lines mp -> k <> i -> conn (get_line mp k) <> newsock) ->
  let r := tmxr_poll_conn net mp tr in
  let lp' := get_line (snd (fst r)) i in
  sent newsock (snd r) = sent newsock tr ++ mantra ++ cstr msg /\
  txbpr lp' = 0 /\ txbpi lp' = 0 /\ xmte lp' = 1 /\
  txcnt lp' = 0 /\ txdrp lp' = 0 /\ rxcnt lp' = 0.
Proof.
  intros Hnet Herr Hbuf Hlines Hmax Hacc Hvalid Hnz i msg Hi Hok Hfd Hbuf256
    Hlen Hno Hoth. cbv zeta.
  assert (Hi0 : 0 <= i)
    by (apply find_line_nonneg; unfold INT32_MAX in *; lia).
  pose proof (poll_conn_run mp tr newsock ip Hacc Hvalid Hi) as Hrun.
  cbv zeta in Hrun. fold i in Hrun. fold msg in Hrun. rewrite Hrun.
  clear Hrun. cbn [fst snd].
  match goal with
  | |- context [net_msec net ?x] => set (tr2 := x)
  end.
  set (t := net_msec net tr2).
  assert (Hs2 : sent newsock (EvMsec t :: tr2) = sent newsock tr ++ mantra).
  { unfold tr2. rewrite Hnet. cbn [sent]. rewrite Z.eqb_refl.
    cbn [andb Z.ltb zlen List.length mantra Z.of_nat Z.compare
         Pos.of_succ_nat Pos.succ].
    reflexivity. }
  pose proof Hok as (Hsz & _ & _ & Hblen).
  pose proof (conn_msg_nonempty mp i) as Hne. fold msg in Hne.
  pose proof (strlen_cstr msg) as Hsl.
  assert (Hplain : flat_map stuffed (cstr msg) = cstr msg).
  { rewrite stuffed_plain; [apply cstr_to_char |].
    now rewrite cstr_to_char. }
  destruct (conn_init_unbuffered mp
              (set_cnms t (set_ipad ip (set_conn newsock (get_line mp i))))
              msg Hbuf)
    as (I1 & I2 & I3 & I4 & I5 & I6 & I7 & I8 & I9);
    [exact Hsz | cbn [txbsz set_cnms set_ipad set_conn]; lia |].
  cbn [txbsz txb txbfd conn set_cnms set_ipad set_conn] in I2, I6, I7, I8, I9.
  revert I1 I2 I3 I4 I5 I6 I7 I8 I9.
  generalize (conn_init mp
                (set_cnms t (set_ipad ip (set_conn newsock (get_line mp i))))
                msg).
  intros lp0 I1 I2 I3 I4 I5 I6 I7 I8 I9.
  rewrite I1, I2.
  set (lpA := set_txbpi (txbsz (get_line mp i) - strlen msg) lp0).
  assert (HokA : tx_ok lpA).
  { unfold tx_ok, lpA. cbn [txbsz txbpr txbpi txb set_txbpi].
    rewrite I2, I7, I8. unfold INT32_MAX in *. lia. }
  assert (HqA : tmxr_tqln lpA = 0).
  { rewrite (tqln_eq lpA HokA). unfold lpA. cbn [txbpr txbpi set_txbpi].
    rewrite I2, Z.ltb_irrefl. lia. }
  assert (HquA : tx_queue lpA = []) by (unfold tx_queue; now rewrite HqA).
  assert (HcA : conn lpA = newsock) by exact I6.
  unfold tmxr_linemsg.
  destruct (linemsg_loop_stores (cstr msg) lpA (EvMsec t :: tr2))
    as (Hok1 & Hqu1 & Hdr1 & Hpr1 & Hs1).
  { right. split; [congruence |]. rewrite Hplain. unfold tx_free.
    rewrite HqA. unfold lpA. cbn [txbsz set_txbpi]. rewrite I7. lia. }
  { exact HokA. }
  { unfold lpA, counter_ok, INT32_MAX in *. cbn [txdrp set_txbpi].
    rewrite I4, <- Hsl. lia. }
  cbv zeta in Hok1, Hqu1, Hdr1, Hpr1, Hs1.
  pose proof (linemsg_loop_tx_only (cstr msg) lpA (EvMsec t :: tr2)) as Hto1.
  pose proof (linemsg_loop_txcnt (cstr msg) lpA (EvMsec t :: tr2)) as Hcn1.
  rewrite HquA, Hplain in Hqu1, Hdr1. cbn [app] in Hqu1, Hdr1.
  rewrite lastn_all in Hqu1
    by (unfold lpA; cbn [txbsz set_txbpi]; rewrite I7;
        unfold zlen in Hsl; lia).
  rewrite HcA, Hs2 in Hs1.
  revert Hok1 Hqu1 Hdr1 Hpr1 Hs1 Hto1 Hcn1.
  generalize (linemsg_loop lpA (cstr msg) (EvMsec t :: tr2)).
  intros [lp1 tr4] Hok1 Hqu1 Hdr1 Hpr1 Hs1 Hto1 Hcn1.
  cbn [fst snd] in *.
  assert (Hd1 : txdrp lp1 = 0).
  { rewrite Hqu1 in Hdr1. unfold lpA in Hdr1. cbn [txdrp set_txbpi] in Hdr1.
    rewrite I4 in Hdr1. unfold zlen in *. cbn [List.length] in Hdr1. lia. }
  assert (Hsz1 : txbsz lp1 = txbsz (get_line mp i)).
  { replace (txbsz lp1) with (txbsz lpA) by (symmetry; apply Hto1).
    exact I7. }
  assert (Hp1 : txbpr lp1 = txbsz (get_line mp i) - strlen msg).
  { rewrite Hpr1, Hd1. unfold lpA. cbn [txbpr txdrp txbsz set_txbpi].
    rewrite I2, I4, I7. rewrite Z.sub_diag, Z.add_0_r.
    apply Z.mod_small. lia. }
  assert (Hq1 : tmxr_tqln lp1 = strlen msg).
  { rewrite <- (tx_queue_length lp1 Hok1), Hqu1. now symmetry. }
  assert (Hi1 : txbpi lp1 = 0).
  { rewrite (txbpi_tqln lp1 Hok1), Hp1, Hq1, Hsz1.
    replace (txbsz (get_line mp i) - strlen msg + strlen msg)
      with (txbsz (get_line mp i)) by lia.
    rewrite Z.rem_mod_nonneg by lia. apply Z_mod_same_full. }
  assert (Hc1 : conn lp1 = newsock).
  { replace (conn lp1) with (conn lpA) by (symmetry; apply Hto1).
    exact HcA. }
  assert (Hrx1 : rxcnt lp1 = 0).
  { replace (rxcnt lp1) with (rxcnt lpA) by (symmetry; apply Hto1).
    exact I5. }
  assert (Htc1 : txcnt lp1 = 0) by (rewrite Hcn1; exact I3).
  set (lpB := set_txbpi 0 lp1).
  assert (HokB : tx_ok lpB).
  { unfold tx_ok, lpB. cbn [txbsz txbpr txbpi txb set_txbpi].
    destruct Hok1 as (A1 & A2 & A3 & A4). repeat split; try lia. }
  assert (HquB : tx_queue lpB = cstr msg).
  { unfold lpB. rewrite <- Hi1 at 1. rewrite tx_queue_set_txbpi. exact Hqu1. }
  assert (HqB : tmxr_tqln lpB = strlen msg).
  { rewrite <- (tx_queue_length lpB HokB), HquB. now symmetry. }
  assert (HcB : conn lpB = newsock) by exact Hc1.
  assert (HnB : conn lpB <> 0) by (rewrite HcB; exact Hnz).
  set (mpB := put_line mp i lpB).
  assert (HsameB : same_mux mp mpB) by apply put_line_same.
  assert (HlenB : zlen_lines mpB = zlen_lines mp)
    by (unfold zlen_lines; f_equal; apply HsameB).
  assert (HlinesB : lines mpB = lines mp) by apply HsameB.
  assert (HgetB : get_line mpB i = lpB)
    by (unfold mpB; apply get_put_line; lia).
  unfold tmxr_poll_tx. rewrite HlinesB.
  pose proof (poll_tx_sent_one newsock i Hnet Herr Hnz Hi0
                (Z.to_nat (lines mp)) 0 mpB tr4) as Hsent.
  rewrite (leb_true 0 i), (ltb_true i (0 + Z.of_nat (Z.to_nat (lines mp))))
    in Hsent by lia.
  cbn [andb] in Hsent. rewrite HgetB, HquB, Hs1 in Hsent.
  destruct (for_lines_each flushed (poll_tx_line net)
              (fun lp0 tr0 => poll_tx_line_flushed lp0 tr0 Hnet Herr)
              (Z.to_nat (lines mp)) 0 mpB tr4) as [Hin _]; try lia.
  pose proof (for_lines_rel tx_only (poll_tx_line net) tx_only_refl
                tx_only_trans (poll_tx_line_tx_only) (Z.to_nat (lines mp))
                0 mpB tr4) as [Hsame2 _].
  specialize (Hin i ltac:(lia)). rewrite HgetB in Hin.
  revert Hsent Hin Hsame2.
  generalize (for_lines (poll_tx_line net) (Z.to_nat (lines mp)) 0 mpB tr4).
  intros [mp2 tr5] Hsent Hin Hsame2. cbn [fst snd] in *.
  assert (Hlen2 : zlen_lines mp2 = zlen_lines mp)
    by (rewrite <- HlenB; unfold zlen_lines; f_equal; apply Hsame2).
  rewrite get_put_line by lia.
  destruct Hin as ((Hto2 & Hpi2 & Hdrp2 & _) & Hfl & Hcnt).
  destruct Hfl as [Hpr2 Hx2]; [exact HnB | exact HokB |].
  rewrite Hcnt; [| exact HnB | exact HokB |].
  2: { unfold counter_ok, INT32_MAX in *. rewrite HqB.
       unfold lpB. cbn [txcnt set_txbpi]. rewrite Htc1. lia. }
  cbn [txbpr txbpi xmte txcnt txdrp rxcnt set_txcnt].
  split.
  { rewrite Hsent.
    - now rewrite <- app_assoc.
    - lia.
    - lia.
    - lia.
    - intros k Hk Hki. unfold mpB. rewrite get_put_line_other by lia.
      apply Hoth; lia.
    - intros _. split; [exact HcB | exact HokB]. }
  split; [rewrite Hpr2; reflexivity |].
  split; [rewrite Hpi2; reflexivity |].
  split; [exact Hx2 |].
  split.
  { rewrite HqB. unfold lpB. cbn [txcnt set_txbpi]. rewrite Htc1.
    unfold INT32_MAX in *. int32. lia. }
  split; [rewrite Hdrp2; exact Hd1 |].
  replace (rxcnt (get_line mp2 i)) with (rxcnt lpB) by (symmetry; apply Hto2).
  exact Hrx1.
Qed.

(** ** The receive filter *)

Lemma rx_step_crpad (lp : TMLN) (j : Z) :
  tsta lp = TNS_CRPAD ->
  rx_filter_step lp j =
  (if (aget (rxb lp) j =? TN_LF) || (aget (rxb lp) j =? TN_NUL)
   then tmxr_rmvrc (set_tsta TNS_NORM lp) j else set_tsta TNS_NORM lp, j).
Proof.
  intros Hs. unfold rx_filter_step. rewrite Hs. reflexivity.
Qed.

Lemma rx_step_iac_iac (lp : TMLN) (j : Z) :
  tsta lp = TNS_IAC -> aget (rxb lp) j = TN_IAC ->
  rx_filter_step lp j = (set_tsta TNS_NORM lp, add32 j 1).
Proof.
  intros Hs He. unfold rx_filter_step. rewrite Hs, He. reflexivity.
Qed.

(** X13: the loop that examines new data ends.  Once the passes
    allotted reach twice the number of characters left to examine, plus
    one, the loop condition is false on return, and allotting more
    passes changes nothing: the bound [poll_rx_line] uses covers every
    run of the loop of the code. *)
Theorem rx_filter_passes_bound (n m : nat) (lp : TMLN) (j : Z) :
  0 <= j <= rxbpi lp -> rxbpi lp <= INT32_MAX ->
  2 * (rxbpi lp - j) + 1 <= Z.of_nat n ->
  snd (rx_filter n lp j) = rxbpi (fst (rx_filter n lp j)) /\
  rx_filter (n + m) lp j = rx_filter n lp j.
Proof.
  intros Hj Hmax Hn.
  assert (Hex : snd (rx_filter n lp j) = rxbpi (fst (rx_filter n lp j))).
  { apply rx_filter_exit; try assumption.
    destruct (tsta lp =? TNS_CRPAD); lia. }
  split; [exact Hex |].
  rewrite rx_filter_app.
  destruct (rx_filter n lp j) as [lp1 j1]. cbn [fst snd] in Hex.
  destruct m as [| m]; [reflexivity |]. cbn [rx_filter].
  rewrite (ltb_false j1 (rxbpi lp1)) by lia. reflexivity.
Qed.

(** X14: in binary mode the receive side is transparent.  A block of
    bytes without 0xFF read into the empty buffer of a connected line
    whose [dstb] is clear is handed out by [tmxr_getc_ln] byte for byte,
    in order, carriage returns, line feeds and nulls included; then the
    buffer is empty. *)
Theorem poll_rx_binary_transparent
  (lp : TMLN) (tr : list Event) (data : list Z) :
  conn lp <> 0 -> rcve lp <> 0 ->
  tsta lp = TNS_NORM -> dstb lp = 0 -> rxbpi lp = 0 -> rxbpr lp = 0 ->
  net_read net tr (conn lp) (sub32 TMXR_MAXBUF TMXR_GUARD)
  = (zlen data, data) ->
  0 < zlen data -> zlen data <= zlen (rxb lp) -> zlen data <= zlen (rbr lp) ->
  zlen (rxb lp) <= INT32_MAX ->
  (forall b, In b data -> to_char b <> TN_IAC) ->
  fst (getc_n (S (List.length data)) (fst (poll_rx_line net lp tr)))
  = map (fun b => Z.lor TMXR_VALID (Z.land (to_char b) 255)) data ++ [0].
Proof.
  intros Hc Hr Hs Hd Hpi Hpr Hread Hn Hlb Hlr Hmax Hplain.
  apply nz_true in Hc. apply nz_true in Hr.
  destruct (poll_rx_line_plain lp tr data Hc Hr Hs Hd Hpi Hpr Hread Hn Hlb
              Hlr Hmax Hplain) as (Hpend & Hc' & Hr' & Hpr' & Hpi').
  cbv zeta in Hpend, Hc', Hr', Hpr', Hpi'.
  pose proof (getc_n_all (fst (poll_rx_line net lp tr))
                (map (fun b => (to_char b, 0)) data)) as H.
  rewrite length_map in H. rewrite H.
  - rewrite map_map. reflexivity.
  - now rewrite Hc'.
  - now rewrite Hr'.
  - rewrite Hpr', Hpi'. unfold zlen. lia.
  - rewrite Hpi'. unfold INT32_MAX in *. lia.
  - exact Hpend.
Qed.

(** X15: CR padding on a line that is not in binary mode ([dstb] set).
    A CR met in the normal state is kept; the character after it is
    taken out when it is LF or NUL, and kept, to be examined as any
    other character, when it is not.  Either way the filter is back in
    the normal state behind the CR. *)
Theorem rx_filter_cr_pad (lp : TMLN) (j : Z) :
  tsta lp = TNS_NORM -> dstb lp <> 0 -> aget (rxb lp) j = TN_CR ->
  0 <= j -> j + 1 < rxbpi lp ->
  rxbpi lp <= zlen (rxb lp) -> rxbpi lp <= zlen (rbr lp) ->
  zlen (rxb lp) <= INT32_MAX -> zlen (rbr lp) <= INT32_MAX ->
  let x := aget (rxb lp) (j + 1) in
  let r := rx_filter 2 lp j in
  snd r = j + 1 /\ tsta (fst r) = TNS_NORM /\ dstb (fst r) = dstb lp /\
  (forall k, 0 <= k <= j -> aget (rxb (fst r)) k = aget (rxb lp) k) /\
  (x = TN_LF \/ x = TN_NUL ->
   rxbpi (fst r) = rxbpi lp - 1 /\
   forall k, j < k < rxbpi lp - 1 ->
             aget (rxb (fst r)) k = aget (rxb lp) (k + 1)) /\
  (x <> TN_LF -> x <> TN_NUL ->
   rxbpi (fst r) = rxbpi lp /\ rxb (fst r) = rxb lp).
Proof.
  intros Hs Hd Hcr Hj Hpi Hlb Hlr Hmb Hmr. cbv zeta.
  assert (Hne : aget (rxb lp) j <> TN_IAC) by (rewrite Hcr; discriminate).
  cbn [rx_filter]. rewrite (ltb_true j (rxbpi lp)) by lia.
  rewrite rx_step_norm by assumption.
  rewrite Hcr, Z.eqb_refl, (proj2 (nz_true (dstb lp)) Hd). cbn [andb].
  unfold INT32_MAX in *.
  replace (add32 j 1) with (j + 1) by (int32; reflexivity).
  cbn [rxbpi set_tsta]. rewrite (ltb_true (j + 1) (rxbpi lp)) by lia.
  rewrite rx_step_crpad by reflexivity. cbn [rxb set_tsta].
  destruct (Z.eqb_spec (aget (rxb lp) (j + 1)) TN_LF) as [Elf | Nlf];
    [| destruct (Z.eqb_spec (aget (rxb lp) (j + 1)) TN_NUL) as [Enu | Nnu]];
    cbn [orb fst snd].
  1, 2:
    destruct (rmvrc_spec (set_tsta TNS_NORM (set_tsta TNS_CRPAD lp)) (j + 1))
      as (A1 & _ & _ & A4 & A5 & A6 & _);
      try (cbn [rxbpi rxb rbr set_tsta]; unfold INT32_MAX; lia);
    cbv zeta in A1, A4, A5, A6;
    cbn [rxbpi rxb rbr tsta dstb set_tsta] in A1, A4, A5, A6;
    (split; [reflexivity |]); (split; [exact A4 |]); (split; [exact A5 |]);
    (split; [intros k Hk; rewrite A6 by lia;
             rewrite (leb_false (j + 1) k) by lia; reflexivity |]);
    (split; [intros _; split; [exact A1 |];
             intros k Hk; rewrite A6 by lia;
             rewrite (leb_true (j + 1) k), (ltb_true k (rxbpi lp)) by lia;
             reflexivity |]);
    intros H1 H2; congruence.
  cbn [tsta dstb rxb rxbpi set_tsta].
  split; [reflexivity |]. split; [reflexivity |]. split; [reflexivity |].
  split; [intros k Hk; reflexivity |].
  split; [intros [H | H]; contradiction |].
  intros _ _. split; reflexivity.
Qed.

(** X16: an escaped 0xFF comes through as one data byte.  IAC IAC met in
    the normal state leaves a single 0xFF in the place of the first,
    with the break flag of the second; what came before is untouched,
    what came after has moved down by one, and the filter is back in
    the normal state behind the byte.  This undoes the doubling [tmxr_putc_ln] applies on
    the sending side. *)
Theorem rx_filter_iac_iac (lp : TMLN) (j : Z) :
  tsta lp = TNS_NORM ->
  aget (rxb lp) j = TN_IAC -> aget (rxb lp) (j + 1) = TN_IAC ->
  0 <= j -> j + 1 < rxbpi lp ->
  rxbpi lp <= zlen (rxb lp) -> rxbpi lp <= zlen (rbr lp) ->
  zlen (rxb lp) <= INT32_MAX -> zlen (rbr lp) <= INT32_MAX ->
  let r := rx_filter 2 lp j in
  snd r = j + 1 /\ tsta (fst r) = TNS_NORM /\ dstb (fst r) = dstb lp /\
  rxbpi (fst r) = rxbpi lp - 1 /\
  aget (rxb (fst r)) j = TN_IAC /\ aget (rbr (fst r)) j = aget (rbr lp) (j + 1) /\
  (forall k, 0 <= k < j -> aget (rxb (fst r)) k = aget (rxb lp) k) /\
  (forall k, j < k < rxbpi lp - 1 ->
             aget (rxb (fst r)) k = aget (rxb lp) (k + 1)).
Proof.
  intros Hs H1 H2 Hj Hpi Hlb Hlr Hmb Hmr. cbv zeta.
  cbn [rx_filter]. rewrite (ltb_true j (rxbpi lp)) by lia.
  rewrite rx_step_norm_iac by assumption.
  destruct (rmvrc_spec (set_tsta TNS_IAC lp) j)
    as (A1 & _ & _ & A4 & A5 & A6 & A7);
    try (cbn [rxbpi rxb rbr set_tsta]; assumption || lia).
  cbv zeta in A1, A4, A5, A6, A7.
  cbn [rxbpi rxb rbr tsta dstb set_tsta] in A1, A4, A5, A6, A7.
  revert A1 A4 A5 A6 A7. generalize (tmxr_rmvrc (set_tsta TNS_IAC lp) j).
  intros lp1 A1 A4 A5 A6 A7.
  rewrite (ltb_true j (rxbpi lp1)) by lia.
  assert (Hc : aget (rxb lp1) j = TN_IAC).
  { rewrite A6 by lia.
    rewrite (leb_true j j), (ltb_true j (rxbpi lp)) by lia. exact H2. }
  rewrite rx_step_iac_iac by assumption. cbn [fst snd].
  cbn [tsta dstb rxbpi rxb rbr set_tsta]. unfold INT32_MAX in *.
  split; [int32; reflexivity |]. split; [reflexivity |].
  split; [exact A5 |]. split; [exact A1 |]. split; [exact Hc |].
  split.
  { rewrite A7 by lia.
    rewrite (leb_true j j), (ltb_true j (rxbpi lp)) by lia. reflexivity. }
  split.
  - intros k Hk. rewrite A6 by lia. rewrite (leb_false j k) by lia.
    reflexivity.
  - intros k Hk. rewrite A6 by lia.
    rewrite (leb_true j k), (ltb_true k (rxbpi lp)) by lia. reflexivity.
Qed.

(** ** Closing the master socket *)

Lemma reset_ln_fields (lp : TMLN) (tr : list Event) :
  let lp' := fst (tmxr_reset_ln net lp tr) in
  conn lp' = 0 /\ tsta lp' = 0 /\ rxbpi lp' = 0 /\ rxbpr lp' = 0 /\
  xmte lp' = 1 /\ dstb lp' = 0 /\ rxcnt lp' = rxcnt lp /\
  txbfd lp' = txbfd lp /\ txbsz lp' = txbsz lp.
Proof.
  cbv zeta. rewrite reset_ln_run. cbv zeta. cbn [fst].
  match goal with
  | |- context [tmxr_send_buffered_data net lp ?t] =>
      pose proof (send_buffered_data_tx_only lp t) as Hto;
      revert Hto; generalize (tmxr_send_buffered_data net lp t)
  end.
  intros [[n lp1] tr1] Hto. cbn [fst snd] in *.
  assert (H1 : rxcnt lp1 = rxcnt lp) by apply Hto.
  assert (H2 : txbfd lp1 = txbfd lp) by apply Hto.
  assert (H3 : txbsz lp1 = txbsz lp) by apply Hto.
  destruct (negb (nz (txbfd lp1))); cbn; auto 10.
Qed.

Lemma close_line_closed (lp : TMLN) (tr : list Event) :
  closed_line lp (fst (close_line net lp tr)).
Proof.
  unfold close_line, closed_line.
  destruct (Z.eq_dec (conn lp) 0) as [E | N].
  - rewrite E. cbn [nz Z.eqb negb ret fst]. rewrite E.
    split; [reflexivity |]. split; [reflexivity | intros H; contradiction].
  - rewrite (proj2 (nz_true (conn lp)) N). unfold bind, tmxr_linemsg.
    pose proof (linemsg_loop_tx_only
                  (cstr (crlf ++ "Disconnected from the ")) lp tr) as H1.
    destruct (linemsg_loop lp _ tr) as [lp1 tr1]. cbn [fst] in H1.
    pose proof (linemsg_loop_tx_only (cstr sim_name) lp1 tr1) as H2.
    destruct (linemsg_loop lp1 _ tr1) as [lp2 tr2]. cbn [fst] in H2.
    pose proof (linemsg_loop_tx_only
                  (cstr (" simulator" ++ crlf ++ lf)) lp2 tr2) as H3.
    destruct (linemsg_loop lp2 _ tr2) as [lp3 tr3]. cbn [fst] in H3.
    pose proof (tx_only_trans _ _ _ (tx_only_trans _ _ _ H1 H2) H3) as H.
    destruct (reset_ln_fields lp3 tr3)
      as (R1 & R2 & R3 & R4 & R5 & R6 & R7 & R8 & R9).
    cbv zeta in R1, R2, R3, R4, R5, R6, R7, R8, R9.
    split; [exact R1 |]. split; [intros E; contradiction |]. intros _.
    split; [exact R2 |]. split; [exact R3 |]. split; [exact R4 |].
    split; [exact R5 |]. split; [exact R6 |].
    destruct H as (_ & _ & _ & _ & _ & _ & _ & _ & Hrc & Hsz & Hfd & _).
    split; [congruence |]. split; congruence.
Qed.

(** X17: [tmxr_close_master] leaves no line of the multiplexor
    connected.  Every line that had a connection is reset: Telnet state
    and receive pointers zero, transmission enabled, [dstb] clear, its
    receive count kept; a line without a connection is left exactly as
    it was.  The master socket is closed last and [master] is zero, the
    result is ok, and nothing else in the descriptor changes. *)
Theorem close_master_disconnects (mp : TMXR) (tr : list Event) :
  0 <= lines mp <= zlen_lines mp -> zlen_lines mp <= INT32_MAX ->
  let r := tmxr_close_master net mp tr in
  let mp' := snd (fst r) in
  fst (fst r) = SCPE_OK /\ master mp' = 0 /\
  lines mp' = lines mp /\ lnorder mp' = lnorder mp /\
  buffered mp' = buffered mp /\ zlen_lines mp' = zlen_lines mp /\
  (exists tr', snd r = EvClose (master mp) 1 :: tr') /\
  (forall k, 0 <= k < lines mp ->
     conn (get_line mp' k) = 0 /\
     (conn (get_line mp k) = 0 -> get_line mp' k = get_line mp k) /\
     (conn (get_line mp k) <> 0 ->
      tsta (get_line mp' k) = 0 /\ rxbpi (get_line mp' k) = 0 /\
      rxbpr (get_line mp' k) = 0 /\ xmte (get_line mp' k) = 1 /\
      dstb (get_line mp' k) = 0 /\
      rxcnt (get_line mp' k) = rxcnt (get_line mp k))) /\
  (forall k, lines mp <= k -> get_line mp' k = get_line mp k).
Proof.
  intros Hl Hmax. cbv zeta. unfold tmxr_close_master, bind, sim_close_sock, ret.
  destruct (for_lines_each closed_line (close_line net) close_line_closed
              (Z.to_nat (lines mp)) 0 mp tr) as [Hin Hout]; try lia.
  pose proof (for_lines_rel (fun _ _ => True) (close_line net)
                (fun _ => I) (fun _ _ _ _ _ => I) (fun _ _ => I)
                (Z.to_nat (lines mp)) 0 mp tr) as [Hsame _].
  revert Hin Hout Hsame.
  generalize (for_lines (close_line net) (Z.to_nat (lines mp)) 0 mp tr).
  intros [mp1 tr1] Hin Hout Hsame. cbn [fst snd] in *.
  destruct Hsame as (S1 & S2 & S3 & S4 & S5 & S6 & S7).
  split; [reflexivity |]. split; [reflexivity |].
  cbn [lines lnorder buffered set_master].
  split; [exact S1 |]. split; [exact S4 |]. split; [exact S6 |].
  split; [unfold zlen_lines; cbn [ldsc set_master]; now rewrite S7 |].
  split; [rewrite S3; eauto |].
  split.
  - intros k Hk. destruct (Hin k ltac:(lia)) as (C1 & C2 & C3).
    change (get_line (set_master 0 mp1) k) with (get_line mp1 k).
    split; [exact C1 |]. split; [exact C2 |].
    intros Hc. destruct (C3 Hc) as (D1 & D2 & D3 & D4 & D5 & D6 & _).
    auto 10.
  - intros k Hk. change (get_line (set_master 0 mp1) k) with (get_line mp1 k).
    apply Hout. lia.
Qed.

Lemma linemsg_loop_app (a b : list Z) (lp : TMLN) (tr : list Event) :
  linemsg_loop lp (a ++ b) tr =
  linemsg_loop (fst (linemsg_loop lp a tr)) b (snd (linemsg_loop lp a tr)).
Proof.
  revert lp tr. induction a as [| c t IH]; intros lp tr; [reflexivity |].
  cbn [app linemsg_loop]. unfold bind.
  destruct (tmxr_putc_ln lp c tr) as [[st lp1] tr1]. cbn [snd]. apply IH.
Qed.

(** X18: the farewell.  A connected line with room in its ring for the
    three parts of the message, and a peer that takes what it is
    offered, is sent what it had queued followed by the message, in
    order and complete, before its socket is closed; the close of the
    socket is the last thing that happens to it. *)
Theorem close_line_farewell (lp : TMLN) (tr : list Event) :
  accepts_all net -> SOCKET_ERROR < 0 ->
  conn lp <> 0 -> tx_ok lp ->
  let msg := cstr (crlf ++ "Disconnected from the ") ++ cstr sim_name
             ++ cstr (" simulator" ++ crlf ++ lf) in
  counter_ok (txdrp lp) (2 * zlen msg) ->
  zlen (flat_map stuffed msg) <= tx_free lp ->
  let r := close_line net lp tr in
  sent (conn lp) (snd r)
  = sent (conn lp) tr ++ tx_queue lp ++ flat_map stuffed msg /\
  (exists tr', snd r = EvClose (conn lp) 0 :: tr') /\
  conn (fst r) = 0.
Proof.
  intros Hnet Herr Hc Hok msg Hdrp Hroom. cbv zeta.
  unfold close_line. rewrite (proj2 (nz_true (conn lp)) Hc).
  unfold bind, tmxr_linemsg.
  destruct (linemsg_loop_stores msg lp tr (or_intror (conj Hc Hroom)) Hok Hdrp)
    as (Hok3 & Hqu3 & _ & _ & Hs3).
  cbv zeta in Hok3, Hqu3, Hs3.
  pose proof (linemsg_loop_tx_only msg lp tr) as Hto3.
  rewrite lastn_all in Hqu3.
  2: { pose proof (tx_queue_length lp Hok) as Hl.
       rewrite length_app. unfold tx_free, zlen in *. lia. }
  revert Hok3 Hqu3 Hs3 Hto3. unfold msg at 1 2 3 4 5.
  intros Hok3 Hqu3 Hs3 Hto3.
  rewrite !linemsg_loop_app in Hok3, Hqu3, Hs3, Hto3.
  destruct (linemsg_loop lp (cstr (crlf ++ "Disconnected from the ")) tr)
    as [lp1 tr1]. cbn [fst snd] in *.
  destruct (linemsg_loop lp1 (cstr sim_name) tr1) as [lp2 tr2].
  cbn [fst snd] in *.
  destruct (linemsg_loop lp2 (cstr (" simulator" ++ crlf ++ lf)) tr2)
    as [lp3 tr3]. cbn [fst snd] in *.
  assert (Hc3 : conn lp3 = conn lp) by apply Hto3.
  rewrite reset_ln_run. cbv zeta. cbn [fst snd].
  assert (Hfl : forall t0, sent (conn lp) t0 = sent (conn lp) tr3 ->
            sent (conn lp) (snd (tmxr_send_buffered_data net lp3 t0))
            = sent (conn lp) tr3 ++ tx_queue lp3).
  { intros t0 Ht0.
    destruct (send_buffered_data_all lp3 t0 Hok3 Hnet Herr) as (Hs & _).
    rewrite Hc3 in Hs. now rewrite Hs, Ht0. }
  pose proof (send_buffered_data_tx_only lp3
                match txlog lp3 with
                | Some f => EvFflush f :: tr3
                | None => tr3
                end) as Hto4.
  specialize (Hfl match txlog lp3 with
                  | Some f => EvFflush f :: tr3
                  | None => tr3
                  end ltac:(destruct (txlog lp3); reflexivity)).
  revert Hfl Hto4.
  generalize (tmxr_send_buffered_data net lp3
                match txlog lp3 with
                | Some f => EvFflush f :: tr3
                | None => tr3
                end).
  intros [[n lp4] tr4] Hfl Hto4. cbn [fst snd] in *.
  assert (Hc4 : conn lp4 = conn lp) by (rewrite <- Hc3; apply Hto4).
  split; [| split].
  - cbn [sent]. rewrite Hfl, Hs3, Hqu3. reflexivity.
  - rewrite Hc4. eauto.
  - destruct (negb (nz (txbfd lp4))); reflexivity.
Qed.

Lemma reset_ln_txlog (lp : TMLN) (tr : list Event) :
  txlog (fst (tmxr_reset_ln net lp tr)) = txlog lp.
Proof.
  rewrite reset_ln_run. cbv zeta. cbn [fst].
  match goal with
  | |- context [tmxr_send_buffered_data net lp ?t] =>
      pose proof (send_buffered_data_tx_only lp t) as Hto;
      revert Hto; generalize (tmxr_send_buffered_data net lp t)
  end.
  intros [[n lp1] tr1] Hto. cbn [fst snd] in *.
  assert (H : txlog lp1 = txlog lp) by apply Hto.
  destruct (negb (nz (txbfd lp1))); cbn; exact H.
Qed.

(** X25: a line that has been reset is dead until the next accept.  On
    an unbuffered line without a log every character given to
    [tmxr_putc_ln] after [tmxr_reset_ln] is reported lost and counted as
    dropped, nothing being queued or written; and [tmxr_getc_ln] returns
    0, whatever was waiting in the receive buffer before the reset. *)
Theorem reset_then_io (lp : TMLN) (chr : Z) (tr : list Event) :
  txbfd lp = 0 -> txlog lp = None ->
  let r := tmxr_reset_ln net lp tr in
  let p := tmxr_putc_ln (fst r) chr (snd r) in
  fst (fst p) = SCPE_LOST /\
  snd p = snd r /\
  tx_queue (snd (fst p)) = [] /\
  txdrp (snd (fst p)) = add32 (txdrp lp) 1 /\
  fst (tmxr_getc_ln (fst r)) = 0.
Proof.
  intros Hfd Hlog. cbv zeta.
  destruct (reset_ln_fields lp tr)
    as (R1 & _ & R3 & R4 & _ & _ & _ & R8 & _).
  cbv zeta in R1, R3, R4, R8.
  pose proof (reset_ln_txlog lp tr) as Rl.
  assert (Rq : tx_queue (fst (tmxr_reset_ln net lp tr)) = [] /\
               txdrp (fst (tmxr_reset_ln net lp tr)) = txdrp lp).
  { rewrite reset_ln_run. cbv zeta. cbn [fst].
    match goal with
    | |- context [tmxr_send_buffered_data net lp ?t] =>
        pose proof (send_buffered_data_drain_only lp t) as Hd;
        revert Hd; generalize (tmxr_send_buffered_data net lp t)
    end.
    intros [[n lp1] tr1] Hd. cbn [fst snd] in *.
    destruct Hd as (Hto & _ & Hdrp & _).
    assert (H : txbfd lp1 = txbfd lp) by apply Hto.
    rewrite H, Hfd. cbn [nz Z.eqb negb]. split; [reflexivity | exact Hdrp]. }
  destruct Rq as [Rq Rd].
  revert R1 R3 R4 R8 Rl Rq Rd.
  generalize (tmxr_reset_ln net lp tr). intros [lp' tr'] R1 R3 R4 R8 Rl Rq Rd.
  cbn [fst snd] in *.
  unfold tmxr_putc_ln, bind, ret.
  rewrite Rl, Hlog, R1, R8, Hfd. cbn [Z.eqb nz negb andb fst snd].
  split; [reflexivity |]. split; [reflexivity |].
  split; [exact Rq |]. split; [now rewrite Rd |].
  unfold tmxr_getc_ln. rewrite R1. cbn [nz Z.eqb negb andb].
  rewrite R3, R4. reflexivity.
Qed.

(** * File I/O: byte order *)

Lemma swap_bytes_length (buf : list Z) (s t : Z) :
  List.length (swap_bytes buf s t) = List.length buf.
Proof. unfold swap_bytes. now rewrite !aset_length. Qed.

Lemma swap_bytes_get (buf : list Z) (s t q : Z) :
  0 <= s < zlen buf -> 0 <= t < zlen buf -> 0 <= q ->
  aget (swap_bytes buf s t) q =
  if q =? t then aget buf s else if q =? s then aget buf t else aget buf q.
Proof.
  intros Hs Ht Hq. unfold swap_bytes, zlen in *.
  rewrite aget_aset by (rewrite ?aset_length; lia).
  destruct (Z.eqb_spec q t); [reflexivity |].
  rewrite aget_aset by lia. reflexivity.
Qed.

(** After [n] passes that started with [t] bytes done at either end, the
    [n] bytes at either end of what was left have changed places. *)
Lemma swap_loop_spec (size d : Z) (n : nat) :
  forall (t : Z) (buf : list Z),
    0 <= d -> 0 <= t -> 2 * (t + Z.of_nat n) <= size -> size <= INT32_MAX ->
    d + size <= zlen buf ->
    let b := swap_loop n buf d (d + t) (size - 1 - t) in
    zlen b = zlen buf /\
    forall q, 0 <= q ->
      aget b q =
      if ((d + t <=? q) && (q <? d + t + Z.of_nat n))
         || ((d + size - t - Z.of_nat n <=? q) && (q <? d + size - t))
      then aget buf (2 * d + size - 1 - q) else aget buf q.
Proof.
  induction n as [| n IH]; intros t buf Hd Ht Hn Hmax Hlen; cbv zeta.
  - cbn [swap_loop]. split; [reflexivity |]. intros q Hq.
    zcases; cbn [andb orb]; try reflexivity; lia.
  - cbn [swap_loop]. unfold INT32_MAX in *.
    replace (sub32 (size - 1 - t) 1) with (size - 1 - (t + 1))
      by (int32; lia).
    replace (d + t + 1) with (d + (t + 1)) by lia.
    destruct (IH (t + 1) (swap_bytes buf (d + t) (d + (size - 1 - t))))
      as (Hl & Hg); try lia.
    { unfold zlen. rewrite swap_bytes_length. exact Hlen. }
    cbv zeta in Hl, Hg.
    split; [rewrite Hl; unfold zlen; now rewrite swap_bytes_length |].
    intros q Hq. rewrite Hg by assumption.
    destruct (Z.leb_spec (d + (t + 1)) q);
      destruct (Z.ltb_spec q (d + (t + 1) + Z.of_nat n));
      destruct (Z.leb_spec (d + size - (t + 1) - Z.of_nat n) q);
      destruct (Z.ltb_spec q (d + size - (t + 1)));
      cbn [andb orb]; rewrite swap_bytes_get by lia;
      zcases; cbn [andb orb]; try reflexivity; try lia; f_equal; lia.
Qed.

(** One item reversed end for end. *)
Lemma swap_item_spec (size d : Z) (buf : list Z) :
  0 <= d -> 1 <= size < INT32_MAX -> d + size <= zlen buf ->
  let k := wrap32 (size - 1) in
  let lim := Z.quot (add32 (wrap32 size) 1) 2 in
  let b := swap_loop (Z.to_nat (k - lim + 1)) buf d d k in
  zlen b = zlen buf /\
  forall q, 0 <= q ->
    aget b q = if (d <=? q) && (q <? d + size)
               then aget buf (2 * d + size - 1 - q) else aget buf q.
Proof.
  intros Hd Hsz Hlen. cbv zeta. unfold INT32_MAX in *.
  replace (wrap32 (size - 1)) with (size - 1) by (symmetry; apply wrap32_id; lia).
  replace (wrap32 size) with size by (symmetry; apply wrap32_id; lia).
  replace (add32 size 1) with (size + 1) by (int32; reflexivity).
  rewrite Z.quot_div_nonneg by lia.
  pose proof (Z.div_mod (size + 1) 2 ltac:(lia)) as Hdm.
  pose proof (Z.mod_pos_bound (size + 1) 2 ltac:(lia)) as Hmb.
  set (h := (size + 1) / 2) in *.
  destruct (swap_loop_spec size d (Z.to_nat (size - 1 - h + 1)) 0 buf)
    as (Hl & Hg); unfold INT32_MAX; try lia.
  cbv zeta in Hl, Hg.
  replace (d + 0) with d in Hl, Hg by lia.
  replace (size - 1 - 0) with (size - 1) in Hl, Hg by lia.
  split; [exact Hl |]. intros q Hq. rewrite Hg by assumption.
  zcases; cbn [andb orb]; try reflexivity; try lia; f_equal; lia.
Qed.

(** The items from offset [d] on, [n] of them, each reversed. *)
Lemma swap_items_spec (size : Z) (n : nat) :
  forall (buf : list Z) (d : Z),
    0 <= d -> 1 <= size < INT32_MAX -> d + Z.of_nat n * size <= zlen buf ->
    let b := swap_items n size buf d in
    zlen b = zlen buf /\
    (forall j p, 0 <= j < Z.of_nat n -> 0 <= p < size ->
       aget b (d + j * size + p) = aget buf (d + j * size + (size - 1 - p))) /\
    (forall q, 0 <= q -> q < d \/ d + Z.of_nat n * size <= q ->
       aget b q = aget buf q).
Proof.
  induction n as [| n IH]; intros buf d Hd Hsz Hlen; cbv zeta.
  - cbn [swap_items]. split; [reflexivity |].
    split; [intros j p Hj; lia | reflexivity].
  - cbn [swap_items].
    assert (Hn : Z.of_nat (S n) * size = size + Z.of_nat n * size) by lia.
    assert (Hnn : 0 <= Z.of_nat n * size) by nia.
    destruct (swap_item_spec size d buf Hd Hsz ltac:(lia)) as (Hl1 & Hg1).
    cbv zeta in Hl1, Hg1.
    revert Hl1 Hg1.
    generalize (swap_loop
                  (Z.to_nat (wrap32 (size - 1)
                             - Z.quot (add32 (wrap32 size) 1) 2 + 1))
                  buf d d (wrap32 (size - 1))).
    intros b1 Hl1 Hg1.
    destruct (IH b1 (d + size)) as (Hl2 & Hin & Hout); try lia.
    cbv zeta in Hl2, Hin, Hout.
    split; [congruence |]. split.
    + intros j p Hj Hp. destruct (Z.eq_dec j 0) as [-> | Hj0].
      * rewrite Hout by lia. rewrite Hg1 by lia.
        rewrite (leb_true d (d + 0 * size + p)),
          (ltb_true (d + 0 * size + p) (d + size)) by lia.
        cbn [andb]. f_equal. lia.
      * assert (Hjs : j * size = size + (j - 1) * size) by lia.
        assert (Hj1 : 0 <= (j - 1) * size) by nia.
        replace (d + j * size + p) with (d + size + (j - 1) * size + p)
          by lia.
        rewrite Hin by lia. rewrite Hg1 by lia.
        rewrite (ltb_false (d + size + (j - 1) * size + (size - 1 - p))
                   (d + size)) by lia.
        rewrite andb_false_r. f_equal. lia.
    + intros q Hq Hr. rewrite Hout by lia. rewrite Hg1 by lia.
      destruct Hr as [Hr | Hr].
      * rewrite (leb_false d q) by lia. reflexivity.
      * rewrite (ltb_false q (d + size)) by lia.
        now rewrite andb_false_r.
Qed.

Lemma copy_loop_spec (size d : Z) (sbuf : list Z) (n : nat) :
  forall (t s : Z) (dbuf : list Z),
    0 <= d -> 0 <= t -> t + Z.of_nat n <= size -> size <= INT32_MAX ->
    d + size <= zlen dbuf ->
    let r := copy_loop n dbuf sbuf d s (size - 1 - t) in
    snd r = s + Z.of_nat n /\ zlen (fst r) = zlen dbuf /\
    forall q, 0 <= q ->
      aget (fst r) q =
      if (d + size - t - Z.of_nat n <=? q) && (q <? d + size - t)
      then aget sbuf (s + (d + size - 1 - t - q)) else aget dbuf q.
Proof.
  induction n as [| n IH]; intros t s dbuf Hd Ht Hn Hmax Hlen; cbv zeta.
  - cbn [copy_loop fst snd]. split; [lia |]. split; [reflexivity |].
    intros q Hq. zcases; cbn [andb]; try reflexivity; lia.
  - cbn [copy_loop]. unfold INT32_MAX in *.
    replace (sub32 (size - 1 - t) 1) with (size - 1 - (t + 1))
      by (int32; lia).
    destruct (IH (t + 1) (s + 1)
                (aset dbuf (d + (size - 1 - t)) (aget sbuf s)))
      as (Hs & Hl & Hg); try lia.
    { unfold zlen. rewrite aset_length. exact Hlen. }
    cbv zeta in Hs, Hl, Hg.
    split; [lia |].
    split; [rewrite Hl; unfold zlen; now rewrite aset_length |].
    intros q Hq. rewrite Hg by assumption. unfold zlen in Hlen.
    rewrite aget_aset by lia.
    zcases; cbn [andb]; try reflexivity; try lia; f_equal; lia.
Qed.

Lemma copy_items_spec (size : Z) (sbuf : list Z) (n : nat) :
  forall (dbuf : list Z) (d s : Z),
    0 <= d -> 1 <= size < INT32_MAX -> d + Z.of_nat n * size <= zlen dbuf ->
    let b := copy_items n size dbuf sbuf d s in
    zlen b = zlen dbuf /\
    (forall j p, 0 <= j < Z.of_nat n -> 0 <= p < size ->
       aget b (d + j * size + p) = aget sbuf (s + j * size + (size - 1 - p))) /\
    (forall q, 0 <= q -> q < d \/ d + Z.of_nat n * size <= q ->
       aget b q = aget dbuf q).
Proof.
  induction n as [| n IH]; intros dbuf d s Hd Hsz Hlen; cbv zeta.
  - cbn [copy_items]. split; [reflexivity |].
    split; [intros j p Hj; lia | reflexivity].
  - cbn [copy_items]. unfold INT32_MAX in *.
    replace (wrap32 (size - 1)) with (size - 1)
      by (symmetry; apply wrap32_id; lia).
    assert (Hn : Z.of_nat (S n) * size = size + Z.of_nat n * size) by lia.
    assert (Hnn : 0 <= Z.of_nat n * size) by nia.
    destruct (copy_loop_spec size d sbuf (Z.to_nat (size - 1 + 1)) 0 s dbuf)
      as (Hs1 & Hl1 & Hg1); unfold INT32_MAX; try lia.
    cbv zeta in Hs1, Hl1, Hg1.
    replace (size - 1 - 0) with (size - 1) in Hs1, Hl1, Hg1 by lia.
    destruct (copy_loop (Z.to_nat (size - 1 + 1)) dbuf sbuf d s (size - 1))
      as [b1 s1]. cbn [fst snd] in Hs1, Hl1, Hg1.
    destruct (IH b1 (d + size) s1) as (Hl2 & Hin & Hout);
      unfold INT32_MAX; try lia.
    cbv zeta in Hl2, Hin, Hout.
    split; [congruence |]. split.
    + intros j p Hj Hp. destruct (Z.eq_dec j 0) as [-> | Hj0].
      * rewrite Hout by lia. rewrite Hg1 by lia.
        rewrite (leb_true _ (d + 0 * size + p)),
          (ltb_true (d + 0 * size + p) _) by lia.
        cbn [andb]. f_equal. lia.
      * assert (Hjs : j * size = size + (j - 1) * size) by lia.
        assert (Hj1 : 0 <= (j - 1) * size) by nia.
        replace (d + j * size + p) with (d + size + (j - 1) * size + p)
          by lia.
        rewrite Hin by lia. f_equal. lia.
    + intros q Hq Hr. rewrite Hout by lia. rewrite Hg1 by lia.
      destruct Hr as [Hr | Hr].
      * rewrite (leb_false _ q) by lia. reflexivity.
      * rewrite (ltb_false q _) by lia. now rewrite andb_false_r.
Qed.

Lemma memcpy_spec (sbuf : list Z) (n : nat) :
  forall (dbuf : list Z) (i : Z),
    0 <= i -> i + Z.of_nat n <= zlen dbuf ->
    zlen (memcpy n dbuf sbuf i) = zlen dbuf /\
    forall q, 0 <= q ->
      aget (memcpy n dbuf sbuf i) q =
      if (i <=? q) && (q <? i + Z.of_nat n) then aget sbuf q else aget dbuf q.
Proof.
  induction n as [| n IH]; intros dbuf i Hi Hlen.
  - cbn [memcpy]. split; [reflexivity |]. intros q Hq.
    zcases; cbn [andb]; try reflexivity; lia.
  - cbn [memcpy].
    destruct (IH (aset dbuf i (aget sbuf i)) (i + 1)) as (Hl & Hg);
      [lia | unfold zlen in *; rewrite aset_length; lia |].
    split; [rewrite Hl; unfold zlen; now rewrite aset_length |].
    intros q Hq. rewrite Hg by assumption. unfold zlen in Hlen.
    rewrite aget_aset by lia.
    zcases; cbn [andb]; try reflexivity; try lia; f_equal; lia.
Qed.

Lemma list_eq_aget (a b : list Z) :
  zlen a = zlen b ->
  (forall q, 0 <= q < zlen a -> aget a q = aget b q) -> a = b.
Proof.
  intros Hl Hg. unfold zlen in *.
  apply nth_ext with (d := 0) (d' := 0); [lia |].
  intros k Hk. specialize (Hg (Z.of_nat k) ltac:(lia)).
  unfold aget in Hg. now rewrite Nat2Z.id in Hg.
Qed.

Lemma item_offset (size q : Z) :
  1 <= size -> 0 <= q ->
  q = q / size * size + q mod size /\ 0 <= q mod size < size /\ 0 <= q / size.
Proof.
  intros Hs Hq. pose proof (Z.div_mod q size ltac:(lia)).
  pose proof (Z.mod_pos_bound q size ltac:(lia)).
  pose proof (Z.div_pos q size Hq ltac:(lia)). lia.
Qed.

Lemma swap_data_get (buf : list Z) (size count : Z) :
  1 <= size < INT32_MAX -> 0 <= count -> size * count <= zlen buf ->
  let b := sim_buf_swap_data 0 buf size count in
  zlen b = zlen buf /\
  (forall j p, 0 <= j < count -> 0 <= p < size ->
     aget b (j * size + p) = aget buf (j * size + (size - 1 - p))) /\
  (forall q, size * count <= q -> aget b q = aget buf q).
Proof.
  intros Hsz Hc Hlen. cbv zeta. unfold sim_buf_swap_data.
  cbn [nz Z.eqb negb orb].
  destruct (Z.eqb_spec count 0) as [-> | Hc0]; cbn [orb].
  { split; [reflexivity |]. split; [intros j p Hj; lia | reflexivity]. }
  destruct (Z.eqb_spec size 1) as [-> | Hs1].
  { split; [reflexivity |]. split; [| reflexivity].
    intros j p Hj Hp. f_equal. lia. }
  destruct (swap_items_spec size (Z.to_nat count) buf 0) as (Hl & Hin & Hout);
    try lia.
  cbv zeta in Hl, Hin, Hout.
  split; [exact Hl |]. split.
  - intros j p Hj Hp. apply (Hin j p); lia.
  - intros q Hq. assert (0 <= size * count) by nia. apply Hout; lia.
Qed.

(** X20: on a big endian host ([sim_end] zero) [sim_buf_swap_data]
    reverses each of the [count] items of [size] bytes end for end, in
    place: byte [p] of item [j] is afterwards what byte [size - 1 - p]
    of that item was.  The length of the buffer and the bytes behind the
    last item are unchanged.  On a little endian host the buffer is
    left as it is. *)
Theorem swap_data_reverses (sim_end : Z) (buf : list Z) (size count : Z) :
  1 <= size < INT32_MAX -> 0 <= count -> size * count <= zlen buf ->
  let b := sim_buf_swap_data sim_end buf size count in
  zlen b = zlen buf /\
  (sim_end <> 0 -> b = buf) /\
  (sim_end = 0 ->
   (forall j p, 0 <= j < count -> 0 <= p < size ->
      aget b (j * size + p) = aget buf (j * size + (size - 1 - p))) /\
   (forall q, size * count <= q -> aget b q = aget buf q)).
Proof.
  intros Hsz Hc Hlen. cbv zeta.
  destruct (Z.eq_dec sim_end 0) as [-> | Hne].
  - destruct (swap_data_get buf size count Hsz Hc Hlen) as (H1 & H2 & H3).
    split; [exact H1 |]. split; [intros H; contradiction |].
    intros _. split; assumption.
  - unfold sim_buf_swap_data. rewrite (proj2 (nz_true sim_end) Hne).
    cbn [orb]. split; [reflexivity |]. split; [reflexivity |].
    intros H; contradiction.
Qed.

(** X21: swapping twice gives the buffer back, whatever the byte order
    of the host. *)
Theorem swap_data_involution (sim_end : Z) (buf : list Z) (size count : Z) :
  1 <= size < INT32_MAX -> 0 <= count -> size * count <= zlen buf ->
  sim_buf_swap_data sim_end (sim_buf_swap_data sim_end buf size count)
    size count = buf.
Proof.
  intros Hsz Hc Hlen.
  destruct (Z.eq_dec sim_end 0) as [-> | Hne].
  - destruct (swap_data_get buf size count Hsz Hc Hlen) as (H1 & H2 & H3).
    cbv zeta in H1, H2, H3.
    destruct (swap_data_get (sim_buf_swap_data 0 buf size count) size count
                Hsz Hc ltac:(lia)) as (G1 & G2 & G3).
    cbv zeta in G1, G2, G3.
    apply list_eq_aget; [lia |].
    intros q Hq. rewrite G1, H1 in Hq.
    destruct (Z.lt_ge_cases q (size * count)) as [Hlt | Hge].
    + destruct (item_offset size q ltac:(lia) ltac:(lia)) as (Eq & Hp & Hj).
      assert (Hjc : q / size < count) by nia.
      rewrite Eq. rewrite G2 by lia. rewrite H2 by lia. f_equal. lia.
    + rewrite G3, H3 by lia. reflexivity.
  - unfold sim_buf_swap_data. rewrite (proj2 (nz_true sim_end) Hne).
    reflexivity.
Qed.

Lemma copy_swapped_get (dbuf sbuf : list Z) (size count : Z) :
  1 <= size < INT32_MAX -> 0 <= count -> size * count <= zlen dbuf ->
  let b := sim_buf_copy_swapped 0 dbuf sbuf size count in
  zlen b = zlen dbuf /\
  (forall j p, 0 <= j < count -> 0 <= p < size ->
     aget b (j * size + p) = aget sbuf (j * size + (size - 1 - p))) /\
  (forall q, size * count <= q -> aget b q = aget dbuf q).
Proof.
  intros Hsz Hc Hlen. cbv zeta. unfold sim_buf_copy_swapped.
  cbn [nz Z.eqb negb orb].
  assert (Hnn : 0 <= size * count) by nia.
  destruct (Z.eqb_spec size 1) as [-> | Hs1].
  - destruct (memcpy_spec sbuf (Z.to_nat (1 * count)) dbuf 0) as (Hl & Hg);
      try lia.
    split; [exact Hl |]. split.
    + intros j p Hj Hp. rewrite Hg by lia.
      rewrite (leb_true 0 (j * 1 + p)),
        (ltb_true (j * 1 + p) (0 + Z.of_nat (Z.to_nat (1 * count)))) by lia.
      cbn [andb]. f_equal. lia.
    + intros q Hq. rewrite Hg by lia.
      rewrite (ltb_false q (0 + Z.of_nat (Z.to_nat (1 * count)))) by lia.
      now rewrite andb_false_r.
  - destruct (copy_items_spec size sbuf (Z.to_nat count) dbuf 0 0)
      as (Hl & Hin & Hout); try lia.
    cbv zeta in Hl, Hin, Hout.
    split; [exact Hl |]. split.
    + intros j p Hj Hp. apply (Hin j p); lia.
    + intros q Hq. apply Hout; lia.
Qed.

(** X22: what [sim_buf_copy_swapped] writes, [sim_buf_swap_data] reads
    back.  On a big endian host the copy holds each item of the source
    reversed end for end, and swapping the copy in place restores the
    source, byte for byte, over the [count] items; on a little endian
    host the copy is plain and the swap does nothing.  Either way the
    destination is untouched behind the last item. *)
Theorem copy_swapped_round_trip
  (sim_end : Z) (dbuf sbuf : list Z) (size count : Z) :
  1 <= size < INT32_MAX -> 0 <= count -> size * count <= zlen dbuf ->
  let c := sim_buf_copy_swapped sim_end dbuf sbuf size count in
  let b := sim_buf_swap_data sim_end c size count in
  zlen c = zlen dbuf /\ zlen b = zlen dbuf /\
  (forall j p, 0 <= j < count -> 0 <= p < size ->
     aget c (j * size + p)
     = aget sbuf (j * size + (if sim_end =? 0 then size - 1 - p else p))) /\
  (forall q, 0 <= q < size * count -> aget b q = aget sbuf q) /\
  (forall q, size * count <= q -> aget b q = aget dbuf q).
Proof.
  intros Hsz Hc Hlen. cbv zeta.
  assert (Hnn : 0 <= size * count) by nia.
  destruct (Z.eq_dec sim_end 0) as [-> | Hne].
  - destruct (copy_swapped_get dbuf sbuf size count Hsz Hc Hlen)
      as (H1 & H2 & H3).
    cbv zeta in H1, H2, H3.
    destruct (swap_data_get (sim_buf_copy_swapped 0 dbuf sbuf size count)
                size count Hsz Hc ltac:(lia)) as (G1 & G2 & G3).
    cbv zeta in G1, G2, G3.
    split; [exact H1 |]. split; [lia |]. split; [exact H2 |]. split.
    + intros q Hq.
      destruct (item_offset size q ltac:(lia) ltac:(lia)) as (Eq & Hp & Hj).
      assert (Hjc : q / size < count) by nia.
      rewrite Eq. rewrite G2 by lia. rewrite H2 by lia. f_equal. lia.
    + intros q Hq. rewrite G3, H3 by lia. reflexivity.
  - unfold sim_buf_swap_data, sim_buf_copy_swapped.
    rewrite (proj2 (nz_true sim_end) Hne). cbn [orb].
    rewrite (eqb_false sim_end 0) by assumption.
    destruct (memcpy_spec sbuf (Z.to_nat (size * count)) dbuf 0)
      as (Hl & Hg); try lia.
    split; [exact Hl |]. split; [exact Hl |]. split; [| split].
    + intros j p Hj Hp. assert (j * size + p < size * count) by nia.
      assert (0 <= j * size) by nia.
      rewrite Hg by lia.
      rewrite (leb_true 0 (j * size + p)),
        (ltb_true (j * size + p) (0 + Z.of_nat (Z.to_nat (size * count))))
        by lia.
      reflexivity.
    + intros q Hq. rewrite Hg by lia.
      rewrite (leb_true 0 q),
        (ltb_true q (0 + Z.of_nat (Z.to_nat (size * count)))) by lia.
      reflexivity.
    + intros q Hq. rewrite Hg by lia.
      rewrite (ltb_false q (0 + Z.of_nat (Z.to_nat (size * count)))) by lia.
      now rewrite andb_false_r.
Qed.

(** * Console: character conversion *)

Lemma land127_range (c : Z) : 0 <= Z.land c 127 <= 127.
Proof.
  assert (H : 0 <= Z.land c (Z.ones 7) <= 127).
  { rewrite Z.land_ones by lia.
    pose proof (Z.mod_pos_bound c (2 ^ 7)). lia. }
  exact H.
Qed.

Lemma land255_range (c : Z) : 0 <= Z.land c 255 <= 255.
Proof.
  assert (H : 0 <= Z.land c (Z.ones 8) <= 255).
  { rewrite Z.land_ones by lia.
    pose proof (Z.mod_pos_bound c (2 ^ 8)). lia. }
  exact H.
Qed.

(** Seven-bit values and the eighth bit. *)
Lemma seven_bits (x : Z) :
  0 <= x <= 127 ->
  Z.land x 127 = x /\ Z.lor x 128 = x + 128 /\ Z.land (x + 128) 127 = x.
Proof.
  intros Hx.
  assert (Hall : forallb
                   (fun k => (Z.land (Z.of_nat k) 127 =? Z.of_nat k)
                             && (Z.lor (Z.of_nat k) 128 =? Z.of_nat k + 128)
                             && (Z.land (Z.of_nat k + 128) 127 =? Z.of_nat k))
                   (seq 0 128) = true) by (vm_compute; reflexivity).
  rewrite forallb_forall in Hall.
  specialize (Hall (Z.to_nat x) ltac:(apply in_seq; lia)).
  rewrite Z2Nat.id in Hall by lia.
  apply andb_true_iff in Hall. destruct Hall as [Hall H3].
  apply andb_true_iff in Hall. destruct Hall as [H1 H2].
  apply Z.eqb_eq in H1, H2, H3. auto.
Qed.

Lemma toupper_range (x : Z) :
  0 <= x <= 127 ->
  0 <= toupper x <= 127 /\ islower (toupper x) = false.
Proof.
  intros Hx. unfold toupper, islower.
  destruct (Z.leb_spec 97 x); destruct (Z.leb_spec x 122); cbn [andb];
    (split; [lia |]);
    zcases; cbn [andb]; try reflexivity; lia.
Qed.

(** X23: input conversion.  [sim_tt_inpcvt] returns a value of eight
    bits at most.  In UC mode the low seven bits are never a lower case
    letter: the letter has been folded to upper case; with the KSR flag
    the eighth bit is set, without it the value has seven bits, as in
    every mode but 8B.  Converting a converted character again changes
    nothing. *)
Theorem inpcvt_folds (c mode : Z) :
  TTUF_MODE_UC <> TTUF_MODE_8B ->
  let md := Z.land mode TTUF_M_MODE in
  let r := sim_tt_inpcvt c mode in
  0 <= r <= 255 /\
  (md = TTUF_MODE_8B -> r = Z.land c 255) /\
  (md = TTUF_MODE_UC ->
   Z.land r 127 = toupper (Z.land c 127) /\
   islower (Z.land r 127) = false /\
   (Z.land mode TTUF_KSR <> 0 -> 128 <= r) /\
   (Z.land mode TTUF_KSR = 0 -> r <= 127)) /\
  (md <> TTUF_MODE_8B -> md <> TTUF_MODE_UC -> r = Z.land c 127) /\
  sim_tt_inpcvt r mode = r.
Proof.
  intros Hu8. cbv zeta. unfold sim_tt_inpcvt.
  pose proof (land127_range c) as H7. pose proof (land255_range c) as H8.
  destruct (Z.eqb_spec (Z.land mode TTUF_M_MODE) TTUF_MODE_8B) as [E8 | N8];
    cbn [negb].
  - split; [lia |]. split; [reflexivity |].
    split; [intros Eu; congruence |]. split; [intros H; contradiction |].
    rewrite <- Z.land_assoc. reflexivity.
  - destruct (Z.eqb_spec (Z.land mode TTUF_M_MODE) TTUF_MODE_UC) as [Eu | Nu].
    + assert (Hup : (if islower (Z.land c 127) then toupper (Z.land c 127)
                     else Z.land c 127) = toupper (Z.land c 127))
        by (unfold toupper; destruct (islower (Z.land c 127)); reflexivity).
      rewrite Hup.
      destruct (toupper_range (Z.land c 127) H7) as [Hr Hl].
      revert Hr Hl. generalize (toupper (Z.land c 127)). intros u Hr Hl.
      destruct (seven_bits u Hr) as (B1 & B2 & B3).
      unfold nz. destruct (Z.eqb_spec (Z.land mode TTUF_KSR) 0) as [Ek | Nk];
        cbn [negb].
      * split; [lia |]. split; [intros H; contradiction |].
        split; [intros _; rewrite B1; split; [reflexivity |];
                split; [exact Hl |]; split; [intros H; contradiction | lia] |].
        split; [intros _ H; contradiction |].
        rewrite B1, Hl. reflexivity.
      * rewrite B2. split; [lia |]. split; [intros H; contradiction |].
        split; [intros _; rewrite B3; split; [reflexivity |];
                split; [exact Hl |]; split; [lia | intros H; contradiction] |].
        split; [intros _ H; contradiction |].
        rewrite B3, Hl, B2. reflexivity.
    + split; [lia |]. split; [intros H; contradiction |].
      split; [intros H; contradiction |]. split; [reflexivity |].
      rewrite <- Z.land_assoc. reflexivity.
Qed.

(** X24: output conversion in the modes UC and 7P.  What
    [sim_tt_outcvt] lets through is a seven-bit character other than
    0x7F, and a control character only if its bit in the mask of
    printable characters is set; in UC mode it is the character folded
    to upper case, never a lower case letter, and with the KSR flag
    nothing from 0140 up.  Everything else is dropped. *)
Theorem outcvt_filters (pchar c mode : Z) :
  TTUF_MODE_UC <> TTUF_MODE_8B -> TTUF_MODE_7P <> TTUF_MODE_8B ->
  TTUF_MODE_7P <> TTUF_MODE_UC ->
  let md := Z.land mode TTUF_M_MODE in
  let r := sim_tt_outcvt pchar c mode in
  (md = TTUF_MODE_UC ->
   r = -1 \/
   (r = toupper (Z.land c 127) /\ 0 <= r < 127 /\ islower r = false /\
    (r < 32 -> Z.land (Z.shiftr pchar r) 1 <> 0) /\
    (Z.land mode TTUF_KSR <> 0 -> r < 96))) /\
  (md = TTUF_MODE_7P ->
   r = -1 \/
   (r = Z.land c 127 /\ 0 <= r < 127 /\
    (r < 32 -> Z.land (Z.shiftr pchar r) 1 <> 0))).
Proof.
  intros Hu8 Hp8 Hpu. cbv zeta. unfold sim_tt_outcvt.
  pose proof (land127_range c) as H7.
  split.
  - intros Eu. rewrite Eu. rewrite (eqb_false TTUF_MODE_UC TTUF_MODE_8B)
      by assumption. cbn [negb]. rewrite Z.eqb_refl. cbn [orb andb].
    assert (Hup : (if islower (Z.land c 127) then toupper (Z.land c 127)
                   else Z.land c 127) = toupper (Z.land c 127))
      by (unfold toupper; destruct (islower (Z.land c 127)); reflexivity).
    rewrite Hup.
    destruct (toupper_range (Z.land c 127) H7) as [Hr Hl].
    revert Hr Hl. generalize (toupper (Z.land c 127)). intros u Hr Hl.
    unfold nz.
    destruct (Z.eqb_spec (Z.land mode TTUF_KSR) 0) as [Ek | Nk];
      destruct (Z.leb_spec 96 u) as [H96 | H96]; cbn [negb andb];
      try (left; reflexivity);
      destruct (Z.eqb_spec u 127) as [E127 | N127]; cbn [orb];
      try (left; reflexivity);
      destruct (Z.ltb_spec u 32) as [H32 | H32]; cbn [andb];
      try (destruct (Z.eqb_spec (Z.land (Z.shiftr pchar u) 1) 0)
             as [Eb | Nb]; cbn [negb]; [left; reflexivity |]);
      right; (split; [reflexivity |]); (split; [lia |]);
      (split; [exact Hl |]); split; intros; try lia; try assumption;
      contradiction.
  - intros Ep. rewrite Ep. rewrite (eqb_false TTUF_MODE_7P TTUF_MODE_8B)
      by assumption. cbn [negb].
    destruct (Z.eqb_spec TTUF_MODE_7P TTUF_MODE_UC) as [Epu | Npu];
      [contradiction |].
    rewrite Z.eqb_refl. cbn [orb andb].
    destruct (Z.eqb_spec (Z.land c 127) 127) as [E127 | N127]; cbn [orb];
      [left; reflexivity |].
    destruct (Z.ltb_spec (Z.land c 127) 32) as [H32 | H32]; cbn [andb].
    + unfold nz.
      destruct (Z.eqb_spec (Z.land (Z.shiftr pchar (Z.land c 127)) 1) 0)
        as [Eb | Nb]; cbn [negb]; [left; reflexivity |].
      right. split; [reflexivity |]. split; [lia |].
      intros _. exact Nb.
    + right. split; [reflexivity |]. split; [lia |]. intros H; lia.
Qed.

End Properties.

(** * Instances

    The theorems above applied to the sample values: each hypothesis is
    met there, and where the code parts from a statement the values show
    it. *)

#[local] Existing Instance sample_defs.

(** Closed goals over the sample values are settled by evaluation. *)
Ltac evaluate :=
  first
    [ solve [vm_compute; repeat split; intros;
             first [reflexivity | discriminate]]
    | solve [cbn; unfold INT32_MAX; lia] ].

Lemma putc_ln_iac_one_slot_witness :
  conn one_slot_line <> 0 /\ txbfd one_slot_line = 0 /\
  tx_free one_slot_line = 1 /\ is_iac 255 = true /\
  fst (fst (tmxr_putc_ln one_slot_line 255 [])) = SCPE_OK /\
  txdrp (snd (fst (tmxr_putc_ln one_slot_line 255 []))) = 1.
Proof.
  assert (Hc : conn one_slot_line <> 0) by evaluate.
  assert (Hfd : txbfd one_slot_line = 0) by evaluate.
  assert (Hok : tx_ok one_slot_line) by evaluate.
  assert (Hd : counter_ok (txdrp one_slot_line) 2) by evaluate.
  assert (Hi : is_iac 255 = true) by evaluate.
  assert (Hf : tx_free one_slot_line = 1) by evaluate.
  pose proof (putc_ln_iac_one_slot one_slot_line 255 [] Hc Hfd Hok Hd Hi Hf)
    as (H1 & _ & H3).
  split; [exact Hc |]. split; [exact Hfd |]. split; [exact Hf |].
  split; [exact Hi |]. split; [exact H1 |].
  rewrite H3. reflexivity.
Defined.

Lemma putc_ln_buffered_witness :
  txbfd buf_full_line <> 0 /\
  fst (fst (tmxr_putc_ln buf_full_line 65 [])) = SCPE_OK /\
  tx_queue (snd (fst (tmxr_putc_ln buf_full_line 65 [])))
  = [2; 3; 4; 5; 6; 7; 65] /\
  txdrp (snd (fst (tmxr_putc_ln buf_full_line 65 []))) = 1.
Proof.
  assert (Hfd : txbfd buf_full_line <> 0) by evaluate.
  assert (Hok : tx_ok buf_full_line) by evaluate.
  assert (Hd : counter_ok (txdrp buf_full_line) 2) by evaluate.
  pose proof (putc_ln_buffered buf_full_line 65 [] Hfd) as (H1 & H2).
  destruct (H2 Hok Hd) as (Hq & _ & Hdr & _).
  split; [assumption |]. split; [assumption |].
  split; [rewrite Hq; reflexivity | rewrite Hdr; reflexivity].
Defined.

Lemma putc_ln_iac_doubled_witness :
  conn (set_conn 7 idle_line) <> 0 /\ 2 <= tx_free (set_conn 7 idle_line) /\
  fst (fst (tmxr_putc_ln (set_conn 7 idle_line) 255 [])) = SCPE_OK /\
  tx_queue (snd (fst (tmxr_putc_ln (set_conn 7 idle_line) 255 [])))
  = [TN_IAC; TN_IAC].
Proof.
  assert (Hc : conn (set_conn 7 idle_line) <> 0) by evaluate.
  assert (Hok : tx_ok (set_conn 7 idle_line)) by evaluate.
  assert (Hd : counter_ok (txdrp (set_conn 7 idle_line)) 2) by evaluate.
  assert (Hf : 2 <= tx_free (set_conn 7 idle_line)) by evaluate.
  assert (Hb : 0 <= 255 <= 255) by evaluate.
  pose proof (putc_ln_iac_doubled (sample_net []) (set_conn 7 idle_line)
                255 [] Hc Hok Hd Hf Hb) as (H1 & H2 & _).
  split; [exact Hc |]. split; [exact Hf |]. split; [exact H1 |].
  rewrite H2. reflexivity.
Defined.

Lemma rx_filter_cr_armed_witness :
  tsta cr_line_nobin = TNS_NORM /\
  aget (rxb cr_line_nobin) 0 = TN_CR /\ dstb cr_line_nobin <> 0 /\
  tsta (fst (rx_filter_step cr_line_nobin 0)) = TNS_CRPAD /\
  dstb wont_bin_line = 0 /\
  dstb (fst (rx_filter 3 wont_bin_line 0)) = 1 /\
  dstb will_bin_line = 1 /\
  dstb (fst (rx_filter 3 will_bin_line 0)) = 0 /\
  aget (rxb (fst (rx_filter 3 wont_bin_line 0))) 0 = TN_CR.
Proof.
  assert (Hs : tsta cr_line_nobin = TNS_NORM) by evaluate.
  assert (Hcr : aget (rxb cr_line_nobin) 0 = TN_CR) by evaluate.
  assert (Hd : dstb cr_line_nobin <> 0) by evaluate.
  pose proof (rx_filter_cr_armed cr_line_nobin 0 Hs) as (H1 & _).
  pose proof (rx_filter_cr_armed wont_bin_line 0 ltac:(evaluate))
    as (_ & _ & Hwont & _).
  pose proof (rx_filter_cr_armed will_bin_line 0 ltac:(evaluate))
    as (_ & _ & Hwill & _).
  cbv zeta in Hwont, Hwill.
  specialize (Hwont ltac:(evaluate) ltac:(evaluate) ltac:(evaluate)
                ltac:(evaluate) ltac:(evaluate) ltac:(evaluate)
                ltac:(evaluate) ltac:(evaluate)).
  specialize (Hwill ltac:(evaluate) ltac:(evaluate) ltac:(evaluate)
                ltac:(evaluate) ltac:(evaluate) ltac:(evaluate)
                ltac:(evaluate) ltac:(evaluate)).
  destruct Hwont as (Hw1 & _ & Hw3).
  destruct Hwill as (_ & Hl2 & _).
  assert (Hwo : aget (rxb wont_bin_line) (0 + 1) = TN_WONT) by reflexivity.
  assert (Hwi : aget (rxb will_bin_line) (0 + 1) = TN_WILL) by reflexivity.
  assert (Hk : 0 <= 0 < rxbpi wont_bin_line - 3) by evaluate.
  destruct (Hw3 (or_introl Hwo)) as (_ & _ & _ & _ & Hw4).
  split; [exact Hs |]. split; [exact Hcr |]. split; [exact Hd |].
  split; [apply H1; split; assumption |].
  split; [reflexivity |].
  split; [exact (Hw1 Hwo) |].
  split; [reflexivity |].
  split; [exact (Hl2 Hwi) |].
  rewrite (Hw4 0 Hk). reflexivity.
Defined.

(** C3 as stated fails on this input: a CR met in the normal state with
    [dstb] clear does not lead to the CR padding state, and with [dstb]
    set it does not leave the filter in the normal state. *)
Lemma rx_filter_cr_polarity_example :
  tsta cr_line = TNS_NORM /\ aget (rxb cr_line) 0 = TN_CR /\
  dstb cr_line = 0 /\
  tsta (fst (rx_filter_step cr_line 0)) <> TNS_CRPAD /\
  dstb cr_line_nobin <> 0 /\
  tsta (fst (rx_filter_step cr_line_nobin 0)) <> TNS_NORM.
Proof. evaluate. Qed.

Lemma poll_conn_order_overwrites_witness :
  net_accept (sample_net []) [] (master busy_mux) = (7, 0) /\
  7 <> INVALID_SOCKET /\
  conn (get_line busy_mux 1) = 6 /\
  fst (fst (tmxr_poll_conn (sample_net []) busy_mux [])) = 1 /\
  conn (get_line (snd (fst (tmxr_poll_conn (sample_net []) busy_mux []))) 1)
  = 7.
Proof.
  assert (Ha : net_accept (sample_net []) [] (master busy_mux) = (7, 0))
    by reflexivity.
  assert (Hv : 7 <> INVALID_SOCKET) by evaluate.
  pose proof (poll_conn_order_overwrites (sample_net []) [] 7 0 Ha Hv)
    as (_ & H1 & H2 & H3).
  split; [exact Ha |]. split; [exact Hv |]. split; [exact H2 |].
  split; [exact H1 | exact H3].
Defined.

Lemma poll_rx_cr_lf_after_connect_witness :
  net_accept (sample_net [65; 13; 10; 66]) [] (master sample_mux) = (7, 0) /\
  7 <> INVALID_SOCKET /\
  net_read (sample_net [65; 13; 10; 66]) [] 7 (sub32 TMXR_MAXBUF TMXR_GUARD)
  = (4, [65; 13; 10; 66]) /\
  fst (getc_n 5
         (fst (poll_rx_line (sample_net [65; 13; 10; 66])
                 (set_rcve 1
                    (get_line
                       (snd (fst (tmxr_poll_conn
                                    (sample_net [65; 13; 10; 66])
                                    sample_mux []))) 0)) []))) =
  [Z.lor TMXR_VALID 65; Z.lor TMXR_VALID 13; Z.lor TMXR_VALID 10;
   Z.lor TMXR_VALID 66; 0].
Proof.
  assert (Ha : net_accept (sample_net [65; 13; 10; 66]) [] (master sample_mux)
               = (7, 0)) by reflexivity.
  assert (Hv : 7 <> INVALID_SOCKET) by evaluate.
  assert (Hz : 7 <> 0) by evaluate.
  assert (Hr : net_read (sample_net [65; 13; 10; 66]) [] 7
                 (sub32 TMXR_MAXBUF TMXR_GUARD) = (4, [65; 13; 10; 66]))
    by reflexivity.
  pose proof (poll_rx_cr_lf_after_connect (sample_net [65; 13; 10; 66])
                sample_mux [] [] 7 0 Ha Hv Hz) as H.
  cbv zeta in H.
  specialize (H ltac:(evaluate) ltac:(evaluate) ltac:(evaluate)
                ltac:(evaluate) ltac:(evaluate) ltac:(evaluate) Hr).
  destruct H as (_ & _ & H).
  split; [exact Ha |]. split; [exact Hv |]. split; [exact Hr |].
  exact H.
Defined.

(** C2 as stated fails on this input: the line has just been connected,
    the peer has sent 41 0D 0A 42 and no option, and the LF is handed
    out like the other three characters. *)
Lemma cr_lf_not_collapsed_example :
  tsta fresh_line = TNS_NORM /\ dstb fresh_line = 0 /\
  fst (getc_n 4 (fst (poll_rx_line (sample_net [65; 13; 10; 66])
                        fresh_line []))) =
  [Z.lor TMXR_VALID 65; Z.lor TMXR_VALID 13; Z.lor TMXR_VALID 10;
   Z.lor TMXR_VALID 66] /\
  fst (getc_n 3 (fst (poll_rx_line (sample_net [65; 13; 10; 66])
                        fresh_line []))) <>
  [Z.lor TMXR_VALID 65; Z.lor TMXR_VALID 13; Z.lor TMXR_VALID 66].
Proof. evaluate. Qed.

Lemma rx_break_mapping_witness :
  fst (getc_n 4 (fst (poll_rx_line (sample_net [65; 255; 243; 66])
                        (set_rcve 1 (set_conn 7 idle_line)) []))) =
  [Z.lor TMXR_VALID 65; Z.lor (Z.lor TMXR_VALID 0) SCPE_BREAK;
   Z.lor TMXR_VALID 66; 0] /\
  aget (rxb (fst (rx_filter 2 brk_line 1))) 1 = 0 /\
  aget (rbr (fst (rx_filter 2 brk_line 1))) 1 = 1 /\
  rxbpi (fst (rx_filter 2 brk_line 1)) = 3.
Proof.
  pose proof (rx_break_mapping (sample_net [65; 255; 243; 66])) as [Hg Hs].
  split.
  - apply Hs; evaluate.
  - pose proof (Hg brk_line 1 ltac:(evaluate) ltac:(evaluate) ltac:(evaluate)
                  ltac:(evaluate) ltac:(evaluate) ltac:(evaluate)
                  ltac:(evaluate) ltac:(evaluate) ltac:(evaluate)) as H.
    cbv zeta in H. destruct H as (_ & _ & H3 & H4 & H5 & _).
    split; [exact H4 |]. split; [exact H5 |]. rewrite H3. reflexivity.
Defined.

Lemma reset_ln_state_witness :
  tx_ok queued_line /\ tx_queue queued_line = [1; 2; 3] /\
  txcnt queued_line = 9 /\
  sent 7 (snd (tmxr_reset_ln (sample_net []) queued_line [])) = [1; 2; 3] /\
  txcnt (fst (tmxr_reset_ln (sample_net []) queued_line [])) = 12.
Proof.
  assert (Hok : tx_ok queued_line) by evaluate.
  assert (Hacc : accepts_all (sample_net [])) by (intros tr s buf; reflexivity).
  assert (Herr : SOCKET_ERROR < 0) by evaluate.
  assert (Hcnt : counter_ok (txcnt queued_line) (tmxr_tqln queued_line))
    by evaluate.
  pose proof (reset_ln_state (sample_net []) queued_line []) as H.
  cbv zeta in H.
  destruct H as (_ & _ & _ & _ & _ & _ & _ & _ & _ & _ & _ & _ & _ & _ & H).
  destruct (H Hok (accepts_all_sane (sample_net []) Hacc) Herr)
    as (k & _ & Hs & Hc & _ & Ha).
  rewrite (Ha Hacc) in Hs, Hc.
  split; [exact Hok |]. split; [reflexivity |]. split; [reflexivity |].
  split; [exact Hs |]. rewrite (Hc Hcnt). reflexivity.
Defined.

(** C6 as stated fails on this input: the counters of the line are what
    they were before the reset, and a buffered line whose queue the peer
    takes in the last flush has its remove pointer moved. *)
Lemma reset_keeps_counters_example :
  rxcnt counted_line = 5 /\
  rxcnt (fst (tmxr_reset_ln (sample_net []) counted_line [])) = 5 /\
  txcnt (fst (tmxr_reset_ln (sample_net []) counted_line [])) = 9 /\
  txdrp (fst (tmxr_reset_ln (sample_net []) counted_line [])) = 2 /\
  txbfd buf_conn_line <> 0 /\ txbpr buf_conn_line = 0 /\
  txbpr (fst (tmxr_reset_ln (sample_net []) buf_conn_line [])) = 7.
Proof. evaluate. Qed.

Lemma outcvt_7b_keeps_del_witness :
  TTUF_MODE_7B <> TTUF_MODE_8B /\ Z.land 0 TTUF_M_MODE = TTUF_MODE_7B /\
  sim_tt_outcvt 10112 255 0 = 127 /\
  Z.land TTUF_MODE_8B TTUF_M_MODE = TTUF_MODE_8B /\
  sim_tt_outcvt 10112 127 TTUF_MODE_8B = 127.
Proof.
  assert (H1 : TTUF_MODE_7B <> TTUF_MODE_8B) by evaluate.
  assert (H2 : TTUF_MODE_7B <> TTUF_MODE_UC) by evaluate.
  assert (H3 : TTUF_MODE_7B <> TTUF_MODE_7P) by evaluate.
  assert (H4 : TTUF_MODE_UC <> TTUF_MODE_8B) by evaluate.
  assert (H5 : TTUF_MODE_7P <> TTUF_MODE_8B) by evaluate.
  assert (Hm : Z.land 0 TTUF_M_MODE = TTUF_MODE_7B) by reflexivity.
  assert (Hm8 : Z.land TTUF_MODE_8B TTUF_M_MODE = TTUF_MODE_8B)
    by reflexivity.
  pose proof (outcvt_7b_keeps_del 10112 255 0 H1 H2 H3 H4 H5) as (H & _).
  pose proof (outcvt_7b_keeps_del 10112 127 TTUF_MODE_8B H1 H2 H3 H4 H5)
    as (_ & _ & H8 & _).
  split; [exact H1 |]. split; [exact Hm |].
  split; [rewrite (H Hm); reflexivity |].
  split; [exact Hm8 |]. rewrite (H8 Hm8). reflexivity.
Defined.

(** C9 as stated fails on this input: in 7B mode 0x7F is returned, not
    dropped. *)
Lemma outcvt_7b_del_example :
  Z.land TTUF_MODE_7B TTUF_M_MODE = TTUF_MODE_7B /\
  sim_tt_outcvt 10112 127 TTUF_MODE_7B = 127 /\
  sim_tt_outcvt 10112 127 TTUF_MODE_7B <> -1.
Proof. evaluate. Qed.

Lemma sim_putchar_hides_status_witness :
  master (sim_con_tmxr sample_console) <> 0 /\
  conn (sim_con_ldsc sample_console) <> 0 /\
  fst (fst (sim_putchar (sample_net []) sample_console 65 [])) = SCPE_OK.
Proof.
  assert (Hm : master (sim_con_tmxr sample_console) <> 0) by evaluate.
  assert (Hc : conn (sim_con_ldsc sample_console) <> 0) by evaluate.
  pose proof (sim_putchar_hides_status (sample_net []) sample_console 65 []
                Hm Hc) as (H & _).
  split; [exact Hm |]. split; [exact Hc | exact H].
Defined.

(** ** Instances of the further properties *)

Lemma sample_net_accepts (rd : list Z) : accepts_all (sample_net rd).
Proof. intros tr s buf. reflexivity. Qed.

Lemma slow_net_sane : sane_peer slow_net.
Proof.
  intros tr s buf. right. cbn [net_write slow_net]. unfold zlen. lia.
Qed.

Lemma getc_in_order_witness :
  conn pend_line <> 0 /\ rcve pend_line <> 0 /\
  fst (getc_n 3 pend_line)
  = [Z.lor TMXR_VALID 65; Z.lor TMXR_VALID 66; 0].
Proof.
  assert (Hc : conn pend_line <> 0) by evaluate.
  assert (Hr : rcve pend_line <> 0) by evaluate.
  pose proof (getc_in_order 3 pend_line ltac:(evaluate) ltac:(evaluate))
    as [H _].
  split; [exact Hc |]. split; [exact Hr |].
  rewrite (H Hc Hr). reflexivity.
Defined.

Lemma getc_rewinds_when_empty_witness :
  rxbpr pend_line < rxbpi pend_line /\
  rxbpi (snd (getc_n 2 pend_line)) = 0 /\
  rxbpr (snd (getc_n 2 pend_line)) = 0.
Proof.
  assert (Hlt : rxbpr pend_line < rxbpi pend_line) by evaluate.
  pose proof (getc_rewinds_when_empty pend_line ltac:(evaluate)
                ltac:(evaluate) ltac:(evaluate) ltac:(evaluate)) as [_ H].
  split; [exact Hlt |]. exact (H Hlt).
Defined.

Lemma putc_unbuffered_stall_iff_witness :
  conn full_line <> 0 /\ tx_free full_line = 0 /\
  fst (fst (tmxr_putc_ln full_line 65 [])) = SCPE_STALL /\
  tx_queue (snd (fst (tmxr_putc_ln full_line 65 []))) = tx_queue full_line /\
  txdrp (snd (fst (tmxr_putc_ln full_line 65 []))) = 1.
Proof.
  assert (Hc : conn full_line <> 0) by evaluate.
  assert (Hf : tx_free full_line = 0) by evaluate.
  pose proof (putc_unbuffered_stall_iff full_line 65 [] Hc ltac:(evaluate)
                ltac:(evaluate) ltac:(evaluate)) as (H1 & _ & H3 & _).
  cbv zeta in H1, H3.
  destruct (H3 Hf) as (Hq & Hd & _).
  split; [exact Hc |]. split; [exact Hf |].
  split; [apply H1; exact Hf |]. split; [exact Hq |].
  rewrite Hd. reflexivity.
Defined.

Lemma putc_disconnected_witness :
  conn idle_line = 0 /\ txbfd idle_line = 0 /\
  tmxr_putc_ln idle_line 65 []
  = (SCPE_LOST, set_txdrp (add32 (txdrp idle_line) 1) idle_line, []).
Proof.
  assert (Hc : conn idle_line = 0) by reflexivity.
  assert (Hf : txbfd idle_line = 0) by reflexivity.
  pose proof (putc_disconnected idle_line 65 []) as [H _].
  split; [exact Hc |]. split; [exact Hf |]. exact (H Hc Hf).
Defined.

Lemma putc_keeps_ring_witness :
  tx_ok one_slot_line /\
  tx_ok (snd (fst (tmxr_putc_ln one_slot_line 255 []))) /\
  zlen (tx_queue (snd (fst (tmxr_putc_ln one_slot_line 255 [])))) <= 255.
Proof.
  assert (Hok : tx_ok one_slot_line) by evaluate.
  pose proof (putc_keeps_ring one_slot_line 255 [] Hok ltac:(evaluate))
    as (H1 & _ & H3).
  split; [exact Hok |]. split; [exact H1 | exact H3].
Defined.

Lemma send_buffered_data_fifo_witness :
  tx_ok queued_line /\ tx_queue queued_line = [1; 2; 3] /\
  fst (fst (tmxr_send_buffered_data slow_net queued_line [])) = 1 /\
  sent 7 (snd (tmxr_send_buffered_data slow_net queued_line [])) = [1; 2] /\
  tx_queue (snd (fst (tmxr_send_buffered_data slow_net queued_line [])))
  = [3].
Proof.
  assert (Hok : tx_ok queued_line) by evaluate.
  assert (Hl : fst (fst (tmxr_send_buffered_data slow_net queued_line []))
               = 1) by reflexivity.
  pose proof (send_buffered_data_fifo slow_net queued_line [] Hok
                slow_net_sane ltac:(evaluate)) as (_ & _ & _ & Hs & Hq & _).
  cbv zeta in Hs, Hq. rewrite Hl in Hs, Hq.
  split; [exact Hok |]. split; [reflexivity |]. split; [exact Hl |].
  split; [exact Hs | exact Hq].
Defined.

Lemma poll_tx_each_line_witness :
  conn (get_line (mkTMXR 2 23 3 [queued_line; idle_line] None None 0) 0)
  <> 0 /\
  tx_queue
    (get_line
       (fst (tmxr_poll_tx slow_net
               (mkTMXR 2 23 3 [queued_line; idle_line] None None 0) [])) 0)
  = [3] /\
  get_line
    (fst (tmxr_poll_tx slow_net
            (mkTMXR 2 23 3 [queued_line; idle_line] None None 0) [])) 1
  = idle_line.
Proof.
  pose proof (poll_tx_each_line slow_net
                (mkTMXR 2 23 3 [queued_line; idle_line] None None 0) [] 1
                slow_net_sane ltac:(evaluate) ltac:(evaluate)
                ltac:(evaluate) ltac:(evaluate)) as (_ & H1 & _).
  cbv zeta in H1.
  split; [evaluate |]. split; [reflexivity |].
  exact (H1 eq_refl).
Defined.

Lemma poll_conn_order_first_free_witness :
  lnorder order_mux = Some [2; 0; 1] /\
  conn (get_line order_mux 2) <> 0 /\ conn (get_line order_mux 0) = 0 /\
  fst (fst (tmxr_poll_conn (sample_net []) order_mux [])) = 0 /\
  conn (get_line (snd (fst (tmxr_poll_conn (sample_net []) order_mux []))) 0)
  = 7.
Proof.
  assert (Hl : lnorder order_mux = Some [2; 0; 1]) by reflexivity.
  assert (Hb : conn (get_line order_mux 2) <> 0) by evaluate.
  assert (Hf : conn (get_line order_mux 0) = 0) by reflexivity.
  assert (Hval : forall k, (k < Z.to_nat (lines order_mux))%nat ->
                           0 <= nth k [2; 0; 1] (-1) < lines order_mux).
  { intros k Hk. change (Z.to_nat (lines order_mux)) with 3%nat in Hk.
    destruct k as [| [| [| k]]]; cbn; lia. }
  assert (Hbusy : forall k, (k < 1)%nat ->
                    conn (get_line order_mux (nth k [2; 0; 1] (-1))) <> 0).
  { intros k Hk. destruct k as [| k]; [exact Hb | lia]. }
  pose proof (poll_conn_order_first_free (sample_net []) order_mux [2; 0; 1]
                1%nat [] 7 0 Hl ltac:(evaluate) ltac:(evaluate) Hval
                ltac:(cbn; lia) Hf Hbusy eq_refl ltac:(evaluate))
    as (H1 & H2 & _).
  split; [exact Hl |]. split; [exact Hb |]. split; [exact Hf |].
  split; [exact H1 | exact H2].
Defined.

Lemma poll_conn_outcome_witness :
  0 <= lines sample_mux <= zlen_lines sample_mux /\
  (fst (fst (tmxr_poll_conn (sample_net []) sample_mux [])) = -1 \/
   0 <= fst (fst (tmxr_poll_conn (sample_net []) sample_mux []))
   < lines sample_mux).
Proof.
  assert (Hl : 0 <= lines sample_mux <= zlen_lines sample_mux) by evaluate.
  pose proof (poll_conn_outcome (sample_net []) sample_mux []
                ltac:(evaluate) ltac:(evaluate)) as H.
  cbv zeta in H. split; [exact Hl |].
  destruct H as [[H _] | [H _]]; [left | right]; exact H.
Defined.

Lemma linemsg_buffered_retains_witness :
  txbfd buf_full_line <> 0 /\ tx_queue buf_full_line = [1; 2; 3; 4; 5; 6; 7] /\
  tx_queue (fst (tmxr_linemsg buf_full_line "AB" []))
  = [3; 4; 5; 6; 7; 65; 66] /\
  txdrp (fst (tmxr_linemsg buf_full_line "AB" [])) = 2.
Proof.
  assert (Hfd : txbfd buf_full_line <> 0) by evaluate.
  pose proof (linemsg_buffered_retains buf_full_line "AB" [] Hfd
                ltac:(evaluate) ltac:(evaluate)) as (_ & Hq & Hd & _).
  cbv zeta in Hq, Hd.
  split; [exact Hfd |]. split; [reflexivity |].
  split; [rewrite Hq; reflexivity |].
  rewrite Hd, Hq. reflexivity.
Defined.

Lemma linemsg_queues_message_witness :
  conn (set_conn 7 idle_line) <> 0 /\
  tx_queue (fst (tmxr_linemsg (set_conn 7 idle_line) "Hi" [])) = [72; 105] /\
  sent 7 (snd (tmxr_linemsg (set_conn 7 idle_line) "Hi" [])) = [].
Proof.
  assert (Hc : conn (set_conn 7 idle_line) <> 0) by evaluate.
  pose proof (linemsg_queues_message (set_conn 7 idle_line) "Hi" [] Hc
                ltac:(evaluate) ltac:(evaluate) ltac:(evaluate))
    as (_ & Hq & _ & Hs).
  cbv zeta in Hq, Hs.
  split; [exact Hc |]. split; [rewrite Hq; reflexivity | exact Hs].
Defined.

Lemma poll_conn_greets_witness :
  net_accept (sample_net []) [] (master sample_mux) = (7, 0) /\
  sent 7 (snd (tmxr_poll_conn (sample_net []) sample_mux []))
  = mantra ++ cstr (conn_msg sample_mux 0) /\
  txcnt (get_line (snd (fst (tmxr_poll_conn (sample_net []) sample_mux []))) 0)
  = 0.
Proof.
  assert (Ha : net_accept (sample_net []) [] (master sample_mux) = (7, 0))
    by reflexivity.
  assert (Hno : ~ In TN_IAC (cstr (conn_msg sample_mux 0))).
  { vm_compute. intros H.
    repeat (destruct H as [H | H]; [discriminate H |]). exact H. }
  assert (Hoth : forall k, 0 <= k < lines sample_mux -> k <> 0 ->
                   conn (get_line sample_mux k) <> 7).
  { intros k Hk Hne. change (lines sample_mux) with 1 in Hk. lia. }
  assert (Herr : SOCKET_ERROR < 0) by evaluate.
  assert (Hl : 0 <= lines sample_mux <= zlen_lines sample_mux) by evaluate.
  assert (Hm : zlen_lines sample_mux <= INT32_MAX) by evaluate.
  assert (Hv : 7 <> INVALID_SOCKET) by evaluate.
  assert (Hz : 7 <> 0) by evaluate.
  pose proof (poll_conn_greets (sample_net []) sample_mux [] 7 0
                (sample_net_accepts []) Herr eq_refl Hl Hm Ha Hv Hz) as H.
  cbv zeta in H.
  change (find_line sample_mux (Z.to_nat (lines sample_mux)) 0
            (lines sample_mux) 0) with 0 in H.
  specialize (H ltac:(evaluate) ltac:(evaluate) eq_refl ltac:(evaluate)
                ltac:(evaluate) Hno Hoth).
  destruct H as (Hs & _ & _ & _ & Hc & _).
  split; [exact Ha |]. split; [exact Hs | exact Hc].
Defined.

Lemma rx_filter_passes_bound_witness :
  0 <= 0 <= rxbpi brk_line /\
  snd (rx_filter 9 brk_line 0) = rxbpi (fst (rx_filter 9 brk_line 0)) /\
  rx_filter (9 + 5) brk_line 0 = rx_filter 9 brk_line 0.
Proof.
  assert (Hj : 0 <= 0 <= rxbpi brk_line) by evaluate.
  pose proof (rx_filter_passes_bound 9 5 brk_line 0 Hj ltac:(evaluate)
                ltac:(evaluate)) as [H1 H2].
  split; [exact Hj |]. split; [exact H1 | exact H2].
Defined.

Lemma poll_rx_binary_transparent_witness :
  dstb (set_rcve 1 (set_conn 7 idle_line)) = 0 /\
  fst (getc_n 4 (fst (poll_rx_line (sample_net [13; 10; 0])
                        (set_rcve 1 (set_conn 7 idle_line)) [])))
  = [Z.lor TMXR_VALID 13; Z.lor TMXR_VALID 10; Z.lor TMXR_VALID 0; 0].
Proof.
  assert (Hpl : forall b, In b [13; 10; 0] -> to_char b <> TN_IAC).
  { intros b Hb. repeat (destruct Hb as [<- | Hb]; [discriminate |]).
    destruct Hb. }
  pose proof (poll_rx_binary_transparent (sample_net [13; 10; 0])
                (set_rcve 1 (set_conn 7 idle_line)) [] [13; 10; 0]
                ltac:(evaluate) ltac:(evaluate) eq_refl eq_refl eq_refl
                eq_refl eq_refl ltac:(evaluate) ltac:(evaluate)
                ltac:(evaluate) ltac:(evaluate) Hpl) as H.
  split; [reflexivity |]. exact H.
Defined.

Lemma rx_filter_cr_pad_witness :
  dstb cr_lf_line <> 0 /\ aget (rxb cr_lf_line) 0 = TN_CR /\
  aget (rxb cr_lf_line) 1 = TN_LF /\
  rxbpi (fst (rx_filter 2 cr_lf_line 0)) = 2 /\
  aget (rxb (fst (rx_filter 2 cr_lf_line 0))) 0 = TN_CR /\
  aget (rxb (fst (rx_filter 2 cr_lf_line 0))) 1 = 66.
Proof.
  assert (Hd : dstb cr_lf_line <> 0) by evaluate.
  assert (Hcr : aget (rxb cr_lf_line) 0 = TN_CR) by reflexivity.
  assert (Hlf : aget (rxb cr_lf_line) (0 + 1) = TN_LF) by reflexivity.
  pose proof (rx_filter_cr_pad cr_lf_line 0 eq_refl Hd Hcr ltac:(evaluate)
                ltac:(evaluate) ltac:(evaluate) ltac:(evaluate)
                ltac:(evaluate) ltac:(evaluate)) as (_ & _ & _ & H4 & H5 & _).
  cbv zeta in H4, H5.
  destruct (H5 (or_introl Hlf)) as [Hpi Hsh].
  assert (H0 : 0 <= 0 <= 0) by lia.
  assert (H1 : 0 < 1 < rxbpi cr_lf_line - 1) by evaluate.
  split; [exact Hd |]. split; [exact Hcr |]. split; [exact Hlf |].
  split; [rewrite Hpi; reflexivity |].
  split; [rewrite (H4 0 H0); reflexivity |].
  rewrite (Hsh 1 H1). reflexivity.
Defined.

Lemma rx_filter_iac_iac_witness :
  aget (rxb iac_iac_line) 0 = TN_IAC /\ aget (rxb iac_iac_line) 1 = TN_IAC /\
  rxbpi (fst (rx_filter 2 iac_iac_line 0)) = 2 /\
  aget (rxb (fst (rx_filter 2 iac_iac_line 0))) 0 = TN_IAC /\
  aget (rxb (fst (rx_filter 2 iac_iac_line 0))) 1 = 65.
Proof.
  assert (H0 : aget (rxb iac_iac_line) 0 = TN_IAC) by reflexivity.
  assert (H1 : aget (rxb iac_iac_line) (0 + 1) = TN_IAC) by reflexivity.
  pose proof (rx_filter_iac_iac iac_iac_line 0 eq_refl H0 H1 ltac:(evaluate)
                ltac:(evaluate) ltac:(evaluate) ltac:(evaluate)
                ltac:(evaluate) ltac:(evaluate))
    as (_ & _ & _ & Hpi & Hi & _ & _ & Hsh).
  cbv zeta in Hpi, Hi, Hsh.
  assert (Hk : 0 < 1 < rxbpi iac_iac_line - 1) by evaluate.
  split; [exact H0 |]. split; [exact H1 |].
  split; [rewrite Hpi; reflexivity |]. split; [exact Hi |].
  rewrite (Hsh 1 Hk). reflexivity.
Defined.

Lemma close_master_disconnects_witness :
  conn (get_line busy_mux 0) <> 0 /\ conn (get_line busy_mux 1) <> 0 /\
  master (snd (fst (tmxr_close_master (sample_net []) busy_mux []))) = 0 /\
  conn (get_line (snd (fst (tmxr_close_master (sample_net []) busy_mux [])))
          0) = 0 /\
  conn (get_line (snd (fst (tmxr_close_master (sample_net []) busy_mux [])))
          1) = 0.
Proof.
  pose proof (close_master_disconnects (sample_net []) busy_mux []
                ltac:(evaluate) ltac:(evaluate))
    as (_ & Hm & _ & _ & _ & _ & _ & Hk & _).
  cbv zeta in Hm, Hk.
  assert (H0 : 0 <= 0 < lines busy_mux) by evaluate.
  assert (H1 : 0 <= 1 < lines busy_mux) by evaluate.
  split; [evaluate |]. split; [evaluate |]. split; [exact Hm |].
  split; [exact (proj1 (Hk 0 H0)) | exact (proj1 (Hk 1 H1))].
Defined.

Lemma close_line_farewell_witness :
  conn (set_conn 7 idle_line) <> 0 /\
  sent 7 (snd (close_line (sample_net []) (set_conn 7 idle_line) []))
  = cstr (crlf ++ "Disconnected from the VAX simulator" ++ crlf ++ lf).
Proof.
  assert (Hc : conn (set_conn 7 idle_line) <> 0) by evaluate.
  assert (Herr : SOCKET_ERROR < 0) by evaluate.
  assert (Hok : tx_ok (set_conn 7 idle_line)) by evaluate.
  pose proof (close_line_farewell (sample_net []) (set_conn 7 idle_line) []
                (sample_net_accepts []) Herr Hc Hok) as H.
  cbv zeta in H.
  specialize (H ltac:(evaluate) ltac:(evaluate)).
  destruct H as (Hs & _).
  change (conn (set_conn 7 idle_line)) with 7 in Hs.
  split; [exact Hc |]. rewrite Hs. reflexivity.
Defined.


Lemma swap_data_reverses_witness :
  4 * 3 <= zlen sample_buf /\
  aget (sim_buf_swap_data 0 sample_buf 4 3) (1 * 4 + 0) = 8 /\
  aget (sim_buf_swap_data 0 sample_buf 4 3) (2 * 4 + 3) = 9 /\
  sim_buf_swap_data 1 sample_buf 4 3 = sample_buf.
Proof.
  assert (Hl : 4 * 3 <= zlen sample_buf) by evaluate.
  assert (Hs : 1 <= 4 < INT32_MAX) by evaluate.
  assert (Hc : 0 <= 3) by lia.
  pose proof (swap_data_reverses 0 sample_buf 4 3 Hs Hc Hl) as (_ & _ & H0).
  pose proof (swap_data_reverses 1 sample_buf 4 3 Hs Hc Hl) as (_ & H1 & _).
  cbv zeta in H0, H1.
  destruct (H0 eq_refl) as [Hin _].
  split; [exact Hl |].
  split; [rewrite (Hin 1 0) by lia; reflexivity |].
  split; [rewrite (Hin 2 3) by lia; reflexivity |].
  apply H1. discriminate.
Defined.

Lemma swap_data_involution_witness :
  sim_buf_swap_data 0 sample_buf 4 3 <> sample_buf /\
  sim_buf_swap_data 0 (sim_buf_swap_data 0 sample_buf 4 3) 4 3 = sample_buf.
Proof.
  split; [evaluate |].
  apply (swap_data_involution 0 sample_buf 4 3); evaluate.
Defined.

Lemma copy_swapped_round_trip_witness :
  aget (sim_buf_copy_swapped 0 (repeat 0 12) sample_buf 2 6) (2 * 2 + 0) = 6 /\
  aget (sim_buf_swap_data 0
          (sim_buf_copy_swapped 0 (repeat 0 12) sample_buf 2 6) 2 6) 4 = 5.
Proof.
  assert (Hs : 1 <= 2 < INT32_MAX) by evaluate.
  assert (Hl : 2 * 6 <= zlen (repeat 0 12)) by evaluate.
  pose proof (copy_swapped_round_trip 0 (repeat 0 12) sample_buf 2 6 Hs
                ltac:(lia) Hl) as (_ & _ & Hc & Hb & _).
  cbv zeta in Hc, Hb.
  split; [rewrite (Hc 2 0) by lia; reflexivity |].
  rewrite (Hb 4) by lia. reflexivity.
Defined.

Lemma inpcvt_folds_witness :
  TTUF_MODE_UC <> TTUF_MODE_8B /\
  Z.land (Z.lor TTUF_MODE_UC TTUF_KSR) TTUF_M_MODE = TTUF_MODE_UC /\
  Z.land (sim_tt_inpcvt 97 (Z.lor TTUF_MODE_UC TTUF_KSR)) 127 = 65 /\
  128 <= sim_tt_inpcvt 97 (Z.lor TTUF_MODE_UC TTUF_KSR).
Proof.
  assert (Hu : TTUF_MODE_UC <> TTUF_MODE_8B) by evaluate.
  assert (Hm : Z.land (Z.lor TTUF_MODE_UC TTUF_KSR) TTUF_M_MODE = TTUF_MODE_UC)
    by reflexivity.
  assert (Hk : Z.land (Z.lor TTUF_MODE_UC TTUF_KSR) TTUF_KSR <> 0) by evaluate.
  pose proof (inpcvt_folds 97 (Z.lor TTUF_MODE_UC TTUF_KSR) Hu)
    as (_ & _ & H & _).
  cbv zeta in H. destruct (H Hm) as (H1 & _ & H3 & _).
  split; [exact Hu |]. split; [exact Hm |].
  split; [rewrite H1; reflexivity | exact (H3 Hk)].
Defined.

Lemma outcvt_filters_witness :
  Z.land TTUF_MODE_UC TTUF_M_MODE = TTUF_MODE_UC /\
  sim_tt_outcvt 10112 97 TTUF_MODE_UC = 65 /\
  sim_tt_outcvt 10112 127 TTUF_MODE_UC = -1.
Proof.
  assert (Hu : TTUF_MODE_UC <> TTUF_MODE_8B) by evaluate.
  assert (Hp : TTUF_MODE_7P <> TTUF_MODE_8B) by evaluate.
  assert (Hpu : TTUF_MODE_7P <> TTUF_MODE_UC) by evaluate.
  assert (Hm : Z.land TTUF_MODE_UC TTUF_M_MODE = TTUF_MODE_UC) by reflexivity.
  pose proof (outcvt_filters 10112 97 TTUF_MODE_UC Hu Hp Hpu) as [H1 _].
  pose proof (outcvt_filters 10112 127 TTUF_MODE_UC Hu Hp Hpu) as [H2 _].
  cbv zeta in H1, H2.
  split; [exact Hm |]. split.
  - destruct (H1 Hm) as [E | (E & _)]; [discriminate E | rewrite E; reflexivity].
  - destruct (H2 Hm) as [E | (_ & Hr & _)]; [exact E |].
    exfalso. revert Hr. evaluate.
Defined.

Lemma reset_then_io_witness :
  txbfd pend_line = 0 /\ txlog pend_line = None /\
  fst (fst (tmxr_putc_ln (fst (tmxr_reset_ln (sample_net []) pend_line []))
              65 (snd (tmxr_reset_ln (sample_net []) pend_line []))))
  = SCPE_LOST /\
  fst (tmxr_getc_ln (fst (tmxr_reset_ln (sample_net []) pend_line []))) = 0.
Proof.
  assert (Hf : txbfd pend_line = 0) by reflexivity.
  assert (Hl : txlog pend_line = None) by reflexivity.
  pose proof (reset_then_io (sample_net []) pend_line 65 [] Hf Hl)
    as (H1 & _ & _ & _ & H5).
  split; [exact Hf |]. split; [exact Hl |]. split; [exact H1 | exact H5].
Defined.
